(** * check_caddy_status: a model of scripts/check_caddy_status.py

    The script looks up the latest Caddy release, asks Docker Hub whether the
    official image of that version covers the required platforms, asks the
    configured registry (Docker Hub or GHCR) the same about the custom image,
    and writes NEEDS_BUILD / LATEST_VERSION to the GITHUB_OUTPUT file.

    The embedding is shallow: every Python function is a Rocq function of the
    same name in a monad of exceptions, cursors and events.  The events are
    what the process did (outbound requests, log lines, text appended to
    files); the things the process cannot control (HTTP outcomes, drawn
    UUIDs, whether a file can be written, the environment) are read from a
    [World].

    What the model leaves out: a Python str is the string of its UTF-8
    bytes; of a response only the status code and the outcome of
    response.json() are kept, not its text, which the script only logs; a
    log line is its f-string and the placeholder values that the model has,
    without timestamps, exception texts and set renderings; a write to the
    output file either appends the whole entry or fails as a whole. *)

From Stdlib Require Import ZArith String Ascii List Bool Lia.
From stdpp Require Import base decidable option list strings pretty gmap.

Set Warnings "-register-all,-clear-no-such-hyp".

Open Scope string_scope.
Open Scope Z_scope.

(** ** Python values as json.loads produces them *)

(** A float is identified by its Python [repr] text (e.g. "0.5", "1e+22",
    "nan"); a dict is the list of its items in insertion order, looked up by
    the first matching key. *)
Inductive json : Type :=
| JNull
| JBool (b : bool)
| JInt (z : Z)
| JFloat (repr : string)
| JStr (s : string)
| JList (l : list json)
| JDict (d : list (string * json)).

(** Python exceptions that the script can meet.  [Timeout] and [HTTPError]
    are requests.exceptions classes, [RequestException] stands for every other
    instance of requests.exceptions.RequestException and [JSONDecodeError] for
    what response.json() raises on a malformed body. *)
Inductive exn : Type :=
| Timeout
| HTTPError (status : Z)
| RequestException
| JSONDecodeError
| OSError
| TypeError
| AttributeError
| KeyError.

(** The exception classes named in the script's except clauses.  The error of
    response.json() is both a json.JSONDecodeError and a RequestException
    (requests.exceptions.JSONDecodeError inherits from both). *)
Inductive exn_class : Type :=
| cls_Timeout
| cls_HTTPError
| cls_RequestException
| cls_JSONDecodeError
| cls_OSError
| cls_Exception.

Definition isinstance_exn (e : exn) (c : exn_class) : bool :=
  match c, e with
  | cls_Exception, _ => true
  | cls_Timeout, Timeout => true
  | cls_HTTPError, HTTPError _ => true
  | cls_RequestException, (Timeout | HTTPError _ | RequestException | JSONDecodeError) => true
  | cls_JSONDecodeError, JSONDecodeError => true
  | cls_OSError, OSError => true
  | _, _ => false
  end.

(** How a computation ends: it returns, the process exits through sys.exit,
    or an exception propagates. *)
Inductive Res (A : Type) : Type :=
| Ret (a : A)
| Exit (code : Z)
| Raise (e : exn).
Arguments Ret {A} a.
Arguments Exit {A} code.
Arguments Raise {A} e.

Module Py.

(** bool(x) *)
Definition truthy (j : json) : bool :=
  match j with
  | JNull => false
  | JBool b => b
  | JInt z => negb (z =? 0)
  | JFloat r => negb (String.eqb r "0.0" || String.eqb r "-0.0")
  | JStr s => negb (String.eqb s "")
  | JList l => match l with [] => false | _ => true end
  | JDict d => match d with [] => false | _ => true end
  end.

(** x == "literal" *)
Definition eq_str (j : json) (s : string) : bool :=
  match j with
  | JStr t => String.eqb t s
  | _ => false
  end.

Definition isinstance_list (j : json) : bool :=
  match j with JList _ => true | _ => false end.

Definition isinstance_dict (j : json) : bool :=
  match j with JDict _ => true | _ => false end.

(** d[key] on the items of a dict *)
Fixpoint lookup (key : string) (d : list (string * json)) : option json :=
  match d with
  | [] => None
  | (k, v) :: d' => if String.eqb k key then Some v else lookup key d'
  end.

(** x.get(key, default): only dicts have the method *)
Definition get_default (x : json) (key : string) (default : json) : Res json :=
  match x with
  | JDict d => Ret (match lookup key d with Some v => v | None => default end)
  | _ => Raise AttributeError
  end.

(** x.get(key) *)
Definition get (x : json) (key : string) : Res json :=
  get_default x key JNull.

(** s in t for two strings *)
Fixpoint substring_of (s t : string) : bool :=
  String.prefix s t ||
  match t with
  | EmptyString => false
  | String _ t' => substring_of s t'
  end.

(** "literal" in x *)
Definition contains_str (x : json) (s : string) : Res bool :=
  match x with
  | JDict d => Ret (match lookup s d with Some _ => true | None => false end)
  | JList l => Ret (existsb (fun e => eq_str e s) l)
  | JStr t => Ret (substring_of s t)
  | _ => Raise TypeError
  end.

(** x["literal"] *)
Definition getitem_str (x : json) (key : string) : Res json :=
  match x with
  | JDict d => match lookup key d with Some v => Ret v | None => Raise KeyError end
  | _ => Raise TypeError
  end.

(** The items that [for m in x] visits: the elements of a list, the keys of
    a dict, the characters of a string. *)
Definition iter (x : json) : Res (list json) :=
  match x with
  | JList l => Ret l
  | JDict d => Ret (map (fun kv => JStr (fst kv)) d)
  | JStr s => Ret (map (fun c => JStr (String c EmptyString)) (list_ascii_of_string s))
  | _ => Raise TypeError
  end.

(** x.startswith(p): a method of str only *)
Definition startswith (x : json) (p : string) : Res bool :=
  match x with
  | JStr s => Ret (String.prefix p s)
  | _ => Raise AttributeError
  end.

(** s.lstrip('v') *)
Fixpoint lstrip_v (s : string) : string :=
  match s with
  | String c s' => if Ascii.eqb c "v" then lstrip_v s' else s
  | EmptyString => s
  end.

(** '\n' in s *)
Definition newline : string := String (ascii_of_nat 10) EmptyString.

Definition has_newline (s : string) : bool := substring_of newline s.

End Py.

(** ** The world outside the process *)

Record Request : Type := {
  url : string;
  headers : list (string * string);
  timeout : Z
}.

(** A response as the script reads it: its status code and what
    response.json() makes of the body ([None]: the body is not JSON). *)
Record Response : Type := {
  status_code : Z;
  body : option json
}.

Inductive Outcome : Type :=
| Responds (r : Response)
| TimesOut
| Fails.

(** [CUSTOM_IMAGE] and [CUSTOM_REGISTRY] are the module-level constants of
    these names, as evaluated from the environment at import (the latter
    already lower-cased).  [requests_outcome n] is the outcome of the n-th
    outbound request of the run, [uuid4 n] the n-th UUID drawn,
    [append_succeeds n] tells whether the n-th attempt to open a file for
    appending and write to it goes through (OSError otherwise), and
    [str_of_container] is Python's str() of a list or dict. *)
Record World : Type := {
  CUSTOM_IMAGE : string;
  CUSTOM_REGISTRY : string;
  environ : string -> option string;
  requests_outcome : nat -> Request -> Outcome;
  uuid4 : nat -> string;
  append_succeeds : nat -> string -> bool;
  str_of_container : json -> string
}.

(** ** What the process does *)

(** A log line: the f-string as written in the source, and the values of the
    placeholders that the model tracks. *)
Record Message : Type := {
  template : string;
  args : list string
}.

Inductive Event : Type :=
| Get (r : Request)
| Info (m : Message)
| Warning (m : Message)
| Error (m : Message)
| Append (path : string) (text : string).

(** The process reads the world through three cursors. *)
Record State : Type := {
  requests_made : nat;
  uuids_drawn : nat;
  appends_tried : nat
}.

Definition initial : State :=
  {| requests_made := 0; uuids_drawn := 0; appends_tried := 0 |}.

(** What came of running a computation: how it ended, where the cursors
    stand, and the events it produced, in order. *)
Record Ran (A : Type) : Type := {
  result : Res A;
  cursors : State;
  events : list Event
}.
Arguments result {A} r.
Arguments cursors {A} r.
Arguments events {A} r.

Definition M (A : Type) : Type := State -> Ran A.

Definition ret {A} (a : A) : M A :=
  fun st => {| result := Ret a; cursors := st; events := [] |}.

(** A run with the events [evs] in front of its own. *)
Definition prepend {A} (evs : list Event) (r : Ran A) : Ran A :=
  match r with
  | {| result := x; cursors := st; events := evs' |} =>
      {| result := x; cursors := st; events := evs ++ evs' |}
  end.

Definition bind {A B} (m : M A) (k : A -> M B) : M B :=
  fun st =>
    match m st with
    | {| result := Ret a; cursors := st'; events := evs |} => prepend evs (k a st')
    | {| result := Exit c; cursors := st'; events := evs |} =>
        {| result := Exit c; cursors := st'; events := evs |}
    | {| result := Raise e; cursors := st'; events := evs |} =>
        {| result := Raise e; cursors := st'; events := evs |}
    end.

Definition lift {A} (r : Res A) : M A :=
  fun st => {| result := r; cursors := st; events := [] |}.

Definition emit (e : Event) : M unit :=
  fun st => {| result := Ret tt; cursors := st; events := [e] |}.

Declare Scope py_scope.
Delimit Scope py_scope with py.
Notation "x <- c1 ;; c2" := (bind c1 (fun x => c2))
  (at level 100, c1 at next level, right associativity) : py_scope.
Notation "c1 ;; c2" := (bind c1 (fun _ => c2))
  (at level 100, right associativity) : py_scope.
Open Scope py_scope.

(** sys.exit(code) *)
Definition sys_exit {A} (code : Z) : M A := lift (Exit code).

(** try: m / except c1: h1 / except c2: h2 ...: the first clause whose class
    the exception is an instance of handles it; SystemExit passes through. *)
Definition try_except {A} (m : M A) (handlers : list (exn_class * (exn -> M A))) : M A :=
  fun st =>
    match m st with
    | {| result := Raise e; cursors := st'; events := evs |} =>
        match List.find (fun h => isinstance_exn e (fst h)) handlers with
        | Some h => prepend evs (snd h e st')
        | None => {| result := Raise e; cursors := st'; events := evs |}
        end
    | r => r
    end.

Definition log_error (message : string) (values : list string) : M unit :=
  emit (Error {| template := message; args := values |}).

Definition log_info (message : string) (values : list string) : M unit :=
  emit (Info {| template := message; args := values |}).

Definition log_warning (message : string) (values : list string) : M unit :=
  emit (Warning {| template := message; args := values |}).

(** response.raise_for_status() *)
Definition raise_for_status (r : Response) : M unit :=
  if (400 <=? status_code r) && (status_code r <? 600)
  then lift (Raise (HTTPError (status_code r)))
  else ret tt.

(** response.json() *)
Definition response_json (r : Response) : M json :=
  match body r with
  | Some j => ret j
  | None => lift (Raise JSONDecodeError)
  end.

Section Script.

Variable W : World.

(** str(x), also what an f-string placeholder renders *)
Definition str (j : json) : string :=
  match j with
  | JNull => "None"
  | JBool true => "True"
  | JBool false => "False"
  | JInt z => pretty z
  | JFloat r => r
  | JStr s => s
  | JList _ | JDict _ => str_of_container W j
  end.

(** os.environ.get(key) *)
Definition environ_get (key : string) : json :=
  match environ W key with
  | Some v => JStr v
  | None => JNull
  end.

(** requests.get(url, headers=..., timeout=...) *)
Definition requests_get (u : string) (hs : list (string * string)) (t : Z) : M Response :=
  fun st =>
    let req := {| url := u; headers := hs; timeout := t |} in
    {| result := match requests_outcome W (requests_made st) req with
                 | Responds r => Ret r
                 | TimesOut => Raise Timeout
                 | Fails => Raise RequestException
                 end;
       cursors := {| requests_made := S (requests_made st);
                     uuids_drawn := uuids_drawn st;
                     appends_tried := appends_tried st |};
       events := [Get req] |}.

(** str(uuid.uuid4()) *)
Definition uuid_uuid4 : M string :=
  fun st =>
    {| result := Ret (uuid4 W (uuids_drawn st));
       cursors := {| requests_made := requests_made st;
                     uuids_drawn := S (uuids_drawn st);
                     appends_tried := appends_tried st |};
       events := [] |}.

(** with open(path, "a", encoding='utf-8') as f: the body computes the text
    it prints to f.  Either the file cannot be written (OSError, nothing
    appended) or the whole text is appended. *)
Definition with_open_append (path : string) (printed : M string) : M unit :=
  fun st =>
    let st' := {| requests_made := requests_made st;
                  uuids_drawn := uuids_drawn st;
                  appends_tried := S (appends_tried st) |} in
    if append_succeeds W (appends_tried st) path
    then (text <- printed ;; emit (Append path text)) st'
    else {| result := Raise OSError; cursors := st'; events := [] |}.

(** *** Configuration (lines 9-18) *)

Definition GITHUB_REPO : string := "caddyserver/caddy".
Definition OFFICIAL_CADDY_IMAGE : string := "library/caddy".
Definition CUSTOM_TAG_PREFIX : string := "".
Definition REQUIRED_PLATFORMS : gset string := {[ "linux/amd64"; "linux/arm64" ]}.

(** *** set_action_output (lines 27-47) *)

Definition set_action_output (output_name value : string) : M unit :=
  match environ W "GITHUB_OUTPUT" with
  | None =>
      log_warning "GITHUB_OUTPUT environment variable not found. Cannot set output '{output_name}'."
        [output_name]
  | Some output_path =>
      let output_value := value in
      try_except
        (with_open_append output_path
           (if Py.has_newline output_value then
              u <- uuid_uuid4 ;;
              let delimiter := "ghadelimiter_" ++ u in
              ret (output_name ++ "<<" ++ delimiter ++ Py.newline
                   ++ output_value ++ Py.newline
                   ++ delimiter ++ Py.newline)
            else
              ret (output_name ++ "=" ++ output_value ++ Py.newline)))
        [(cls_OSError, fun e =>
            log_error "Error writing to GITHUB_OUTPUT file at {output_path}: {e}" [output_path] ;;
            sys_exit 1)]
  end.

(** *** get_latest_caddy_release (lines 50-84) *)

Definition get_latest_caddy_release (token : json) : M string :=
  let url := "https://api.github.com/repos/" ++ GITHUB_REPO ++ "/releases/latest" in
  let headers :=
    if Py.truthy token then [("Authorization", "Bearer " ++ str token)] else [] in
  (if Py.truthy token
   then log_info "Fetching latest release from {url} (authenticated)" [url]
   else log_info "Fetching latest release from {url} (unauthenticated - may hit rate limits)" [url]) ;;
  try_except
    (response <- requests_get url headers 30 ;;
     raise_for_status response ;;
     release <- response_json response ;;
     tag_name <- lift (Py.get release "tag_name") ;;
     invalid <- (if negb (Py.truthy tag_name) then ret true
                 else v <- lift (Py.startswith tag_name "v") ;; ret (negb v)) ;;
     if invalid then
       log_error "Invalid or missing 'tag_name' in GitHub release response: {tag_name}" [str tag_name] ;;
       sys_exit 1
     else
       log_info "Latest Caddy GitHub release tag found: {tag_name}" [str tag_name] ;;
       (* tag_name is a str here: startswith has just succeeded on it *)
       match tag_name with
       | JStr s => ret s
       | _ => lift (Raise AttributeError)
       end)
    [(cls_Timeout, fun e =>
        log_error "Timeout fetching latest GitHub release from {url}" [url] ;;
        sys_exit 1);
     (cls_HTTPError, fun e =>
        let status := match e with HTTPError c => c | _ => 0 end in
        log_error "HTTP Error fetching latest GitHub release: {e.response.status_code} {e}"
          [pretty status] ;;
        (if (400 <=? status) && (status <? 500)
         then log_error "Response body: {e.response.text[:500]}" []
         else ret tt) ;;
        sys_exit 1);
     (cls_RequestException, fun e =>
        log_error "Network error fetching latest GitHub release: {e}" [] ;;
        sys_exit 1);
     (cls_JSONDecodeError, fun e =>
        log_error "Error decoding GitHub API JSON response: {e}" [] ;;
        sys_exit 1)].

(** *** check_docker_hub_tag (lines 87-107) *)

Definition check_docker_hub_tag (image_name tag : string) : M json :=
  let url := "https://hub.docker.com/v2/repositories/" ++ image_name ++ "/tags/" ++ tag in
  try_except
    (response <- requests_get url [] 45 ;;
     if status_code response =? 200 then
       response_json response
     else if status_code response =? 404 then
       ret JNull
     else
       log_error "Unexpected status {response.status_code} checking Docker Hub tag '{tag}' for '{image_name}'. Response: {response.text[:200]}"
         [pretty (status_code response); tag; image_name] ;;
       ret JNull)
    [(cls_Timeout, fun e =>
        log_error "Timeout checking Docker Hub tag '{tag}' for '{image_name}' at {url}"
          [tag; image_name; url] ;;
        ret JNull);
     (cls_RequestException, fun e =>
        log_error "Network error checking Docker Hub tag '{tag}' for '{image_name}': {e}"
          [tag; image_name] ;;
        ret JNull);
     (cls_JSONDecodeError, fun e =>
        log_error "Error decoding Docker Hub API response for tag '{tag}' of '{image_name}': {e}. Response: {response.text[:200]}"
          [tag; image_name] ;;
        ret JNull)].

(** *** check_ghcr_tag (lines 110-224) *)

(** The platform entry built at lines 171-176 and again at 201-206. *)
Definition image_entry (os_name arch variant : json) : json :=
  JDict ([("os", os_name); ("architecture", arch)]
         ++ (if Py.truthy variant then [("variant", variant)] else [])).

(** The loop of lines 164-177 over the child manifests still to visit. *)
Fixpoint ghcr_index_images (manifests images : list json) : M (list json) :=
  match manifests with
  | [] => ret images
  | m :: rest =>
      platform <- lift (Py.get_default m "platform" (JDict [])) ;;
      os_name <- lift (Py.get platform "os") ;;
      arch <- lift (Py.get platform "architecture") ;;
      variant <- lift (Py.get platform "variant") ;;
      if Py.truthy os_name && Py.truthy arch
      then ghcr_index_images rest (images ++ [image_entry os_name arch variant])
      else ghcr_index_images rest images
  end.

(** Lines 118-136: exchange the GitHub token for a registry token. *)
Definition ghcr_registry_token (image_name : string) (token : json) : M json :=
  let auth_url := "https://ghcr.io/token?scope=repository:" ++ image_name ++ ":pull" in
  try_except
    (auth_response <- requests_get auth_url [("Authorization", "Bearer " ++ str token)] 30 ;;
     if status_code auth_response =? 200 then
       granted <- response_json auth_response ;;
       lift (Py.get granted "token")
     else
       log_info "Could not get GHCR registry token, status: {auth_response.status_code}"
         [pretty (status_code auth_response)] ;;
       ret token)
    [(cls_Exception, fun e =>
        log_info "Error getting GHCR registry token: {e}, falling back to direct token" [] ;;
        ret token)].

(** Lines 138-224: fetch the manifest of the tag with the registry token. *)
Definition ghcr_manifest (image_name tag : string) (registry_token : json) : M json :=
  let manifest_url := "https://ghcr.io/v2/" ++ image_name ++ "/manifests/" ++ tag in
  let headers :=
    [("Authorization", "Bearer " ++ str registry_token);
     ("Accept", "application/vnd.oci.image.index.v1+json, application/vnd.docker.distribution.manifest.list.v2+json")] in
  try_except
    (response <- requests_get manifest_url headers 45 ;;
     if status_code response =? 404 then
       ret JNull
     else if (status_code response =? 401) || (status_code response =? 403) then
       log_error "Authentication failed for GHCR.io (status {response.status_code}). Response: {response.text[:200]}"
         [pretty (status_code response)] ;;
       log_error "Make sure the package '{image_name}' is public or GITHUB_TOKEN has 'packages: read' permission."
         [image_name] ;;
       ret JNull
     else if negb (status_code response =? 200) then
       log_error "Unexpected status {response.status_code} checking GHCR.io tag '{tag}' for '{image_name}'. Response: {response.text[:200]}"
         [pretty (status_code response); tag; image_name] ;;
       ret JNull
     else
       manifest <- response_json response ;;
       mediaType <- lift (Py.get manifest "mediaType") ;;
       if Py.eq_str mediaType "application/vnd.oci.image.index.v1+json"
          || Py.eq_str mediaType "application/vnd.docker.distribution.manifest.list.v2+json"
       then
         listed <- lift (Py.get_default manifest "manifests" (JList [])) ;;
         children <- lift (Py.iter listed) ;;
         images <- ghcr_index_images children [] ;;
         ret (match images with
              | [] => JNull
              | _ => JDict [("images", JList images)]
              end)
       else if Py.eq_str mediaType "application/vnd.oci.image.manifest.v1+json"
               || Py.eq_str mediaType "application/vnd.docker.distribution.manifest.v2+json"
       then
         config_ref <- lift (Py.get_default manifest "config" (JDict [])) ;;
         config_digest <- lift (Py.get config_ref "digest") ;;
         extracted <-
           (if Py.truthy config_digest then
              let config_url :=
                "https://ghcr.io/v2/" ++ image_name ++ "/blobs/" ++ str config_digest in
              let config_headers :=
                [("Authorization", "Bearer " ++ str registry_token);
                 ("Accept", "application/vnd.oci.image.config.v1+json")] in
              config_response <- requests_get config_url config_headers 45 ;;
              if status_code config_response =? 200 then
                config <- response_json config_response ;;
                os_name <- lift (Py.get config "os") ;;
                arch <- lift (Py.get config "architecture") ;;
                variant <- lift (Py.get config "variant") ;;
                if Py.truthy os_name && Py.truthy arch
                then ret (Some (JDict [("images", JList [image_entry os_name arch variant])]))
                else ret None
              else ret None
            else ret None) ;;
         match extracted with
         | Some found => ret found
         | None =>
             log_error "Could not extract platform info from single-arch manifest for '{image_name}:{tag}'"
               [image_name; tag] ;;
             ret JNull
         end
       else
         log_error "Unknown manifest type for GHCR.io '{image_name}:{tag}': {manifest.get('mediaType')}"
           [image_name; tag; str mediaType] ;;
         ret JNull)
    [(cls_Timeout, fun e =>
        log_error "Timeout checking GHCR.io tag '{tag}' for '{image_name}' at {manifest_url}"
          [tag; image_name; manifest_url] ;;
        ret JNull);
     (cls_RequestException, fun e =>
        log_error "Network error checking GHCR.io tag '{tag}' for '{image_name}': {e}"
          [tag; image_name] ;;
        ret JNull);
     (cls_JSONDecodeError, fun e =>
        log_error "Error decoding GHCR.io API response for tag '{tag}' of '{image_name}': {e}. Response: {response.text[:200]}"
          [tag; image_name] ;;
        ret JNull)].

Definition check_ghcr_tag (image_name tag : string) (token : json) : M json :=
  if negb (Py.truthy token) then
    log_error "GITHUB_TOKEN environment variable not set for GHCR registry check." [] ;;
    ret JNull
  else
    registry_token <- ghcr_registry_token image_name token ;;
    ghcr_manifest image_name tag registry_token.

(** *** get_platforms_from_tag_data (lines 227-253) *)

(** Lines 244-248: the platform string of an entry that passed line 241. *)
Definition platform_str (os_name arch variant : json) : string :=
  if Py.eq_str arch "arm" && Py.eq_str variant "v7" then
    str os_name ++ "/" ++ str arch ++ "/" ++ str variant
  else if bool_decide (str os_name ++ "/" ++ str arch ∈ REQUIRED_PLATFORMS) then
    str os_name ++ "/" ++ str arch
  else "".

(** Lines 235-251: one round of the loop. *)
Definition add_platform_of (platforms : gset string) (img : json) : gset string :=
  match img with
  | JDict d =>
      let os_name := default JNull (Py.lookup "os" d) in
      let arch := default JNull (Py.lookup "architecture" d) in
      let variant := default JNull (Py.lookup "variant" d) in
      if negb (Py.eq_str os_name "linux") || negb (Py.truthy arch) then platforms
      else if bool_decide (platform_str os_name arch variant ∈ REQUIRED_PLATFORMS)
      then platforms ∪ {[ platform_str os_name arch variant ]}
      else platforms
  | _ => platforms
  end.

Definition get_platforms_from_tag_data (tag_data : json) : M (gset string) :=
  let platforms : gset string := ∅ in
  invalid <-
    (if negb (Py.truthy tag_data) then ret true
     else
       present <- lift (Py.contains_str tag_data "images") ;;
       if negb present then ret true
       else
         images <- lift (Py.getitem_str tag_data "images") ;;
         ret (negb (Py.isinstance_list images))) ;;
  if invalid : bool then
    log_info "Could not find valid 'images' list in tag data." [] ;;
    ret platforms
  else
    images <- lift (Py.getitem_str tag_data "images") ;;
    imgs <- lift (Py.iter images) ;;
    ret (fold_left add_platform_of imgs platforms).

(** *** main (lines 256-335) *)

(** not (REQUIRED_PLATFORMS - found): lines 285-287 and 317-319. *)
Definition has_all_required (found : gset string) : bool :=
  bool_decide (REQUIRED_PLATFORMS ∖ found = ∅).

Definition main : M unit :=
  let github_token := environ_get "GITHUB_TOKEN" in
  log_info "--- Starting Caddy Check at {start_time.isoformat()} ---" [] ;;
  log_info "Using registry: {CUSTOM_REGISTRY.upper()}" [CUSTOM_REGISTRY W] ;;
  if bool_decide (REQUIRED_PLATFORMS = ∅) then
    log_error "Configuration error: REQUIRED_PLATFORMS set is empty." [] ;;
    sys_exit 1
  else if negb (String.eqb (CUSTOM_REGISTRY W) "dockerhub"
                || String.eqb (CUSTOM_REGISTRY W) "ghcr") then
    log_error "Configuration error: CUSTOM_REGISTRY must be 'dockerhub' or 'ghcr', got '{CUSTOM_REGISTRY}'"
      [CUSTOM_REGISTRY W] ;;
    sys_exit 1
  else
    log_info "Required platforms: {REQUIRED_PLATFORMS}" [] ;;
    latest_gh_tag <- get_latest_caddy_release github_token ;;
    let official_docker_tag := Py.lstrip_v latest_gh_tag in
    let custom_docker_tag := CUSTOM_TAG_PREFIX ++ official_docker_tag in
    log_info "Step 1: Checking official image '{OFFICIAL_CADDY_IMAGE}:{official_docker_tag}'..."
      [OFFICIAL_CADDY_IMAGE; official_docker_tag] ;;
    official_image_data <- check_docker_hub_tag OFFICIAL_CADDY_IMAGE official_docker_tag ;;
    official_image_ready <-
      (if Py.truthy official_image_data then
         log_info "  Official tag '{official_docker_tag}' found. Verifying platforms..."
           [official_docker_tag] ;;
         found_official_platforms <- get_platforms_from_tag_data official_image_data ;;
         log_info "  Found official platforms relevant to requirements: {found_official_platforms or '{}'}" [] ;;
         if has_all_required found_official_platforms then
           log_info "  Official image has all required platforms." [] ;;
           ret true
         else
           log_info "  Official image is MISSING required platforms: {required_platforms_missing_in_official}." [] ;;
           ret false
       else
         log_info "  Official Caddy image tag '{official_docker_tag}' not found." [official_docker_tag] ;;
         ret false) ;;
    if negb official_image_ready then
      log_info "Result: Official image is not ready. No build triggered." [] ;;
      set_action_output "NEEDS_BUILD" "false" ;;
      set_action_output "LATEST_VERSION" latest_gh_tag ;;
      sys_exit 0
    else
      log_info "Step 2: Checking custom image '{CUSTOM_IMAGE}:{custom_docker_tag}' on {CUSTOM_REGISTRY.upper()}..."
        [CUSTOM_IMAGE W; custom_docker_tag; CUSTOM_REGISTRY W] ;;
      custom_tag_data <-
        (if String.eqb (CUSTOM_REGISTRY W) "dockerhub"
         then check_docker_hub_tag (CUSTOM_IMAGE W) custom_docker_tag
         else check_ghcr_tag (CUSTOM_IMAGE W) custom_docker_tag github_token) ;;
      let registry_name :=
        if String.eqb (CUSTOM_REGISTRY W) "dockerhub" then "Docker Hub" else "GHCR.io" in
      custom_image_complete <-
        (if Py.truthy custom_tag_data then
           log_info "  Custom image tag '{custom_docker_tag}' found on {registry_name}. Verifying platforms..."
             [custom_docker_tag; registry_name] ;;
           found_custom_platforms <- get_platforms_from_tag_data custom_tag_data ;;
           log_info "  Found custom platforms relevant to requirements: {found_custom_platforms or '{}'}" [] ;;
           if has_all_required found_custom_platforms then
             log_info "  Custom image on {registry_name} already exists and is complete." [registry_name] ;;
             ret true
           else
             log_info "  Custom image on {registry_name} exists but is MISSING required platforms: {required_platforms_missing_in_custom}."
               [registry_name] ;;
             ret false
         else
           log_info "  Custom image tag '{custom_docker_tag}' NOT found on {registry_name}."
             [custom_docker_tag; registry_name] ;;
           ret false) ;;
      let needs_build := negb custom_image_complete in
      log_info "Step 3: Final decision for Caddy {latest_gh_tag}: Needs build = {needs_build}"
        [latest_gh_tag; str (JBool needs_build)] ;;
      set_action_output "NEEDS_BUILD" (if needs_build then "true" else "false") ;;
      set_action_output "LATEST_VERSION" latest_gh_tag ;;
      log_info "--- Check finished at {end_time.isoformat()} (Duration: {end_time - start_time}) ---" [].

End Script.

(** ** Running the script *)

(** The exit status of the interpreter: 0 when main returns, the argument of
    sys.exit, 1 when an exception is not caught. *)
Definition exit_code {A} (r : Res A) : Z :=
  match r with
  | Ret _ => 0
  | Exit c => c
  | Raise _ => 1
  end.

Definition run (W : World) : Ran unit := main W initial.

(** ** Observing a run *)

Definition requested (evs : list Event) : list Request :=
  omap (fun e => match e with Get r => Some r | _ => None end) evs.

Definition appended (evs : list Event) : list (string * string) :=
  omap (fun e => match e with Append path text => Some (path, text) | _ => None end) evs.

Definition errors (evs : list Event) : list Message :=
  omap (fun e => match e with Error m => Some m | _ => None end) evs.

Definition warnings (evs : list Event) : list Message :=
  omap (fun e => match e with Warning m => Some m | _ => None end) evs.

(** Events of the network and the log only. *)
Definition plain (e : Event) : Prop :=
  match e with
  | Get _ | Info _ | Error _ => True
  | Warning _ | Append _ _ => False
  end.

Definition not_append (e : Event) : Prop :=
  match e with
  | Append _ _ => False
  | _ => True
  end.

Definition same_output_cursors (st st' : State) : Prop :=
  uuids_drawn st' = uuids_drawn st /\ appends_tried st' = appends_tried st.

Definition any_cursors (st st' : State) : Prop := True.

(** Every event the computation can produce satisfies [P], and it moves the
    cursors along [R]. *)
Definition confined {A} (P : Event -> Prop) (R : State -> State -> Prop) (m : M A) : Prop :=
  forall st, Forall P (events (m st)) /\ R st (cursors (m st)).

Definition after_request (st : State) : State :=
  {| requests_made := S (requests_made st);
     uuids_drawn := uuids_drawn st;
     appends_tried := appends_tried st |}.

(** The cursors when [n] requests have been made and nothing was written. *)
Definition at_request (n : nat) : State :=
  {| requests_made := n; uuids_drawn := 0; appends_tried := 0 |}.

(** ** The requests of the script *)

Definition release_request (W : World) (token : json) : Request :=
  {| url := "https://api.github.com/repos/" ++ GITHUB_REPO ++ "/releases/latest";
     headers := if Py.truthy token then [("Authorization", "Bearer " ++ str W token)] else [];
     timeout := 30 |}.

Definition docker_hub_request (image_name tag : string) : Request :=
  {| url := "https://hub.docker.com/v2/repositories/" ++ image_name ++ "/tags/" ++ tag;
     headers := [];
     timeout := 45 |}.

Definition ghcr_token_request (W : World) (image_name : string) (token : json) : Request :=
  {| url := "https://ghcr.io/token?scope=repository:" ++ image_name ++ ":pull";
     headers := [("Authorization", "Bearer " ++ str W token)];
     timeout := 30 |}.

Definition ghcr_manifest_request (W : World) (image_name tag : string) (registry_token : json)
  : Request :=
  {| url := "https://ghcr.io/v2/" ++ image_name ++ "/manifests/" ++ tag;
     headers :=
       [("Authorization", "Bearer " ++ str W registry_token);
        ("Accept", "application/vnd.oci.image.index.v1+json, application/vnd.docker.distribution.manifest.list.v2+json")];
     timeout := 45 |}.

(** The request for the configuration blob of a single-platform manifest
    (lines 188-193). *)
Definition ghcr_config_request (W : World) (image_name : string)
  (config_digest registry_token : json) : Request :=
  {| url := "https://ghcr.io/v2/" ++ image_name ++ "/blobs/" ++ str W config_digest;
     headers :=
       [("Authorization", "Bearer " ++ str W registry_token);
        ("Accept", "application/vnd.oci.image.config.v1+json")];
     timeout := 45 |}.

(** ** The specification's vocabulary *)

(** Section 4.2: the normalized platform of a descriptor entry.  Only linux
    entries that name an architecture have one; ("arm", "v7") is
    "linux/arm/v7", everything else is os/arch. *)
Definition normalized_platform (W : World) (img : json) : option string :=
  match img with
  | JDict d =>
      let os_name := default JNull (Py.lookup "os" d) in
      let arch := default JNull (Py.lookup "architecture" d) in
      let variant := default JNull (Py.lookup "variant" d) in
      if Py.eq_str os_name "linux" && Py.truthy arch then
        Some (if Py.eq_str arch "arm" && Py.eq_str variant "v7"
              then "linux/arm/v7"
              else "linux/" ++ str W arch)
      else None
  | _ => None
  end.

(** The full set of linux platforms that a list of entries publishes. *)
Definition published_platforms (W : World) (imgs : list json) : gset string :=
  list_to_set (omap (normalized_platform W) imgs).

(** The entries left when platform [p] is withdrawn from the publication. *)
Definition without_platform (W : World) (p : string) (imgs : list json) : list json :=
  List.filter (fun img => negb (bool_decide (normalized_platform W img = Some p))) imgs.

(** Section 4.3: the states of a checked image. *)
Inductive ImageState : Type :=
| ABSENT
| PRESENT_INCOMPLETE
| PRESENT_COMPLETE.

(** What the tag data returned by a registry check says of the image: the tag
    is present when the data is truthy, complete when the platforms extracted
    from it leave no required platform out. *)
Definition image_state (W : World) (tag_data : json) : Res ImageState :=
  if Py.truthy tag_data then
    match result (get_platforms_from_tag_data W tag_data initial) with
    | Ret found => Ret (if has_all_required found then PRESENT_COMPLETE else PRESENT_INCOMPLETE)
    | Exit c => Exit c
    | Raise e => Raise e
    end
  else Ret ABSENT.

(** Step 1 of main for the release [tag]: the second request of the run. *)
Definition upstream_state (W : World) (tag : string) : Res ImageState :=
  match result (check_docker_hub_tag W OFFICIAL_CADDY_IMAGE (Py.lstrip_v tag) (at_request 1)) with
  | Ret data => image_state W data
  | Exit c => Exit c
  | Raise e => Raise e
  end.

(** Step 2 of main: the check of the custom image on the selected registry,
    from the third request of the run on. *)
Definition custom_check (W : World) (tag : string) : Ran json :=
  (if String.eqb (CUSTOM_REGISTRY W) "dockerhub"
   then check_docker_hub_tag W (CUSTOM_IMAGE W) (CUSTOM_TAG_PREFIX ++ Py.lstrip_v tag)
   else check_ghcr_tag W (CUSTOM_IMAGE W) (CUSTOM_TAG_PREFIX ++ Py.lstrip_v tag)
          (environ_get W "GITHUB_TOKEN"))
    (at_request 2).

Definition custom_state (W : World) (tag : string) : Res ImageState :=
  match result (custom_check W tag) with
  | Ret data => image_state W data
  | Exit c => Exit c
  | Raise e => Raise e
  end.

(** Section 4.2, variant B: the token exchange fails when its request is not
    answered with status 200, or raises: a timeout, a network error, a body
    that is not JSON, or JSON that is not an object (no .get method). *)
Definition exchange_fails (o : Outcome) : Prop :=
  match o with
  | TimesOut | Fails => True
  | Responds resp =>
      status_code resp <> 200
      \/ body resp = None
      \/ (exists j, body resp = Some j /\ Py.isinstance_dict j = false)
  end.

Definition is_complete (s : ImageState) : bool :=
  match s with
  | PRESENT_COMPLETE => true
  | ABSENT | PRESENT_INCOMPLETE => false
  end.

(** Section 6: the entry of the output sink for a key and a value, a
    KEY=value line or a KEY<<DELIM / payload / DELIM block, when the UUID
    number [draw] makes the delimiter. *)
Definition output_entry (W : World) (draw : nat) (key value : string) : string :=
  if Py.has_newline value then
    let delim := "ghadelimiter_" ++ uuid4 W draw in
    key ++ "<<" ++ delim ++ Py.newline ++ value ++ Py.newline ++ delim ++ Py.newline
  else key ++ "=" ++ value ++ Py.newline.

(** The warning printed for a key when GITHUB_OUTPUT is not set. *)
Definition no_sink_warning (key : string) : Message :=
  {| template := "GITHUB_OUTPUT environment variable not found. Cannot set output '{output_name}'.";
     args := [key] |}.

(** The log lines that announce the decision. *)
Definition not_ready_message : Message :=
  {| template := "Result: Official image is not ready. No build triggered."; args := [] |}.

Definition decision_message (tag : string) (needs_build : bool) : Message :=
  {| template := "Step 3: Final decision for Caddy {latest_gh_tag}: Needs build = {needs_build}";
     args := [tag; if needs_build then "True" else "False"] |}.

(** How main ends once it knows that the official image is not ready
    (lines 298-300), and once it has decided (lines 331-335). *)
Definition report_not_ready (W : World) (tag : string) : M unit :=
  set_action_output W "NEEDS_BUILD" "false" ;;
  set_action_output W "LATEST_VERSION" tag ;;
  sys_exit 0.

Definition report_decision (W : World) (tag : string) (needs_build : bool) : M unit :=
  set_action_output W "NEEDS_BUILD" (if needs_build then "true" else "false") ;;
  set_action_output W "LATEST_VERSION" tag ;;
  log_info "--- Check finished at {end_time.isoformat()} (Duration: {end_time - start_time}) ---" [].

(** ** More of the script's vocabulary *)

(** The log line of get_platforms_from_tag_data for tag data without a list
    of images (line 231). *)
Definition no_images_message : Message :=
  {| template := "Could not find valid 'images' list in tag data."; args := [] |}.

(** The media types of lines 159-162 and of lines 182-185. *)
Definition is_index_type (mediaType : json) : bool :=
  Py.eq_str mediaType "application/vnd.oci.image.index.v1+json"
  || Py.eq_str mediaType "application/vnd.docker.distribution.manifest.list.v2+json".

Definition is_manifest_type (mediaType : json) : bool :=
  Py.eq_str mediaType "application/vnd.oci.image.manifest.v1+json"
  || Py.eq_str mediaType "application/vnd.docker.distribution.manifest.v2+json".

(** The platform descriptor of a child manifest of an index: the object
    under "platform", or the empty object when the child has no such key.
    A child that is not an object, or whose platform is not one, has none. *)
Definition platform_of_child (m : json) : option json :=
  match m with
  | JDict d =>
      match default (JDict []) (Py.lookup "platform" d) with
      | JDict p => Some (JDict p)
      | _ => None
      end
  | _ => None
  end.

(** The entry that the GHCR check makes of a platform descriptor or of an
    image configuration: none unless both os and architecture are truthy. *)
Definition entry_of_platform (platform : json) : option json :=
  match platform with
  | JDict p =>
      let os_name := default JNull (Py.lookup "os" p) in
      let arch := default JNull (Py.lookup "architecture" p) in
      let variant := default JNull (Py.lookup "variant" p) in
      if Py.truthy os_name && Py.truthy arch
      then Some (image_entry os_name arch variant)
      else None
  | _ => None
  end.

(** The two error lines of lines 149-150 for a manifest request refused with
    [status]. *)
Definition ghcr_auth_errors (image_name : string) (status : Z) : list Message :=
  [{| template := "Authentication failed for GHCR.io (status {response.status_code}). Response: {response.text[:200]}";
      args := [pretty status] |};
   {| template := "Make sure the package '{image_name}' is public or GITHUB_TOKEN has 'packages: read' permission.";
      args := [image_name] |}].

(** The error lines of lines 209 and 213. *)
Definition ghcr_no_platform_error (image_name tag : string) : Message :=
  {| template := "Could not extract platform info from single-arch manifest for '{image_name}:{tag}'";
     args := [image_name; tag] |}.

Definition ghcr_unknown_type_error (W : World) (image_name tag : string) (mediaType : json)
  : Message :=
  {| template := "Unknown manifest type for GHCR.io '{image_name}:{tag}': {manifest.get('mediaType')}";
     args := [image_name; tag; str W mediaType] |}.

(** The error line of line 46 for a sink that cannot be written. *)
Definition sink_error (path : string) : Message :=
  {| template := "Error writing to GITHUB_OUTPUT file at {output_path}: {e}";
     args := [path] |}.

(** What the two writes that end a run come to, for the flag and the tag to
    report: two warnings without a sink, two entries in a sink that takes
    both, and sys.exit(1) behind an error line at the first entry that the
    sink does not take.  They are the first writes of the run, and the first
    to draw a UUID. *)
Definition reported (W : World) (flag tag : string) (r : Ran unit) : Prop :=
  match environ W "GITHUB_OUTPUT" with
  | None =>
      exit_code (result r) = 0
      ∧ appended (events r) = []
      ∧ warnings (events r) =
          [no_sink_warning "NEEDS_BUILD"; no_sink_warning "LATEST_VERSION"]
  | Some path =>
      let first := (path, "NEEDS_BUILD=" ++ flag ++ Py.newline) in
      let second := (path, output_entry W 0 "LATEST_VERSION" tag) in
      warnings (events r) = []
      ∧ if append_succeeds W 0 path then
          if append_succeeds W 1 path then
            exit_code (result r) = 0
            ∧ appended (events r) = [first; second]
          else
            result r = Exit 1
            ∧ appended (events r) = [first]
            ∧ In (sink_error path) (errors (events r))
        else
          result r = Exit 1
          ∧ appended (events r) = []
          ∧ In (sink_error path) (errors (events r))
  end.

(** The log of a run that stops at the check of CUSTOM_REGISTRY
    (lines 259-268). *)
Definition misconfigured_log (W : World) : list Event :=
  [Info {| template := "--- Starting Caddy Check at {start_time.isoformat()} ---"; args := [] |};
   Info {| template := "Using registry: {CUSTOM_REGISTRY.upper()}"; args := [CUSTOM_REGISTRY W] |};
   Error {| template := "Configuration error: CUSTOM_REGISTRY must be 'dockerhub' or 'ghcr', got '{CUSTOM_REGISTRY}'";
            args := [CUSTOM_REGISTRY W] |}].

(** The courses that a run can take through main. *)
Inductive Course : Type :=
| Misconfigured
| NoRelease
| OfficialUnreadable (tag : string)
| NotReady (tag : string)
| CustomUnreadable (tag : string)
| Decided (tag : string) (needs_build : bool).

(** The requests of a run that takes the given course, in order. *)
Definition course_requests (W : World) (course : Course) : list Request :=
  let release := release_request W (environ_get W "GITHUB_TOKEN") in
  let official tag := docker_hub_request OFFICIAL_CADDY_IMAGE (Py.lstrip_v tag) in
  match course with
  | Misconfigured => []
  | NoRelease => [release]
  | OfficialUnreadable tag | NotReady tag => [release; official tag]
  | CustomUnreadable tag | Decided tag _ =>
      [release; official tag] ++ requested (events (custom_check W tag))
  end.

(** A run that stops before it reports: with sys.exit(1) behind an error
    line or with an exception that nothing catches, and without touching
    the sink. *)
Definition stopped (r : Ran unit) : Prop :=
  Forall plain (events r)
  ∧ (result r = Exit 1 ∧ errors (events r) ≠ []
     ∨ result r = Raise AttributeError
     ∨ result r = Raise TypeError).

Definition follows (W : World) (course : Course) (r : Ran unit) : Prop :=
  let released tag :=
    (CUSTOM_REGISTRY W = "dockerhub" ∨ CUSTOM_REGISTRY W = "ghcr")
    ∧ result (get_latest_caddy_release W (environ_get W "GITHUB_TOKEN") initial) = Ret tag in
  requested (events r) = course_requests W course
  ∧ match course with
    | Misconfigured =>
        CUSTOM_REGISTRY W ≠ "dockerhub" ∧ CUSTOM_REGISTRY W ≠ "ghcr"
        ∧ r = {| result := Exit 1; cursors := initial; events := misconfigured_log W |}
    | NoRelease =>
        (CUSTOM_REGISTRY W = "dockerhub" ∨ CUSTOM_REGISTRY W = "ghcr")
        ∧ (∀ tag, result (get_latest_caddy_release W (environ_get W "GITHUB_TOKEN") initial)
                  ≠ Ret tag)
        ∧ stopped r
    | OfficialUnreadable tag =>
        released tag
        ∧ upstream_state W tag = Raise TypeError
        ∧ result r = Raise TypeError
        ∧ errors (events r) = []
        ∧ stopped r
    | NotReady tag =>
        released tag
        ∧ (∃ upstream, upstream_state W tag = Ret upstream ∧ upstream ≠ PRESENT_COMPLETE)
        ∧ reported W "false" tag r
    | CustomUnreadable tag =>
        released tag
        ∧ upstream_state W tag = Ret PRESENT_COMPLETE
        ∧ (∃ e, custom_state W tag = Raise e ∧ result r = Raise e)
        ∧ stopped r
    | Decided tag needs_build =>
        released tag
        ∧ upstream_state W tag = Ret PRESENT_COMPLETE
        ∧ (∃ custom, custom_state W tag = Ret custom
                     ∧ needs_build = negb (is_complete custom))
        ∧ reported W (if needs_build then "true" else "false") tag r
    end.

(** The requests that the script is written to make: to the GitHub API, to
    GHCR and to Docker Hub, over https, with a timeout of 30 or 45 seconds,
    and without any header, so without a credential, to Docker Hub. *)
Definition allowed_request (r : Request) : Prop :=
  (timeout r = 30 ∨ timeout r = 45)
  ∧ (String.prefix "https://api.github.com/" (url r) = true
     ∨ String.prefix "https://ghcr.io/" (url r) = true
     ∨ String.prefix "https://hub.docker.com/" (url r) = true ∧ headers r = []).

(** ** Sample worlds *)

Module Samples.

Definition sample_uuid : string := "123e4567-e89b-42d3-a456-426614174000".

Definition descriptor (arch : string) (variant : option string) : json :=
  JDict ([("os", JStr "linux"); ("architecture", JStr arch)]
         ++ match variant with Some v => [("variant", JStr v)] | None => [] end).

(** The tag descriptor of Docker Hub for the given platform entries. *)
Definition tag_descriptor (imgs : list json) : json :=
  JDict [("name", JStr "2.8.4"); ("images", JList imgs)].

Definition ok (j : json) : Outcome :=
  Responds {| status_code := 200; body := Some j |}.

Definition status (code : Z) : Outcome :=
  Responds {| status_code := code; body := None |}.

(** A network that answers by URL; what it does not know fails. *)
Fixpoint route (table : list (string * Outcome)) (r : Request) : Outcome :=
  match table with
  | [] => Fails
  | (u, o) :: table' => if String.eqb u (url r) then o else route table' r
  end.

Definition world (registry : string) (env : list (string * string))
  (table : list (string * Outcome)) : World :=
  {| CUSTOM_IMAGE := "caddybuilds/caddy-cloudflare";
     CUSTOM_REGISTRY := registry;
     environ := fun key =>
       match List.find (fun kv => String.eqb (fst kv) key) env with
       | Some kv => Some (snd kv)
       | None => None
       end;
     requests_outcome := fun _ r => route table r;
     uuid4 := fun _ => sample_uuid;
     append_succeeds := fun _ _ => true;
     str_of_container := fun _ => "[...]" |}.

Definition release_url : string :=
  "https://api.github.com/repos/caddyserver/caddy/releases/latest".
Definition official_url : string :=
  "https://hub.docker.com/v2/repositories/library/caddy/tags/2.8.4".
Definition custom_hub_url : string :=
  "https://hub.docker.com/v2/repositories/caddybuilds/caddy-cloudflare/tags/2.8.4".
Definition ghcr_token_url : string :=
  "https://ghcr.io/token?scope=repository:caddybuilds/caddy-cloudflare:pull".
Definition ghcr_manifest_url : string :=
  "https://ghcr.io/v2/caddybuilds/caddy-cloudflare/manifests/2.8.4".

Definition release_2_8_4 : Outcome := ok (JDict [("tag_name", JStr "v2.8.4")]).

(** The official image publishes more than is required. *)
Definition official_imgs : list json :=
  [descriptor "amd64" None; descriptor "arm64" (Some "v8");
   descriptor "386" None; descriptor "arm" (Some "v7")].

Definition sink : string := "/tmp/github_output".

(** The example of section 8: the custom image on Docker Hub has linux/amd64
    only. *)
Definition hub_incomplete : World :=
  world "dockerhub" [("GITHUB_OUTPUT", sink)]
    [(release_url, release_2_8_4);
     (official_url, ok (tag_descriptor official_imgs));
     (custom_hub_url, ok (tag_descriptor [descriptor "amd64" None]))].

(** The same without GITHUB_OUTPUT. *)
Definition hub_no_sink : World :=
  world "dockerhub" []
    [(release_url, release_2_8_4);
     (official_url, ok (tag_descriptor official_imgs));
     (custom_hub_url, ok (tag_descriptor [descriptor "amd64" None]))].

(** GHCR selected and no GITHUB_TOKEN in the environment. *)
Definition ghcr_no_token : World :=
  world "ghcr" [("GITHUB_OUTPUT", sink)]
    [(release_url, release_2_8_4);
     (official_url, ok (tag_descriptor official_imgs))].

(** GHCR refuses the token exchange, then serves a complete index. *)
Definition ghcr_index : json :=
  JDict [("mediaType", JStr "application/vnd.oci.image.index.v1+json");
         ("manifests",
          JList [JDict [("platform", descriptor "amd64" None)];
                 JDict [("platform", descriptor "arm64" None)]])].

Definition ghcr_exchange_refused : World :=
  world "ghcr" [("GITHUB_OUTPUT", sink); ("GITHUB_TOKEN", "ghp_example")]
    [(release_url, release_2_8_4);
     (official_url, ok (tag_descriptor official_imgs));
     (ghcr_token_url, status 403);
     (ghcr_manifest_url, ok ghcr_index)].

(** The release API is down. *)
Definition release_unavailable : World :=
  world "ghcr" [("GITHUB_OUTPUT", sink)] [(release_url, status 503)].


(** A value that holds the very delimiter that will be drawn. *)
Definition colliding_value : string :=
  "v2.8.4" ++ Py.newline ++ "ghadelimiter_" ++ sample_uuid.

Definition ghcr_blob_url : string :=
  "https://ghcr.io/v2/caddybuilds/caddy-cloudflare/blobs/sha256:0a1b".

Definition ghcr_env : list (string * string) :=
  [("GITHUB_OUTPUT", sink); ("GITHUB_TOKEN", "ghp_example")].

(** GHCR grants a registry token and serves a single-platform manifest whose
    configuration says linux/amd64. *)
Definition ghcr_single_manifest_body : list (string * json) :=
  [("mediaType", JStr "application/vnd.oci.image.manifest.v1+json");
   ("config", JDict [("digest", JStr "sha256:0a1b")])].

Definition ghcr_single : World :=
  world "ghcr" ghcr_env
    [(release_url, release_2_8_4);
     (official_url, ok (tag_descriptor official_imgs));
     (ghcr_token_url, ok (JDict [("token", JStr "registry-token")]));
     (ghcr_manifest_url, ok (JDict ghcr_single_manifest_body));
     (ghcr_blob_url, ok (JDict [("architecture", JStr "amd64"); ("os", JStr "linux")]))].

(** GHCR answers the exchange with an object without a token, then refuses
    the manifest request. *)
Definition ghcr_unauthorized : World :=
  world "ghcr" ghcr_env
    [(release_url, release_2_8_4);
     (official_url, ok (tag_descriptor official_imgs));
     (ghcr_token_url, ok (JDict [("error", JStr "denied")]));
     (ghcr_manifest_url, status 401)].

(** GHCR serves something that is no manifest. *)
Definition ghcr_strange : World :=
  world "ghcr" ghcr_env
    [(release_url, release_2_8_4);
     (official_url, ok (tag_descriptor official_imgs));
     (ghcr_token_url, status 403);
     (ghcr_manifest_url, ok (JDict [("mediaType", JStr "text/html")]))].


(** Docker Hub answers the request for the official tag with a number. *)
Definition official_unreadable : World :=
  world "dockerhub" [("GITHUB_OUTPUT", sink)]
    [(release_url, release_2_8_4); (official_url, ok (JInt 404))].

(** The world [W] with a sink that takes the first [n] entries only. *)
Definition with_sink_capacity (n : nat) (W : World) : World :=
  {| CUSTOM_IMAGE := CUSTOM_IMAGE W;
     CUSTOM_REGISTRY := CUSTOM_REGISTRY W;
     environ := environ W;
     requests_outcome := requests_outcome W;
     uuid4 := uuid4 W;
     append_succeeds := fun k _ => Nat.ltb k n;
     str_of_container := str_of_container W |}.

End Samples.

(** * Properties *)

(** ** Where the events of a computation come from *)

Section Confined.
Context (W : World) (P : Event -> Prop) (R : State -> State -> Prop).
Context (R_refl : forall st, R st st).
Context (R_trans : forall st1 st2 st3, R st1 st2 -> R st2 st3 -> R st1 st3).
Context (R_request : forall st, R st (after_request st)).
Context (P_get : forall r, P (Get r)).
Context (P_info : forall m, P (Info m)).
Context (P_error : forall m, P (Error m)).

Lemma confined_ret {A} (a : A) : confined P R (ret a).
Proof. intros st. split; [constructor | apply R_refl]. Qed.

Lemma confined_lift {A} (r : Res A) : confined P R (lift r).
Proof. intros st. split; [constructor | apply R_refl]. Qed.

Lemma confined_sys_exit {A} (code : Z) : confined P R (@sys_exit A code).
Proof. apply confined_lift. Qed.

Lemma confined_emit (e : Event) : P e -> confined P R (emit e).
Proof. intros He st. split; [repeat constructor; exact He | apply R_refl]. Qed.

Lemma confined_log_info msg vs : confined P R (log_info msg vs).
Proof. apply confined_emit, P_info. Qed.

Lemma confined_log_error msg vs : confined P R (log_error msg vs).
Proof. apply confined_emit, P_error. Qed.

Lemma confined_bind {A B} (m : M A) (k : A -> M B) :
  confined P R m -> (forall a, confined P R (k a)) -> confined P R (bind m k).
Proof.
  intros Hm Hk st. unfold bind. specialize (Hm st).
  destruct (m st) as [[a|code|e] st' evs]; simpl in *; [| exact Hm | exact Hm].
  destruct Hm as [Hev Hcur]. specialize (Hk a st').
  destruct (k a st') as [x st'' evs']; simpl in *. destruct Hk as [Hev' Hcur'].
  split; [apply Forall_app; by split | by eapply R_trans].
Qed.

Lemma confined_try_except {A} (m : M A) (handlers : list (exn_class * (exn -> M A))) :
  confined P R m ->
  Forall (fun h => forall e, confined P R (snd h e)) handlers ->
  confined P R (try_except m handlers).
Proof.
  intros Hm Hh st. unfold try_except. specialize (Hm st).
  destruct (m st) as [[a|code|e] st' evs]; simpl in *; [exact Hm | exact Hm |].
  destruct (find _ handlers) as [h|] eqn:Hfind; [| exact Hm].
  apply find_some in Hfind as [Hin _].
  rewrite Forall_forall in Hh. apply list_elem_of_In in Hin.
  specialize (Hh h Hin e st'). destruct Hm as [Hev Hcur].
  destruct (snd h e st') as [x st'' evs']; simpl in *. destruct Hh as [Hev' Hcur'].
  split; [apply Forall_app; by split | by eapply R_trans].
Qed.

Lemma confined_requests_get u hs t : confined P R (requests_get W u hs t).
Proof. intros st. split; [repeat constructor; apply P_get | apply R_request]. Qed.

Lemma confined_raise_for_status r : confined P R (raise_for_status r).
Proof. unfold raise_for_status. destruct (_ && _); [apply confined_lift | apply confined_ret]. Qed.

Lemma confined_response_json r : confined P R (response_json r).
Proof. unfold response_json. destruct (body r); [apply confined_ret | apply confined_lift]. Qed.

Ltac confine :=
  repeat first
    [ apply confined_ret | apply confined_lift | apply confined_sys_exit
    | apply confined_log_info | apply confined_log_error
    | apply confined_requests_get | apply confined_raise_for_status
    | apply confined_response_json
    | apply confined_bind; [| intros ?]
    | apply confined_try_except;
      [| repeat (apply List.Forall_cons; [simpl; intros ? |]); try apply List.Forall_nil]
    | match goal with
      | |- confined _ _ (if ?b then _ else _) => destruct b
      | |- confined _ _ (match ?x with _ => _ end) => destruct x
      end ].

Lemma confined_get_latest_caddy_release token :
  confined P R (get_latest_caddy_release W token).
Proof. unfold get_latest_caddy_release. confine. Qed.

Lemma confined_check_docker_hub_tag image_name tag :
  confined P R (check_docker_hub_tag W image_name tag).
Proof. unfold check_docker_hub_tag. confine. Qed.

Lemma confined_ghcr_index_images manifests images :
  confined P R (ghcr_index_images manifests images).
Proof.
  revert images. induction manifests as [|m rest IH]; intros images; simpl; confine; apply IH.
Qed.

Lemma confined_ghcr_registry_token image_name token :
  confined P R (ghcr_registry_token W image_name token).
Proof. unfold ghcr_registry_token. confine. Qed.

Lemma confined_ghcr_manifest image_name tag registry_token :
  confined P R (ghcr_manifest W image_name tag registry_token).
Proof. unfold ghcr_manifest. confine; apply confined_ghcr_index_images. Qed.

Lemma confined_check_ghcr_tag image_name tag token :
  confined P R (check_ghcr_tag W image_name tag token).
Proof.
  unfold check_ghcr_tag.
  confine; apply confined_ghcr_index_images.
Qed.

Lemma confined_get_platforms_from_tag_data tag_data :
  confined P R (get_platforms_from_tag_data W tag_data).
Proof. unfold get_platforms_from_tag_data. confine. Qed.

(** Without GITHUB_OUTPUT the script only warns, whatever it is asked to
    write, so a run appends nothing wherever warnings are allowed. *)
Context (P_warning : forall m, P (Warning m)).
Context (no_sink : environ W "GITHUB_OUTPUT" = None).

Lemma confined_set_action_output key value :
  confined P R (set_action_output W key value).
Proof.
  unfold set_action_output. rewrite no_sink. apply confined_emit, P_warning.
Qed.

Lemma confined_main : confined P R (main W).
Proof.
  unfold main.
  repeat first
    [ apply confined_get_latest_caddy_release
    | apply confined_check_docker_hub_tag
    | apply confined_check_ghcr_tag
    | apply confined_get_platforms_from_tag_data
    | apply confined_set_action_output
    | apply confined_ret | apply confined_sys_exit
    | apply confined_log_info | apply confined_log_error
    | apply confined_bind; [| intros ?]
    | match goal with
      | |- confined _ _ (if ?b then _ else _) => destruct b
      end ].
Qed.

End Confined.

(** ** Running the model symbolically *)

Ltac run_script :=
  unfold bind, try_except, prepend, lift, ret, sys_exit, emit,
    log_error, log_info, log_warning, raise_for_status, response_json,
    requests_get, uuid_uuid4, with_open_append,
    Py.get, Py.get_default, Py.startswith, Py.contains_str, Py.getitem_str, Py.iter.

(** Case analysis on an innermost scrutinee of the goal. *)
Ltac branch :=
  match goal with
  | |- context [match ?x with _ => _ end] =>
      lazymatch x with
      | context [match _ with _ => _ end] => fail
      | _ => destruct x eqn:?
      end
  end.

Ltac branches := repeat (simpl; branch); simpl.

Ltac eqb_props :=
  repeat match goal with
  | H : (_ =? _) = true |- _ => apply Z.eqb_eq in H
  | H : (_ =? _) = false |- _ => apply Z.eqb_neq in H
  | H : (_ <=? _) = true |- _ => apply Z.leb_le in H
  | H : (_ <=? _) = false |- _ => apply Z.leb_gt in H
  | H : (_ <? _) = true |- _ => apply Z.ltb_lt in H
  | H : (_ <? _) = false |- _ => apply Z.ltb_ge in H
  | H : (_ && _) = true |- _ => apply andb_true_iff in H as [? ?]
  | H : (_ && _) = false |- _ => apply andb_false_iff in H as [?|?]
  | H : (_ || _) = false |- _ => apply orb_false_iff in H as [? ?]
  | H : (_ || _) = true |- _ => apply orb_true_iff in H as [?|?]
  | H : negb _ = true |- _ => apply negb_true_iff in H
  | H : negb _ = false |- _ => apply negb_false_iff in H
  end.

Lemma prepend_prepend {A} (evs evs' : list Event) (r : Ran A) :
  prepend evs (prepend evs' r) = prepend (evs ++ evs')%list r.
Proof. destruct r. simpl. by rewrite app_assoc. Qed.

Lemma result_prepend {A} (evs : list Event) (r : Ran A) :
  result (prepend evs r) = result r.
Proof. by destruct r. Qed.

Lemma cursors_prepend {A} (evs : list Event) (r : Ran A) :
  cursors (prepend evs r) = cursors r.
Proof. by destruct r. Qed.

Lemma events_prepend {A} (evs : list Event) (r : Ran A) :
  events (prepend evs r) = (evs ++ events r)%list.
Proof. by destruct r. Qed.

Lemma requested_app (evs evs' : list Event) :
  requested (evs ++ evs')%list = (requested evs ++ requested evs')%list.
Proof. apply omap_app. Qed.

Lemma appended_app (evs evs' : list Event) :
  appended (evs ++ evs')%list = (appended evs ++ appended evs')%list.
Proof. apply omap_app. Qed.

Lemma warnings_app (evs evs' : list Event) :
  warnings (evs ++ evs')%list = (warnings evs ++ warnings evs')%list.
Proof. apply omap_app. Qed.

Lemma plain_quiet (evs : list Event) :
  Forall plain evs -> appended evs = [] /\ warnings evs = [].
Proof.
  induction 1 as [|e evs He _ [IHa IHw]]; [done |].
  destruct e; simpl in *; done.
Qed.

Lemma not_append_appended (evs : list Event) :
  Forall not_append evs -> appended evs = [].
Proof.
  induction 1 as [|e evs He _ IH]; [done |].
  destruct e; simpl in *; done.
Qed.

(** ** Platform extraction *)

Lemma elem_of_REQUIRED_PLATFORMS (p : string) :
  p ∈ REQUIRED_PLATFORMS ↔ p = "linux/amd64" ∨ p = "linux/arm64".
Proof. unfold REQUIRED_PLATFORMS. set_solver. Qed.

Lemma REQUIRED_PLATFORMS_nonempty : bool_decide (REQUIRED_PLATFORMS = ∅) = false.
Proof.
  apply bool_decide_eq_false. intros Hempty.
  assert ("linux/amd64" ∈ REQUIRED_PLATFORMS) as Hin
    by (apply elem_of_REQUIRED_PLATFORMS; by left).
  rewrite Hempty in Hin. by apply not_elem_of_empty in Hin.
Qed.

Lemma eq_str_true (j : json) (s : string) : Py.eq_str j s = true ↔ j = JStr s.
Proof.
  destruct j; simpl; try (split; intros ?; congruence).
  rewrite String.eqb_eq. split; [intros ->; reflexivity | congruence].
Qed.

Lemma add_platform_of_normalized W (acc : gset string) (img : json) :
  add_platform_of W acc img =
  acc ∪ (from_option singleton ∅ (normalized_platform W img) ∩ REQUIRED_PLATFORMS).
Proof.
  destruct img as [| | | | |l|d]; simpl; try set_solver.
  set (os_name := default JNull (Py.lookup "os" d)).
  set (arch := default JNull (Py.lookup "architecture" d)).
  set (variant := default JNull (Py.lookup "variant" d)).
  destruct (Py.eq_str os_name "linux") eqn:Hos; simpl; [| set_solver].
  destruct (Py.truthy arch) eqn:Harch; simpl; [| set_solver].
  apply eq_str_true in Hos. rewrite Hos.
  unfold platform_str.
  destruct (Py.eq_str arch "arm" && Py.eq_str variant "v7") eqn:Harm.
  - apply andb_true_iff in Harm as [Ha Hv].
    apply eq_str_true in Ha, Hv. rewrite Ha, Hv. simpl.
    case_bool_decide; set_solver.
  - simpl. repeat case_bool_decide; set_solver.
Qed.

Lemma fold_add_platform_of W (imgs : list json) (acc : gset string) :
  fold_left (add_platform_of W) imgs acc =
  acc ∪ (published_platforms W imgs ∩ REQUIRED_PLATFORMS).
Proof.
  revert acc. induction imgs as [|img imgs IH]; intros acc; simpl.
  - unfold published_platforms. simpl. set_solver.
  - rewrite IH, add_platform_of_normalized. unfold published_platforms. simpl.
    destruct (normalized_platform W img); simpl; set_solver.
Qed.

Lemma get_platforms_of_images W (d : list (string * json)) (imgs : list json) (st : State) :
  Py.lookup "images" d = Some (JList imgs) →
  get_platforms_from_tag_data W (JDict d) st =
  {| result := Ret (published_platforms W imgs ∩ REQUIRED_PLATFORMS);
     cursors := st; events := [] |}.
Proof.
  intros Hd. unfold get_platforms_from_tag_data.
  assert (Ht : Py.truthy (JDict d) = true) by (destruct d; [discriminate | reflexivity]).
  rewrite Ht. run_script. rewrite Hd. simpl.
  rewrite fold_add_platform_of. f_equal. f_equal. set_solver.
Qed.

Lemma has_all_required_true (found : gset string) :
  has_all_required found = true ↔ REQUIRED_PLATFORMS ⊆ found.
Proof.
  unfold has_all_required. rewrite bool_decide_eq_true.
  generalize REQUIRED_PLATFORMS. intros required. split.
  - intros Hempty p Hp. destruct (decide (p ∈ found)) as [|Hnot]; [done |].
    assert (p ∈ required ∖ found) as Hin by (apply elem_of_difference; done).
    rewrite Hempty in Hin. by apply not_elem_of_empty in Hin.
  - intros Hsub. apply set_eq. intros p.
    rewrite elem_of_difference. split; [| by intros ?%not_elem_of_empty].
    intros [Hp Hnot]. destruct Hnot. by apply Hsub.
Qed.

Lemma has_all_required_false (found : gset string) (p : string) :
  p ∈ REQUIRED_PLATFORMS → p ∉ found → has_all_required found = false.
Proof.
  intros Hp Hnot. apply not_true_is_false. rewrite has_all_required_true.
  intros Hsub. by apply Hnot, Hsub.
Qed.

Lemma published_platforms_same W (imgs imgs' : list json) :
  (∀ img, img ∈ imgs ↔ img ∈ imgs') →
  published_platforms W imgs = published_platforms W imgs'.
Proof.
  intros Hsame. unfold published_platforms. apply set_eq. intros p.
  rewrite !elem_of_list_to_set, !list_elem_of_omap. naive_solver.
Qed.

Lemma published_without_platform W (p : string) (imgs : list json) :
  published_platforms W (without_platform W p imgs) = published_platforms W imgs ∖ {[ p ]}.
Proof.
  unfold published_platforms, without_platform. apply set_eq. intros q.
  rewrite elem_of_difference, !elem_of_list_to_set, !list_elem_of_omap, not_elem_of_singleton.
  split.
  - intros (img & Hin & Hq). apply list_elem_of_In, filter_In in Hin as [Hin Hkeep].
    apply negb_true_iff, bool_decide_eq_false in Hkeep.
    split; [exists img; split; [by apply list_elem_of_In | done] | congruence].
  - intros [(img & Hin & Hq) Hne]. exists img. split; [| done].
    apply list_elem_of_In, filter_In. split; [by apply list_elem_of_In |].
    apply negb_true_iff, bool_decide_eq_false. congruence.
Qed.

(** C2: for every list of descriptor entries, get_platforms_from_tag_data
    returns exactly the normalized linux platforms of the entries that
    belong to the required set, and the result depends only on which entries
    the list holds, not on their order or multiplicity. *)
Theorem extraction_is_intersection W
  (d : list (string * json)) (imgs : list json) (st : State) :
  Py.lookup "images" d = Some (JList imgs) →
  get_platforms_from_tag_data W (JDict d) st =
    {| result := Ret (published_platforms W imgs ∩ REQUIRED_PLATFORMS);
       cursors := st; events := [] |}
  ∧ (∀ p, p ∈ published_platforms W imgs ∩ REQUIRED_PLATFORMS ↔
          p ∈ REQUIRED_PLATFORMS ∧ ∃ img, img ∈ imgs ∧ normalized_platform W img = Some p)
  ∧ (∀ d' imgs' st',
       Py.lookup "images" d' = Some (JList imgs') →
       (∀ img, img ∈ imgs ↔ img ∈ imgs') →
       result (get_platforms_from_tag_data W (JDict d') st') =
       result (get_platforms_from_tag_data W (JDict d) st)).
Proof.
  intros Hd. split; [| split].
  - by apply get_platforms_of_images.
  - intros p. unfold published_platforms.
    rewrite elem_of_intersection, elem_of_list_to_set, list_elem_of_omap. naive_solver.
  - intros d' imgs' st' Hd' Hsame.
    rewrite (get_platforms_of_images W d' imgs' st' Hd'), (get_platforms_of_images W d imgs st Hd).
    simpl. by rewrite (published_platforms_same W imgs imgs' Hsame).
Qed.

(** C3: an image whose platform set covers the required set (exactly or as a
    proper superset) is complete, and withdrawing any one required platform
    from a published set makes it incomplete. *)
Theorem completeness_verdict W :
  (∀ found : gset string, REQUIRED_PLATFORMS ⊆ found → has_all_required found = true)
  ∧ (∀ (published : gset string) (p : string),
       p ∈ REQUIRED_PLATFORMS → has_all_required (published ∖ {[ p ]}) = false)
  ∧ (∀ d imgs st,
       Py.lookup "images" d = Some (JList imgs) →
       REQUIRED_PLATFORMS ⊆ published_platforms W imgs →
       ∃ found, result (get_platforms_from_tag_data W (JDict d) st) = Ret found
                ∧ has_all_required found = true)
  ∧ (∀ d imgs p st,
       Py.lookup "images" d = Some (JList (without_platform W p imgs)) →
       p ∈ REQUIRED_PLATFORMS →
       ∃ found, result (get_platforms_from_tag_data W (JDict d) st) = Ret found
                ∧ has_all_required found = false).
Proof.
  split_and!.
  - intros found Hsub. by apply has_all_required_true.
  - intros published p Hp. apply (has_all_required_false _ p Hp).
    rewrite elem_of_difference, elem_of_singleton. tauto.
  - intros d imgs st Hd Hsub. rewrite (get_platforms_of_images W d imgs st Hd).
    eexists. split; [reflexivity |]. apply has_all_required_true.
    intros p Hp. apply elem_of_intersection. split; [by apply Hsub | done].
  - intros d imgs p st Hd Hp. rewrite (get_platforms_of_images W d _ st Hd).
    eexists. split; [reflexivity |]. apply (has_all_required_false _ p Hp).
    rewrite published_without_platform, elem_of_intersection, elem_of_difference,
      elem_of_singleton. tauto.
Qed.


(** ** The registry checks and the release lookup *)

Lemma get_latest_caddy_release_ran W (token : json) (st : State) :
  cursors (get_latest_caddy_release W token st) = after_request st
  ∧ requested (events (get_latest_caddy_release W token st)) = [release_request W token].
Proof.
  unfold get_latest_caddy_release, release_request. run_script. branches. all: done.
Qed.

Lemma check_docker_hub_tag_ran W (image_name tag : string) (st : State) :
  cursors (check_docker_hub_tag W image_name tag st) = after_request st
  ∧ requested (events (check_docker_hub_tag W image_name tag st))
    = [docker_hub_request image_name tag]
  ∧ ∃ data, result (check_docker_hub_tag W image_name tag st) = Ret data.
Proof.
  unfold check_docker_hub_tag, docker_hub_request. run_script. branches. all: eauto.
Qed.

Lemma get_platforms_from_tag_data_ran W (tag_data : json) (st : State) :
  cursors (get_platforms_from_tag_data W tag_data st) = st
  ∧ requested (events (get_platforms_from_tag_data W tag_data st)) = []
  ∧ result (get_platforms_from_tag_data W tag_data st)
    = result (get_platforms_from_tag_data W tag_data initial).
Proof.
  unfold get_platforms_from_tag_data. run_script. branches. all: done.
Qed.


(** The lookup returns a tag exactly when the request is answered without an
    HTTP error status by a JSON object whose tag_name is a string that
    begins with "v"; otherwise it ends the process, through sys.exit(1) or an
    exception that nothing catches. *)
Lemma release_lookup_outcomes W (token : json) (st : State) :
  let o := requests_outcome W (requests_made st) (release_request W token) in
  let r := get_latest_caddy_release W token st in
  (∀ tag, result r = Ret tag ↔
     ∃ resp d, o = Responds resp
       ∧ ¬ (400 ≤ status_code resp < 600)
       ∧ body resp = Some (JDict d)
       ∧ Py.lookup "tag_name" d = Some (JStr tag)
       ∧ String.prefix "v" tag = true)
  ∧ ((∃ tag, result r = Ret tag) ∨ result r = Exit 1 ∨ result r = Raise AttributeError).
Proof.
  intros o r. subst o r.
  unfold get_latest_caddy_release, release_request. run_script.
  branches.
  all: split; [intros tag; split; [intros Hret | intros (resp' & d' & Ho & Hst & Hb & Hl & Hv)] |].
  all: simplify_eq/=; eqb_props; eauto 10; try lia; try congruence.
  all: try match goal with H : (_ =? "")%string = true |- _ =>
         apply String.eqb_eq in H; subst; discriminate end.
  all: eexists _, _; split_and!; eauto; lia.
Qed.

(** The causes of failure that the specification lists. *)
Lemma release_lookup_failures W (token : json) (st : State) :
  let o := requests_outcome W (requests_made st) (release_request W token) in
  let r := get_latest_caddy_release W token st in
  (o = TimesOut → result r = Exit 1)
  ∧ (o = Fails → result r = Exit 1)
  ∧ (∀ resp, o = Responds resp → 400 ≤ status_code resp < 600 → result r = Exit 1)
  ∧ (∀ resp, o = Responds resp → ¬ (400 ≤ status_code resp < 600) → body resp = None →
       result r = Exit 1)
  ∧ (∀ resp d, o = Responds resp → ¬ (400 ≤ status_code resp < 600) →
       body resp = Some (JDict d) → Py.lookup "tag_name" d = None → result r = Exit 1)
  ∧ (∀ resp d tag, o = Responds resp → ¬ (400 ≤ status_code resp < 600) →
       body resp = Some (JDict d) → Py.lookup "tag_name" d = Some (JStr tag) →
       String.prefix "v" tag = false → result r = Exit 1).
Proof.
  intros o r. subst o r.
  unfold get_latest_caddy_release, release_request. run_script.
  branches.
  all: split_and!; intros; simplify_eq/=; eqb_props; eauto; try lia; try congruence.
Qed.

(** ** The output sink *)

Lemma substring_of_eq (s t : string) :
  Py.substring_of s t =
  String.prefix s t || match t with EmptyString => false | String _ t' => Py.substring_of s t' end.
Proof. destruct t; reflexivity. Qed.

Lemma prefix_app_substring (p u v : string) :
  String.prefix (p ++ u) v = true → Py.substring_of u v = true.
Proof.
  revert v. induction p as [|a p IH]; intros v.
  - change ("" ++ u) with u. intros Hpre. rewrite substring_of_eq, Hpre. reflexivity.
  - change (String a p ++ u) with (String a (p ++ u)).
    destruct v as [|b v]; [discriminate |]. simpl String.prefix.
    destruct (ascii_dec a b); [| discriminate].
    intros Hpre. apply IH in Hpre. rewrite substring_of_eq, Hpre. apply orb_true_r.
Qed.

Lemma substring_of_app (p u v : string) :
  Py.substring_of (p ++ u) v = true → Py.substring_of u v = true.
Proof.
  induction v as [|b v IH]; rewrite substring_of_eq; intros Hsub.
  - rewrite orb_false_r in Hsub. by apply prefix_app_substring in Hsub.
  - apply orb_true_iff in Hsub as [Hpre | Hrest].
    + by apply prefix_app_substring in Hpre.
    + apply IH in Hrest. rewrite substring_of_eq, Hrest. apply orb_true_r.
Qed.

Lemma set_action_output_sink W (key value path : string) (st : State) :
  environ W "GITHUB_OUTPUT" = Some path →
  append_succeeds W (appends_tried st) path = true →
  set_action_output W key value st =
  {| result := Ret tt;
     cursors := {| requests_made := requests_made st;
                   uuids_drawn := if Py.has_newline value
                                  then S (uuids_drawn st) else uuids_drawn st;
                   appends_tried := S (appends_tried st) |};
     events := [Append path (output_entry W (uuids_drawn st) key value)] |}.
Proof.
  intros Hsink Hok. unfold set_action_output, output_entry. rewrite Hsink.
  run_script. rewrite Hok. destruct (Py.has_newline value); reflexivity.
Qed.

Lemma set_action_output_no_sink W (key value : string) (st : State) :
  environ W "GITHUB_OUTPUT" = None →
  set_action_output W key value st =
  {| result := Ret tt; cursors := st; events := [Warning (no_sink_warning key)] |}.
Proof. intros Hsink. unfold set_action_output. rewrite Hsink. reflexivity. Qed.

(** C8, as the code has it: a value with a newline is written as the block
    KEY<<DELIM / payload / DELIM, where DELIM is "ghadelimiter_" followed by
    a UUID drawn for this call alone; the delimiter is not looked for in the
    payload, so it is absent from it whenever the drawn UUID is; a value
    without a newline is written as the single line KEY=value. *)
Theorem output_entry_written W (key value path : string) (st : State) :
  environ W "GITHUB_OUTPUT" = Some path →
  append_succeeds W (appends_tried st) path = true →
  let r := set_action_output W key value st in
  let delim := "ghadelimiter_" ++ uuid4 W (uuids_drawn st) in
  result r = Ret tt
  ∧ (Py.has_newline value = true →
       events r = [Append path (key ++ "<<" ++ delim ++ Py.newline
                                ++ value ++ Py.newline ++ delim ++ Py.newline)]
       ∧ uuids_drawn (cursors r) = S (uuids_drawn st)
       ∧ (Py.substring_of (uuid4 W (uuids_drawn st)) value = false →
          Py.substring_of delim value = false))
  ∧ (Py.has_newline value = false →
       events r = [Append path (key ++ "=" ++ value ++ Py.newline)]
       ∧ uuids_drawn (cursors r) = uuids_drawn st).
Proof.
  intros Hsink Hok r delim. subst r delim.
  rewrite (set_action_output_sink W key value path st Hsink Hok).
  unfold output_entry. simpl. split_and!; [done | |]; intros ->; split_and!; try done.
  intros Hfresh. apply not_true_is_false. intros Hsub.
  apply substring_of_app in Hsub. congruence.
Qed.

(** ** The GHCR check *)

Lemma ghcr_registry_token_fallback W (image_name : string) (token : json) (st : State) :
  exchange_fails (requests_outcome W (requests_made st) (ghcr_token_request W image_name token)) →
  ∃ log,
    ghcr_registry_token W image_name token st =
    {| result := Ret token; cursors := after_request st;
       events := Get (ghcr_token_request W image_name token) :: log |}
    ∧ requested log = [].
Proof.
  unfold ghcr_registry_token, ghcr_token_request, exchange_fails. run_script.
  branches; intros Hfail.
  all: try (eexists; split; [reflexivity | reflexivity]).
  all: eqb_props; exfalso.
  all: destruct Hfail as [? | [? | (? & ? & ?)]]; simplify_eq/=; done.
Qed.

Lemma ghcr_manifest_requests_first W (image_name tag : string) (registry_token : json)
  (st : State) :
  ∃ rest,
    events (ghcr_manifest W image_name tag registry_token st) =
    Get (ghcr_manifest_request W image_name tag registry_token) :: rest.
Proof.
  unfold ghcr_manifest, ghcr_manifest_request. run_script. branches.
  all: eexists; reflexivity.
Qed.

(** C6: with a credential supplied, a failed token exchange (a status other
    than 200, or an exception) is followed by the manifest request carrying
    the primary credential itself, and the check returns whatever that
    request leads to. *)
Theorem ghcr_falls_back_to_primary_credential W
  (image_name tag : string) (token : json) (st : State) :
  Py.truthy token = true →
  exchange_fails (requests_outcome W (requests_made st) (ghcr_token_request W image_name token)) →
  ∃ log rest,
    check_ghcr_tag W image_name tag token st =
      prepend (Get (ghcr_token_request W image_name token) :: log)
        (ghcr_manifest W image_name tag token (after_request st))
    ∧ requested log = []
    ∧ events (ghcr_manifest W image_name tag token (after_request st)) =
        Get (ghcr_manifest_request W image_name tag token) :: rest
    ∧ result (check_ghcr_tag W image_name tag token st) =
        result (ghcr_manifest W image_name tag token (after_request st)).
Proof.
  intros Htoken Hfail.
  destruct (ghcr_registry_token_fallback W image_name token st Hfail) as (log & Hexchange & Hlog).
  destruct (ghcr_manifest_requests_first W image_name tag token (after_request st)) as [rest Hrest].
  exists log, rest.
  assert (check_ghcr_tag W image_name tag token st =
          prepend (Get (ghcr_token_request W image_name token) :: log)
            (ghcr_manifest W image_name tag token (after_request st))) as Hrun.
  { unfold check_ghcr_tag. rewrite Htoken. simpl. unfold bind. by rewrite Hexchange. }
  split_and!; try done. by rewrite Hrun, result_prepend.
Qed.

Lemma check_ghcr_tag_no_token W (image_name tag : string) (token : json) (st : State) :
  Py.truthy token = false →
  check_ghcr_tag W image_name tag token st =
  {| result := Ret JNull; cursors := st;
     events := [Error {| template := "GITHUB_TOKEN environment variable not set for GHCR registry check.";
                         args := [] |}] |}.
Proof. intros Htoken. unfold check_ghcr_tag. rewrite Htoken. reflexivity. Qed.

(** ** More on platform extraction *)

Lemma get_platforms_from_tag_data_invalid W (tag_data : json) (st : State) :
  Py.truthy tag_data = false
  ∨ (∃ d, tag_data = JDict d ∧ ∀ imgs, Py.lookup "images" d ≠ Some (JList imgs))
  ∨ (∃ l, tag_data = JList l ∧ existsb (fun e => Py.eq_str e "images") l = false)
  ∨ (∃ s, tag_data = JStr s ∧ Py.substring_of "images" s = false) →
  get_platforms_from_tag_data W tag_data st =
  {| result := Ret ∅; cursors := st; events := [Info no_images_message] |}.
Proof.
  unfold get_platforms_from_tag_data, no_images_message. run_script.
  intros Hinvalid. branches.
  all: try reflexivity.
  all: exfalso; destruct Hinvalid as [? | [(? & ? & Hl) | [(? & ? & ?) | (? & ? & ?)]]].
  all: simplify_eq/=; try congruence.
  all: try (destruct j; simplify_eq/=; by eapply Hl).
  all: eqb_props; try congruence.
Qed.

Lemma get_platforms_from_tag_data_within W (tag_data : json) (st : State) (found : gset string) :
  result (get_platforms_from_tag_data W tag_data st) = Ret found → found ⊆ REQUIRED_PLATFORMS.
Proof.
  unfold get_platforms_from_tag_data. run_script. branches.
  all: intros ?; simplify_eq/=; try set_solver.
  all: rewrite fold_add_platform_of; set_solver.
Qed.

Lemma get_platforms_from_tag_data_raises W (tag_data : json) (st : State) :
  (∃ found, result (get_platforms_from_tag_data W tag_data st) = Ret found)
  ∨ (result (get_platforms_from_tag_data W tag_data st) = Raise TypeError
     ∧ events (get_platforms_from_tag_data W tag_data st) = []
     ∧ Py.truthy tag_data = true ∧ Py.isinstance_dict tag_data = false).
Proof.
  unfold get_platforms_from_tag_data. run_script. branches.
  all: eqb_props; eauto.
Qed.

(** X1: tag data without a usable list of images (nothing, an empty value, an
    object without the key or with something else than a list under it, a
    list or a string that does not hold "images") gives the empty set and the
    one log line of line 231; on an object the extraction always returns; it
    fails, with a TypeError, exactly on a number or a true boolean and on a
    list or a string that holds "images", and logs nothing then. *)
Theorem extraction_without_images W (tag_data : json) (st : State) :
  let r := get_platforms_from_tag_data W tag_data st in
  (Py.truthy tag_data = false
   ∨ (∃ d, tag_data = JDict d ∧ ∀ imgs, Py.lookup "images" d ≠ Some (JList imgs))
   ∨ (∃ l, tag_data = JList l ∧ existsb (fun e => Py.eq_str e "images") l = false)
   ∨ (∃ s, tag_data = JStr s ∧ Py.substring_of "images" s = false) →
   r = {| result := Ret ∅; cursors := st; events := [Info no_images_message] |})
  ∧ (∀ d, tag_data = JDict d → ∃ found, result r = Ret found)
  ∧ ((∃ found, result r = Ret found) ∨ result r = Raise TypeError ∧ events r = [])
  ∧ (result r = Raise TypeError ↔
     Py.truthy tag_data = true
     ∧ ((∃ b, tag_data = JBool b) ∨ (∃ z, tag_data = JInt z) ∨ (∃ f, tag_data = JFloat f)
        ∨ (∃ l, tag_data = JList l ∧ existsb (fun e => Py.eq_str e "images") l = true)
        ∨ (∃ s, tag_data = JStr s ∧ Py.substring_of "images" s = true))).
Proof.
  intros r. subst r. split_and!.
  - apply get_platforms_from_tag_data_invalid.
  - intros d ->. destruct (get_platforms_from_tag_data_raises W (JDict d) st)
      as [Hret | (_ & _ & _ & Hdict)]; [exact Hret | discriminate].
  - destruct (get_platforms_from_tag_data_raises W tag_data st) as [Hret | (? & ? & _)]; auto.
  - unfold get_platforms_from_tag_data. run_script. branches.
    all: split;
      [ intros ?; simplify_eq/=;
        (split; [try done; try (apply negb_false_iff; assumption) |])
      | intros (? & [[? ?] | [[? ?] | [[? ?] | [(? & ? & ?) | (? & ? & ?)]]]]);
        simplify_eq/=; eqb_props; congruence ].
    all: first [ by left; eexists | by right; left; eexists | by right; right; left; eexists
               | by right; right; right; left; eexists
               | right; right; right; left; eexists; split;
                 [reflexivity | simpl; by apply negb_false_iff]
               | right; right; right; right; eexists; split; [reflexivity | by eqb_props]  ].
Qed.

(** X2: whatever the tag data, the set that the extraction returns holds
    required platforms only; so an image is complete exactly when the set
    returned for it is the required set itself. *)
Theorem extraction_stays_within_required W (tag_data : json) (st : State)
  (found : gset string) :
  result (get_platforms_from_tag_data W tag_data st) = Ret found →
  found ⊆ REQUIRED_PLATFORMS
  ∧ (has_all_required found = true ↔ found = REQUIRED_PLATFORMS).
Proof.
  intros Hfound. apply get_platforms_from_tag_data_within in Hfound.
  split; [exact Hfound |]. rewrite has_all_required_true. split.
  - intros Hsub. apply set_eq. intros p. split; [apply Hfound | apply Hsub].
  - intros ->. done.
Qed.

(** ** More on the GHCR check *)

Lemma ghcr_index_images_ran (manifests images : list json) (st : State) :
  ∃ r, ghcr_index_images manifests images st = {| result := r; cursors := st; events := [] |}
       ∧ ((∃ found, r = Ret found) ∨ r = Raise AttributeError).
Proof.
  revert images. induction manifests as [|m rest IH]; intros images; simpl.
  - eexists. split; [reflexivity | eauto].
  - run_script.
    repeat (simpl;
            first [ match goal with
                    | |- context [ghcr_index_images rest ?imgs st] =>
                        let Hr := fresh "Hr" in
                        destruct (IH imgs) as (? & -> & Hr);
                        destruct Hr as [[? ->] | ->]
                    end
                  | branch ]).
    all: simpl; eexists; split; [reflexivity | eauto].
Qed.

Lemma ghcr_index_images_entries (manifests images : list json) (st : State) :
  Forall (fun m => is_Some (platform_of_child m)) manifests →
  ghcr_index_images manifests images st =
  {| result := Ret (images ++ omap (fun m => platform_of_child m ≫= entry_of_platform)
                                      manifests)%list;
     cursors := st; events := [] |}.
Proof.
  intros Hwf. revert images. induction Hwf as [|m rest [p Hp] _ IH]; intros images; simpl.
  - by rewrite app_nil_r.
  - unfold platform_of_child in Hp. run_script.
    destruct m as [| | | | | |d]; try discriminate. simpl in *.
    destruct (Py.lookup "platform" d) as [v|] eqn:Hv; simpl in *.
    + destruct v; try discriminate. simpl.
      destruct (_ && _) eqn:Hboth; simpl; rewrite IH; simpl; by rewrite <- ?app_assoc.
    + by rewrite IH.
Qed.

Lemma ghcr_index_images_malformed (before after images : list json) (m : json) (st : State) :
  Forall (fun m => is_Some (platform_of_child m)) before →
  platform_of_child m = None →
  result (ghcr_index_images (before ++ m :: after)%list images st) = Raise AttributeError.
Proof.
  intros Hwf Hm. revert images. induction Hwf as [|m' rest [p Hp] _ IH]; intros images; simpl.
  - unfold platform_of_child in Hm. run_script. branches; simplify_eq/=; done.
  - unfold platform_of_child in Hp. run_script.
    destruct m' as [| | | | | |d]; try discriminate. simpl in *.
    destruct (Py.lookup "platform" d) as [v|] eqn:Hv; simpl in *; simplify_eq/=.
    all: try (destruct v; try discriminate; simpl; destruct (_ && _); simpl).
    all: match goal with
         | |- context [ghcr_index_images ?ms ?imgs ?s] =>
             specialize (IH imgs); destruct (ghcr_index_images ms imgs s); exact IH
         end.
Qed.

(** Case analysis that reads the loop over the child manifests through
    [ghcr_index_images_ran]. *)
Ltac ghcr_branch :=
  first [ match goal with
          | |- context [ghcr_index_images ?ms ?imgs ?s] =>
              let Hindex := fresh "Hindex" in
              destruct (ghcr_index_images_ran ms imgs s) as (? & -> & Hindex)
          end
        | branch ].

Ltac ghcr_branches := repeat (simpl; ghcr_branch); simpl.

Lemma ghcr_manifest_ran W (image_name tag : string) (registry_token : json) (st : State) :
  let r := ghcr_manifest W image_name tag registry_token st in
  (requested (events r) = [ghcr_manifest_request W image_name tag registry_token]
   ∧ cursors r = after_request st
   ∨ ∃ config_digest,
       requested (events r) =
         [ghcr_manifest_request W image_name tag registry_token;
          ghcr_config_request W image_name config_digest registry_token]
       ∧ cursors r = after_request (after_request st))
  ∧ (result r = Ret JNull
     ∨ (∃ img imgs, result r = Ret (JDict [("images", JList (img :: imgs))]))
     ∨ result r = Raise AttributeError
     ∨ result r = Raise TypeError).
Proof.
  intros r. subst r.
  unfold ghcr_manifest, ghcr_manifest_request, ghcr_config_request. run_script.
  ghcr_branches.
  all: split; [first [by left | right; eexists; split; reflexivity] |].
  all: repeat match goal with H : _ ∨ _ |- _ => destruct H | H : ∃ _, _ |- _ => destruct H end.
  all: simplify_eq/=; eauto 6.
Qed.

Lemma ghcr_registry_token_ran W (image_name : string) (token : json) (st : State) :
  ∃ registry_token log,
    ghcr_registry_token W image_name token st =
    {| result := Ret registry_token; cursors := after_request st;
       events := Get (ghcr_token_request W image_name token) :: log |}
    ∧ requested log = [].
Proof.
  unfold ghcr_registry_token, ghcr_token_request. run_script. branches.
  all: eexists _, _; split; reflexivity.
Qed.

Lemma ghcr_registry_token_granted W (image_name : string) (token : json) (st : State)
  (resp : Response) (d : list (string * json)) :
  requests_outcome W (requests_made st) (ghcr_token_request W image_name token) = Responds resp →
  status_code resp = 200 →
  body resp = Some (JDict d) →
  ghcr_registry_token W image_name token st =
  {| result := Ret (default JNull (Py.lookup "token" d)); cursors := after_request st;
     events := [Get (ghcr_token_request W image_name token)] |}.
Proof.
  unfold ghcr_registry_token, ghcr_token_request. run_script.
  intros -> -> ->. reflexivity.
Qed.

Lemma check_ghcr_tag_steps W (image_name tag : string) (token : json) (st : State) :
  Py.truthy token = true →
  ∃ registry_token log,
    check_ghcr_tag W image_name tag token st =
      prepend (Get (ghcr_token_request W image_name token) :: log)
        (ghcr_manifest W image_name tag registry_token (after_request st))
    ∧ ghcr_registry_token W image_name token st =
        {| result := Ret registry_token; cursors := after_request st;
           events := Get (ghcr_token_request W image_name token) :: log |}
    ∧ requested log = [].
Proof.
  intros Htoken.
  destruct (ghcr_registry_token_ran W image_name token st) as (registry_token & log & Hrun & Hlog).
  exists registry_token, log. split_and!; try done.
  unfold check_ghcr_tag. rewrite Htoken. simpl. unfold bind. by rewrite Hrun.
Qed.

Lemma check_ghcr_tag_ran W (image_name tag : string) (token : json) (st : State) :
  let r := check_ghcr_tag W image_name tag token st in
  (length (requested (events r)) ≤ 3)%nat
  ∧ (requests_made (cursors r) ≤ requests_made st + 3)%nat
  ∧ (result r = Ret JNull
     ∨ (∃ img imgs, result r = Ret (JDict [("images", JList (img :: imgs))]))
     ∨ result r = Raise AttributeError
     ∨ result r = Raise TypeError).
Proof.
  intros r. subst r. destruct (Py.truthy token) eqn:Htoken.
  - destruct (check_ghcr_tag_steps W image_name tag token st Htoken)
      as (registry_token & log & -> & _ & Hlog).
    destruct (ghcr_manifest_ran W image_name tag registry_token (after_request st))
      as [Hreq Hres].
    rewrite result_prepend, events_prepend, cursors_prepend. simpl.
    rewrite requested_app, Hlog. simpl.
    split_and!; [| | exact Hres].
    + destruct Hreq as [[-> _] | (? & -> & _)]; simpl; lia.
    + destruct Hreq as [[_ ->] | (? & _ & ->)]; simpl; lia.
  - rewrite (check_ghcr_tag_no_token W image_name tag token st Htoken). simpl.
    split_and!; [lia | lia | by left].
Qed.

Lemma check_ghcr_tag_requests W (image_name tag : string) (token : json) (st : State) :
  let r := check_ghcr_tag W image_name tag token st in
  requested (events r) = []
  ∨ ∃ registry_token,
      requested (events r) =
        [ghcr_token_request W image_name token;
         ghcr_manifest_request W image_name tag registry_token]
      ∨ ∃ config_digest,
          requested (events r) =
            [ghcr_token_request W image_name token;
             ghcr_manifest_request W image_name tag registry_token;
             ghcr_config_request W image_name config_digest registry_token].
Proof.
  intros r. subst r. destruct (Py.truthy token) eqn:Htoken.
  - destruct (check_ghcr_tag_steps W image_name tag token st Htoken)
      as (registry_token & log & -> & _ & Hlog).
    destruct (ghcr_manifest_ran W image_name tag registry_token (after_request st))
      as [Hreq _].
    rewrite events_prepend. simpl. rewrite requested_app, Hlog. simpl.
    right. exists registry_token.
    destruct Hreq as [[-> _] | (config_digest & -> & _)]; [by left | right; eauto].
  - rewrite (check_ghcr_tag_no_token W image_name tag token st Htoken). by left.
Qed.

(** X3: how the manifest request of the GHCR check can be refused.  Status
    404 gives the absent result and logs no error; 401 and 403 give it with
    the two lines about authentication; any other status than 200, a
    timeout, a network error and a body that is not JSON give it with one
    error line; in all these cases the manifest request is the only request
    made.  A result other than absent needs status 200 and a JSON object. *)
Theorem ghcr_manifest_refusals W (image_name tag : string) (registry_token : json)
  (st : State) :
  let request := ghcr_manifest_request W image_name tag registry_token in
  let o := requests_outcome W (requests_made st) request in
  let r := ghcr_manifest W image_name tag registry_token st in
  (∀ resp, o = Responds resp → status_code resp = 404 →
     r = {| result := Ret JNull; cursors := after_request st; events := [Get request] |})
  ∧ (∀ resp, o = Responds resp → status_code resp = 401 ∨ status_code resp = 403 →
       result r = Ret JNull ∧ requested (events r) = [request]
       ∧ errors (events r) = ghcr_auth_errors image_name (status_code resp))
  ∧ (o = TimesOut ∨ o = Fails
     ∨ (∃ resp, o = Responds resp ∧ status_code resp ≠ 404 ∧ status_code resp ≠ 401
                ∧ status_code resp ≠ 403
                ∧ (status_code resp ≠ 200 ∨ body resp = None)) →
       result r = Ret JNull ∧ requested (events r) = [request]
       ∧ length (errors (events r)) = 1%nat)
  ∧ (∀ data, result r = Ret data → data ≠ JNull →
       ∃ resp d, o = Responds resp ∧ status_code resp = 200 ∧ body resp = Some (JDict d)).
Proof.
  intros request o r. subst request o r.
  unfold ghcr_manifest, ghcr_manifest_request, ghcr_auth_errors. run_script.
  ghcr_branches.
  all: split_and!; intros; simplify_eq/=; eqb_props; eauto; try lia; try congruence.
  all: repeat match goal with
       | H : _ ∨ _ |- _ => destruct H
       | H : ∃ _, _ |- _ => destruct H
       | H : _ ∧ _ |- _ => destruct H
       end; simplify_eq/=; try lia; try congruence; auto.
Qed.

(** X4: a manifest answered by GHCR with status 200 and a JSON object whose
    mediaType is none of the four that the check knows, or is missing: the
    check gives the absent result, logs the error of line 213 with the media
    type it met ("None" when there is none), and makes no further request. *)
Theorem ghcr_unknown_manifest_type W (image_name tag : string) (registry_token : json) (st : State)
  (resp : Response) (d : list (string * json)) :
  requests_outcome W (requests_made st)
    (ghcr_manifest_request W image_name tag registry_token) = Responds resp →
  status_code resp = 200 →
  body resp = Some (JDict d) →
  let mediaType := default JNull (Py.lookup "mediaType" d) in
  (is_index_type mediaType = false → is_manifest_type mediaType = false →
   ghcr_manifest W image_name tag registry_token st =
   {| result := Ret JNull; cursors := after_request st;
      events := [Get (ghcr_manifest_request W image_name tag registry_token);
                 Error (ghcr_unknown_type_error W image_name tag mediaType)] |}).
Proof.
  unfold ghcr_manifest, ghcr_manifest_request, ghcr_unknown_type_error,
    is_index_type, is_manifest_type.
  run_script. intros -> -> ->. cbv zeta. simpl.
  destruct (Py.lookup "mediaType" d) as [mediaType|]; simpl.
  - intros -> ->. reflexivity.
  - intros _ _. reflexivity.
Qed.

Lemma normalized_entry_of_platform W (platform : json) :
  entry_of_platform platform ≫= normalized_platform W = normalized_platform W platform.
Proof.
  destruct platform as [| | | | | |p]; try reflexivity.
  unfold entry_of_platform, image_entry, normalized_platform.
  generalize (default JNull (Py.lookup "os" p)) (default JNull (Py.lookup "architecture" p))
    (default JNull (Py.lookup "variant" p)).
  intros os_name arch variant.
  destruct (Py.truthy arch) eqn:Harch; [| by rewrite !andb_false_r].
  rewrite !andb_true_r.
  destruct (Py.eq_str os_name "linux") eqn:Hos.
  - apply eq_str_true in Hos. subst os_name. simpl. rewrite Harch. simpl.
    destruct (Py.truthy variant) eqn:Hvariant; simpl; [reflexivity |].
    destruct variant as [| | | |v| |]; simpl in *; try reflexivity.
    apply negb_false_iff, String.eqb_eq in Hvariant. subst v.
    reflexivity.
  - destruct (Py.truthy os_name); simpl; [| reflexivity].
    by rewrite Hos.
Qed.

Lemma published_platforms_of_entries W (children : list json) :
  published_platforms W (omap (fun m => platform_of_child m ≫= entry_of_platform) children)
  = published_platforms W (omap platform_of_child children).
Proof.
  unfold published_platforms. apply set_eq. intros q.
  rewrite !elem_of_list_to_set, !list_elem_of_omap. split.
  - intros (entry & Hentry & Hq). apply list_elem_of_omap in Hentry as (m & Hm & Hentry).
    destruct (platform_of_child m) as [platform|] eqn:Hplatform; [| discriminate].
    simpl in Hentry. exists platform. split; [apply list_elem_of_omap; eauto |].
    rewrite <- normalized_entry_of_platform, Hentry. exact Hq.
  - intros (platform & Hplatform & Hq).
    apply list_elem_of_omap in Hplatform as (m & Hm & Hplatform).
    rewrite <- normalized_entry_of_platform in Hq.
    destruct (entry_of_platform platform) as [entry|] eqn:Hentry; [| discriminate].
    exists entry. split; [| exact Hq].
    apply list_elem_of_omap. exists m. split; [exact Hm |]. by rewrite Hplatform.
Qed.

Lemma get_platforms_of_entries W (entries : list json) (st : State) :
  result (get_platforms_from_tag_data W
            (match entries with [] => JNull | _ => JDict [("images", JList entries)] end) st)
  = Ret (published_platforms W entries ∩ REQUIRED_PLATFORMS).
Proof.
  destruct entries as [|entry entries].
  - simpl. f_equal; unfold published_platforms; simpl; set_solver.
  - by rewrite (get_platforms_of_images W [("images", JList (entry :: entries))]
                  (entry :: entries) st eq_refl).
Qed.

Lemma ghcr_manifest_index W (image_name tag : string) (registry_token : json) (st : State)
  (resp : Response) (d : list (string * json)) (children : list json)
  (looped : Res (list json)) :
  requests_outcome W (requests_made st)
    (ghcr_manifest_request W image_name tag registry_token) = Responds resp →
  status_code resp = 200 →
  body resp = Some (JDict d) →
  is_index_type (default JNull (Py.lookup "mediaType" d)) = true →
  default (JList []) (Py.lookup "manifests" d) = JList children →
  ghcr_index_images children [] (after_request st) =
    {| result := looped; cursors := after_request st; events := [] |} →
  (∃ images, looped = Ret images) ∨ looped = Raise AttributeError →
  ghcr_manifest W image_name tag registry_token st =
  {| result := match looped with
               | Ret images => Ret (match images with
                                    | [] => JNull
                                    | _ => JDict [("images", JList images)]
                                    end)
               | Exit c => Exit c
               | Raise e => Raise e
               end;
     cursors := after_request st;
     events := [Get (ghcr_manifest_request W image_name tag registry_token)] |}.
Proof.
  unfold ghcr_manifest, ghcr_manifest_request, is_index_type, after_request. run_script.
  intros -> Hstatus Hbody Htype Hchildren Hloop Hlooped. rewrite Hstatus, Hbody. simpl.
  destruct (Py.lookup "mediaType" d) as [mediaType|]; simpl in Htype; [| discriminate].
  simpl. rewrite Htype. simpl.
  destruct (Py.lookup "manifests" d) as [listed|]; simpl in Hchildren; simplify_eq/=.
  - rewrite Hloop. simpl. destruct Hlooped as [[images ->] | ->]; reflexivity.
  - unfold ret in Hloop. injection Hloop as <-. reflexivity.
Qed.

(** X5: a multi-platform index answered by GHCR.  When every child manifest
    is an object whose platform, if it names one, is an object, the check
    makes no further request and returns one entry for each child that names
    both an os and an architecture, in order, or the absent result when no
    child does; the platforms then extracted from the result are the required
    ones among the platforms of the children.  A child of another shape makes
    the check fail with an AttributeError, which is not among the exceptions
    it handles. *)
Theorem ghcr_index_platforms W (image_name tag : string) (registry_token : json) (st : State)
  (resp : Response) (d : list (string * json)) (children : list json) :
  let request := ghcr_manifest_request W image_name tag registry_token in
  let r := ghcr_manifest W image_name tag registry_token st in
  requests_outcome W (requests_made st) request = Responds resp →
  status_code resp = 200 →
  body resp = Some (JDict d) →
  is_index_type (default JNull (Py.lookup "mediaType" d)) = true →
  default (JList []) (Py.lookup "manifests" d) = JList children →
  (Forall (fun m => is_Some (platform_of_child m)) children →
   let entries := omap (fun m => platform_of_child m ≫= entry_of_platform) children in
   r = {| result := Ret (match entries with
                         | [] => JNull
                         | _ => JDict [("images", JList entries)]
                         end);
          cursors := after_request st; events := [Get request] |}
   ∧ ∃ data, result r = Ret data
       ∧ ∀ st', result (get_platforms_from_tag_data W data st') =
                Ret (published_platforms W (omap platform_of_child children)
                     ∩ REQUIRED_PLATFORMS))
  ∧ (∀ before m after,
       children = (before ++ m :: after)%list →
       Forall (fun m => is_Some (platform_of_child m)) before →
       platform_of_child m = None →
       result r = Raise AttributeError ∧ errors (events r) = []).
Proof.
  intros request r Ho Hstatus Hbody Htype Hchildren. subst request r. split.
  - intros Hwf entries.
    pose proof (ghcr_index_images_entries children [] (after_request st) Hwf) as Hloop.
    rewrite (ghcr_manifest_index W image_name tag registry_token st resp d children _
               Ho Hstatus Hbody Htype Hchildren Hloop (or_introl (ex_intro _ _ eq_refl))).
    split; [reflexivity |]. eexists. split; [reflexivity |].
    intros st'. simpl. fold entries.
    rewrite get_platforms_of_entries. subst entries.
    by rewrite published_platforms_of_entries.
  - intros before m after -> Hwf Hm.
    destruct (ghcr_index_images_ran (before ++ m :: after) [] (after_request st))
      as (looped & Hloop & Hlooped).
    pose proof (ghcr_index_images_malformed before after [] m (after_request st) Hwf Hm)
      as Hraise.
    rewrite Hloop in Hraise. simpl in Hraise. subst looped.
    rewrite (ghcr_manifest_index W image_name tag registry_token st resp d _ _
               Ho Hstatus Hbody Htype Hchildren Hloop (or_intror eq_refl)).
    split; reflexivity.
Qed.

(** X6: a single-platform manifest answered by GHCR.  Without a config
    digest the check gives the absent result with the error of line 209 and
    makes no further request.  With one it requests the configuration blob
    of that digest with the same registry token; a blob answered with status
    200 that names an os and an architecture gives the one entry made of
    them; another status, or a configuration that does not name both, gives
    the absent result with the error of line 209; a timeout, a network error
    or a body that is not JSON gives it with one error line; a JSON body that
    is not an object makes the check fail with an AttributeError. *)
Theorem ghcr_single_manifest W (image_name tag : string) (registry_token : json) (st : State)
  (resp : Response) (d c : list (string * json)) :
  let request := ghcr_manifest_request W image_name tag registry_token in
  let r := ghcr_manifest W image_name tag registry_token st in
  let config_digest := default JNull (Py.lookup "digest" c) in
  let blob_request := ghcr_config_request W image_name config_digest registry_token in
  let blob := requests_outcome W (S (requests_made st)) blob_request in
  requests_outcome W (requests_made st) request = Responds resp →
  status_code resp = 200 →
  body resp = Some (JDict d) →
  is_index_type (default JNull (Py.lookup "mediaType" d)) = false →
  is_manifest_type (default JNull (Py.lookup "mediaType" d)) = true →
  default (JDict []) (Py.lookup "config" d) = JDict c →
  (Py.truthy config_digest = false →
   r = {| result := Ret JNull; cursors := after_request st;
          events := [Get request; Error (ghcr_no_platform_error image_name tag)] |})
  ∧ (Py.truthy config_digest = true →
     requested (events r) = [request; blob_request]
     ∧ (∀ resp' config entry,
          blob = Responds resp' → status_code resp' = 200 → body resp' = Some config →
          entry_of_platform config = Some entry →
          result r = Ret (JDict [("images", JList [entry])]) ∧ errors (events r) = [])
     ∧ (∀ resp',
          blob = Responds resp' →
          status_code resp' ≠ 200
          ∨ (∃ c', body resp' = Some (JDict c') ∧ entry_of_platform (JDict c') = None) →
          result r = Ret JNull
          ∧ errors (events r) = [ghcr_no_platform_error image_name tag])
     ∧ (blob = TimesOut ∨ blob = Fails
        ∨ (∃ resp', blob = Responds resp' ∧ status_code resp' = 200 ∧ body resp' = None) →
        result r = Ret JNull ∧ length (errors (events r)) = 1%nat)
     ∧ (∀ resp' config,
          blob = Responds resp' → status_code resp' = 200 → body resp' = Some config →
          Py.isinstance_dict config = false →
          result r = Raise AttributeError ∧ errors (events r) = [])).
Proof.
  intros request r config_digest blob_request blob. subst request r blob blob_request config_digest.
  unfold ghcr_manifest, ghcr_manifest_request, ghcr_config_request, ghcr_no_platform_error,
    is_index_type, is_manifest_type, after_request, entry_of_platform.
  run_script.
  intros -> -> -> Hindex Hmanifest Hconfig. simpl.
  destruct (Py.lookup "mediaType" d) as [mediaType|]; simpl in *; [| discriminate].
  rewrite Hindex, Hmanifest. simpl.
  destruct (Py.lookup "config" d) as [config_ref|]; simpl in Hconfig; simplify_eq/=.
  - destruct (Py.lookup "digest" c) as [config_digest|]; simpl.
    + split; intros Htruthy; rewrite Htruthy; simpl; [reflexivity |].
      branches.
      all: split_and!; intros; simplify_eq/=; eqb_props; eauto; try lia; try congruence.
      all: repeat match goal with
           | H : _ ∨ _ |- _ => destruct H
           | H : ∃ _, _ |- _ => destruct H
           | H : _ ∧ _ |- _ => destruct H
           end; simplify_eq/=; try lia; try congruence; auto.
      all: repeat match goal with
           | H : Py.lookup ?k ?l = _, H' : context [Py.lookup ?k ?l] |- _ => rewrite H in H'
           end; simpl in *;
           repeat match goal with
           | H : Py.truthy ?x = _, H' : context [Py.truthy ?x] |- _ => rewrite H in H'
           end; simpl in *; simplify_eq/=; auto.
      all: rewrite andb_false_r in *; discriminate.
    + split; [reflexivity | discriminate].
  - split; [reflexivity | discriminate].
Qed.

(** X7: a token exchange answered with status 200 and a JSON object.  The
    manifest request carries what the object holds under "token", whatever
    it is, and the primary credential is not used again; when the object has
    no such key the manifest request is sent with "Bearer None". *)
Theorem ghcr_uses_granted_token W (image_name tag : string) (token : json) (st : State)
  (resp : Response) (d : list (string * json)) :
  let granted := default JNull (Py.lookup "token" d) in
  let r := check_ghcr_tag W image_name tag token st in
  Py.truthy token = true →
  requests_outcome W (requests_made st) (ghcr_token_request W image_name token)
    = Responds resp →
  status_code resp = 200 →
  body resp = Some (JDict d) →
  r = prepend [Get (ghcr_token_request W image_name token)]
        (ghcr_manifest W image_name tag granted (after_request st))
  ∧ (∃ rest, requested (events r) =
             ghcr_token_request W image_name token
             :: ghcr_manifest_request W image_name tag granted :: rest)
  ∧ (Py.lookup "token" d = None →
     headers (ghcr_manifest_request W image_name tag granted) =
     [("Authorization", "Bearer None");
      ("Accept", "application/vnd.oci.image.index.v1+json, application/vnd.docker.distribution.manifest.list.v2+json")]).
Proof.
  intros granted r Htoken Ho Hstatus Hbody. subst granted r.
  assert (check_ghcr_tag W image_name tag token st =
          prepend [Get (ghcr_token_request W image_name token)]
            (ghcr_manifest W image_name tag (default JNull (Py.lookup "token" d))
               (after_request st))) as Hrun.
  { unfold check_ghcr_tag. rewrite Htoken. simpl. unfold bind.
    by rewrite (ghcr_registry_token_granted W image_name token st resp d Ho Hstatus Hbody). }
  split_and!.
  - exact Hrun.
  - rewrite Hrun, events_prepend.
    destruct (ghcr_manifest_requests_first W image_name tag
                (default JNull (Py.lookup "token" d)) (after_request st)) as [rest ->].
    eexists. reflexivity.
  - intros ->. reflexivity.
Qed.


(** ** More on the output sink *)

Lemma set_action_output_unwritable W (key value path : string) (st : State) :
  environ W "GITHUB_OUTPUT" = Some path →
  append_succeeds W (appends_tried st) path = false →
  set_action_output W key value st =
  {| result := Exit 1;
     cursors := {| requests_made := requests_made st;
                   uuids_drawn := uuids_drawn st;
                   appends_tried := S (appends_tried st) |};
     events := [Error (sink_error path)] |}.
Proof.
  intros Hsink Hfail. unfold set_action_output, sink_error. rewrite Hsink.
  run_script. rewrite Hfail. reflexivity.
Qed.

Lemma has_newline_flag (needs_build : bool) :
  Py.has_newline (if needs_build then "true" else "false") = false.
Proof. by destruct needs_build. Qed.

Ltac write_output W path Hsink Hr :=
  match type of Hr with
  | context [set_action_output W _ _ ?s] =>
      first
        [ match goal with
          | H : append_succeeds W _ path = true |- _ =>
              rewrite (set_action_output_sink W _ _ path s Hsink H) in Hr
          end
        | match goal with
          | H : append_succeeds W _ path = false |- _ =>
              rewrite (set_action_output_unwritable W _ _ path s Hsink H) in Hr
          end ]
  end.

Lemma errors_app (evs evs' : list Event) :
  errors (evs ++ evs')%list = (errors evs ++ errors evs')%list.
Proof. apply omap_app. Qed.

Lemma reported_prepend W (flag tag : string) (evs : list Event) (tail : Ran unit) :
  Forall plain evs →
  reported W flag tag tail →
  reported W flag tag (prepend evs tail).
Proof.
  intros Hp. destruct (plain_quiet evs Hp) as [Ha Hw]. unfold reported.
  rewrite result_prepend, events_prepend, appended_app, warnings_app, errors_app, Ha, Hw.
  simpl. destruct (environ W "GITHUB_OUTPUT") as [path|]; [| done].
  repeat destruct (append_succeeds W _ path); try done.
  all: intros (? & ? & ? & ?); split_and!; try done; apply in_or_app; by right.
Qed.

Lemma report_not_ready_reported W (tag : string) (st : State) :
  same_output_cursors initial st →
  reported W "false" tag (report_not_ready W tag st)
  ∧ requested (events (report_not_ready W tag st)) = [].
Proof.
  intros [Huuids Happends]. destruct st as [n u a]. simpl in Huuids, Happends. subst u a.
  remember (report_not_ready W tag _) as r eqn:Hr.
  unfold reported, report_not_ready, bind in *.
  destruct (environ W "GITHUB_OUTPUT") as [path|] eqn:Hsink.
  - destruct (append_succeeds W 0 path) eqn:Hfirst;
      write_output W path Hsink Hr; simpl in Hr; [| subst r; simpl; split_and!; auto].
    destruct (append_succeeds W 1 path) eqn:Hsecond;
      write_output W path Hsink Hr; subst r; simpl; split_and!; auto.
  - rewrite !(set_action_output_no_sink W _ _ _ Hsink) in Hr. by subst r.
Qed.

Lemma report_decision_reported W (tag : string) (needs_build : bool) (st : State) :
  same_output_cursors initial st →
  reported W (if needs_build then "true" else "false") tag
    (report_decision W tag needs_build st)
  ∧ requested (events (report_decision W tag needs_build st)) = [].
Proof.
  intros [Huuids Happends]. destruct st as [n u a]. simpl in Huuids, Happends. subst u a.
  remember (report_decision W tag needs_build _) as r eqn:Hr.
  unfold reported, report_decision, bind in *.
  destruct (environ W "GITHUB_OUTPUT") as [path|] eqn:Hsink.
  - destruct (append_succeeds W 0 path) eqn:Hfirst;
      write_output W path Hsink Hr; simpl in Hr; [| subst r; simpl; split_and!; auto].
    rewrite has_newline_flag in Hr. unfold output_entry at 1 in Hr.
    rewrite has_newline_flag in Hr.
    destruct (append_succeeds W 1 path) eqn:Hsecond;
      write_output W path Hsink Hr; subst r; simpl; split_and!; auto.
  - rewrite !(set_action_output_no_sink W _ _ _ Hsink) in Hr. by subst r.
Qed.

(** ** More on the release lookup *)

Lemma release_lookup_ends W (token : json) (st : State) :
  let r := get_latest_caddy_release W token st in
  (∃ tag, result r = Ret tag ∧ errors (events r) = [])
  ∨ (result r = Exit 1 ∧ errors (events r) ≠ [])
  ∨ (result r = Raise AttributeError ∧ errors (events r) = []).
Proof.
  intros r. subst r. unfold get_latest_caddy_release. run_script. branches.
  all: eauto.
Qed.

Lemma check_docker_hub_tag_found W (image_name tag : string) (st : State) (data : json) :
  result (check_docker_hub_tag W image_name tag st) = Ret data →
  Py.truthy data = true →
  errors (events (check_docker_hub_tag W image_name tag st)) = [].
Proof.
  unfold check_docker_hub_tag. run_script. branches.
  all: intros; simplify_eq/=; done.
Qed.

Lemma check_docker_hub_tag_answered W (image_name tag : string) (st : State)
  (resp : Response) (data : json) :
  requests_outcome W (requests_made st) (docker_hub_request image_name tag) = Responds resp →
  status_code resp = 200 →
  body resp = Some data →
  result (check_docker_hub_tag W image_name tag st) = Ret data.
Proof.
  unfold check_docker_hub_tag, docker_hub_request. run_script.
  intros -> -> ->. reflexivity.
Qed.

Lemma check_docker_hub_tag_unanswered W (image_name tag : string) (st : State) :
  let o := requests_outcome W (requests_made st) (docker_hub_request image_name tag) in
  o = TimesOut ∨ o = Fails
  ∨ (∃ resp, o = Responds resp ∧ (status_code resp ≠ 200 ∨ body resp = None)) →
  result (check_docker_hub_tag W image_name tag st) = Ret JNull.
Proof.
  unfold check_docker_hub_tag, docker_hub_request. run_script.
  intros [-> | [-> | (resp & -> & Hresp)]]; try reflexivity.
  branches; eqb_props; try reflexivity.
  destruct Hresp; congruence.
Qed.

Lemma image_state_of_images W (d : list (string * json)) (imgs : list json) :
  Py.lookup "images" d = Some (JList imgs) →
  image_state W (JDict d) =
  Ret (if bool_decide (REQUIRED_PLATFORMS ⊆ published_platforms W imgs)
       then PRESENT_COMPLETE else PRESENT_INCOMPLETE).
Proof.
  intros Hd. unfold image_state.
  assert (Py.truthy (JDict d) = true) as -> by (destruct d; [discriminate | reflexivity]).
  rewrite (get_platforms_of_images W d imgs initial Hd). simpl. f_equal.
  destruct (has_all_required _) eqn:Hall; case_bool_decide as Hsub; try reflexivity.
  - apply has_all_required_true in Hall. destruct Hsub. set_solver.
  - apply not_true_iff_false in Hall. destruct Hall. apply has_all_required_true. set_solver.
Qed.

(** ** The run as a whole *)

Ltac network_only :=
  first [ done
        | intros ? ? ? [? ?] [? ?]; split; congruence
        | intros; split; reflexivity ].

Lemma bind_log_info {A} (message : string) (values : list string) (k : M A) (st : State) :
  (log_info message values ;; k) st =
  prepend [Info {| template := message; args := values |}] (k st).
Proof. reflexivity. Qed.

Ltac find_in := first [reflexivity | left; find_in | right; find_in].
Ltac in_events := rewrite ?in_app_iff; simpl; find_in.

Ltac plain_events :=
  repeat first
    [ assumption
    | apply List.Forall_nil
    | apply List.Forall_cons; [exact I |]
    | apply Forall_app; split ].

Lemma network_get_latest_caddy_release W token :
  confined plain same_output_cursors (get_latest_caddy_release W token).
Proof. apply confined_get_latest_caddy_release; network_only. Qed.

Lemma network_check_docker_hub_tag W image_name tag :
  confined plain same_output_cursors (check_docker_hub_tag W image_name tag).
Proof. apply confined_check_docker_hub_tag; network_only. Qed.

Lemma network_check_ghcr_tag W image_name tag token :
  confined plain same_output_cursors (check_ghcr_tag W image_name tag token).
Proof. apply confined_check_ghcr_tag; network_only. Qed.

Lemma network_get_platforms_from_tag_data W tag_data :
  confined plain same_output_cursors (get_platforms_from_tag_data W tag_data).
Proof. apply confined_get_platforms_from_tag_data; network_only. Qed.

Lemma network_custom_check W (tag : string) :
  Forall plain (events (custom_check W tag))
  ∧ same_output_cursors (at_request 2) (cursors (custom_check W tag)).
Proof.
  unfold custom_check. destruct (String.eqb _ _);
    [apply network_check_docker_hub_tag | apply network_check_ghcr_tag].
Qed.

Lemma registry_is_valid W :
  CUSTOM_REGISTRY W = "dockerhub" ∨ CUSTOM_REGISTRY W = "ghcr" →
  negb (String.eqb (CUSTOM_REGISTRY W) "dockerhub"
        || String.eqb (CUSTOM_REGISTRY W) "ghcr") = false.
Proof. intros [-> | ->]; reflexivity. Qed.

Local Opaque get_latest_caddy_release check_docker_hub_tag check_ghcr_tag
  get_platforms_from_tag_data set_action_output.

(** Steps of main up to the answer of Docker Hub about the official image. *)
Ltac run_to_upstream W tag Hreg :=
  unfold run, main; unfold bind at 1 2; simpl;
  rewrite REQUIRED_PLATFORMS_nonempty, (registry_is_valid W Hreg);
  unfold bind at 1; simpl; unfold bind at 1;
  pose proof (get_latest_caddy_release_ran W (environ_get W "GITHUB_TOKEN") initial)
    as [Hc1 Hq1];
  pose proof (network_get_latest_caddy_release W (environ_get W "GITHUB_TOKEN") initial)
    as [Hp1 _];
  destruct (get_latest_caddy_release W _ initial) as [r1 c1 evs1];
  simpl in *; subst r1 c1;
  unfold bind at 1; simpl; unfold bind at 1;
  pose proof (check_docker_hub_tag_ran W OFFICIAL_CADDY_IMAGE (Py.lstrip_v tag) (at_request 1))
    as (Hc2 & Hq2 & data & Hr2);
  pose proof (network_check_docker_hub_tag W OFFICIAL_CADDY_IMAGE (Py.lstrip_v tag) (at_request 1))
    as [Hp2 _];
  change (after_request initial) with (at_request 1);
  destruct (check_docker_hub_tag W _ _ (at_request 1)) as [r2 c2 evs2];
  simpl in *; subst r2 c2;
  change (after_request (at_request 1)) with (at_request 2).

(** The platforms found in tag data, at any point of the run. *)
Ltac run_get_platforms W data st r evs Hq Hr Hp :=
  let Hc := fresh "Hc" in
  let c := fresh "c" in
  pose proof (get_platforms_from_tag_data_ran W data st) as (Hc & Hq & Hr);
  pose proof (network_get_platforms_from_tag_data W data st) as [Hp _];
  destruct (get_platforms_from_tag_data W data st) as [r c evs];
  simpl in *; subst c.

Lemma run_not_ready W (tag : string) (upstream : ImageState) :
  CUSTOM_REGISTRY W = "dockerhub" ∨ CUSTOM_REGISTRY W = "ghcr" →
  result (get_latest_caddy_release W (environ_get W "GITHUB_TOKEN") initial) = Ret tag →
  upstream_state W tag = Ret upstream →
  upstream ≠ PRESENT_COMPLETE →
  ∃ evs,
    run W = prepend evs (report_not_ready W tag (at_request 2))
    ∧ Forall plain evs
    ∧ requested evs = [release_request W (environ_get W "GITHUB_TOKEN");
                       docker_hub_request OFFICIAL_CADDY_IMAGE (Py.lstrip_v tag)]
    ∧ In (Info not_ready_message) evs.
Proof.
  intros Hreg Hrel Hup Hne. unfold upstream_state, image_state in Hup.
  run_to_upstream W tag Hreg.
  unfold bind at 1. destruct (Py.truthy data) eqn:Htruthy.
  - unfold bind at 1. simpl. unfold bind at 1.
    run_get_platforms W data (at_request 2) r3 evs3 Hq3 Hr3 Hp3. rewrite <- Hr3 in Hup.
    destruct r3 as [found| |]; try discriminate.
    destruct (has_all_required found) eqn:Hall; [congruence |].
    simpl. rewrite bind_log_info, !prepend_prepend. eexists. split; [reflexivity |].
    split_and!.
    + plain_events.
    + rewrite !requested_app. simpl. rewrite !requested_app, Hq1, Hq2, Hq3. reflexivity.
    + in_events.
  - simpl. rewrite bind_log_info, !prepend_prepend. eexists. split; [reflexivity |].
    split_and!.
    + plain_events.
    + rewrite !requested_app. simpl. rewrite Hq1, Hq2. reflexivity.
    + in_events.
Qed.

Lemma run_ready W (tag : string) (tag_data : json) (custom : ImageState) :
  CUSTOM_REGISTRY W = "dockerhub" ∨ CUSTOM_REGISTRY W = "ghcr" →
  result (get_latest_caddy_release W (environ_get W "GITHUB_TOKEN") initial) = Ret tag →
  upstream_state W tag = Ret PRESENT_COMPLETE →
  result (custom_check W tag) = Ret tag_data →
  image_state W tag_data = Ret custom →
  ∃ evs,
    run W = prepend evs
              (report_decision W tag (negb (is_complete custom)) (cursors (custom_check W tag)))
    ∧ Forall plain evs
    ∧ requested evs = ([release_request W (environ_get W "GITHUB_TOKEN");
                        docker_hub_request OFFICIAL_CADDY_IMAGE (Py.lstrip_v tag)]
                       ++ requested (events (custom_check W tag)))%list
    ∧ In (Info (decision_message tag (negb (is_complete custom)))) evs.
Proof.
  intros Hreg Hrel Hup Hcustom Hstate. unfold upstream_state, image_state in Hup.
  unfold image_state in Hstate.
  run_to_upstream W tag Hreg. rename data into official.
  unfold bind at 1. destruct (Py.truthy official) eqn:Htruthy; [| discriminate].
  unfold bind at 1. simpl. unfold bind at 1.
  run_get_platforms W official (at_request 2) r3 evs3 Hq3 Hr3 Hp3. rewrite <- Hr3 in Hup.
  destruct r3 as [found| |]; try discriminate.
  destruct (has_all_required found) eqn:Hall; [| discriminate].
  simpl. rewrite bind_log_info. unfold bind at 1.
  change ((if String.eqb (CUSTOM_REGISTRY W) "dockerhub"
           then check_docker_hub_tag W (CUSTOM_IMAGE W) (CUSTOM_TAG_PREFIX ++ Py.lstrip_v tag)
           else check_ghcr_tag W (CUSTOM_IMAGE W) (CUSTOM_TAG_PREFIX ++ Py.lstrip_v tag)
                  (environ_get W "GITHUB_TOKEN")) (at_request 2))
    with (custom_check W tag).
  pose proof (network_custom_check W tag) as [Hp4 _].
  destruct (custom_check W tag) as [r4 c4 evs4]. simpl in *. subst r4.
  unfold bind at 1. destruct (Py.truthy tag_data) eqn:Htruthy'.
  - unfold bind at 1. simpl. unfold bind at 1.
    run_get_platforms W tag_data c4 r5 evs5 Hq5 Hr5 Hp5. rewrite <- Hr5 in Hstate.
    destruct r5 as [found'| |]; try discriminate.
    destruct (has_all_required found') eqn:Hall'; simplify_eq/=.
    all: rewrite bind_log_info, !prepend_prepend; eexists; split; [reflexivity |].
    all: split_and!; [plain_events | | in_events].
    all: rewrite !requested_app; simpl; rewrite !requested_app, Hq1, Hq2, Hq3, Hq5; simpl.
    all: by rewrite !app_nil_r.
  - simplify_eq/=.
    rewrite bind_log_info, !prepend_prepend; eexists; split; [reflexivity |].
    split_and!; [plain_events | | in_events].
    rewrite !requested_app; simpl; rewrite !requested_app, Hq1, Hq2, Hq3; simpl.
    by rewrite ?app_nil_r.
Qed.

Lemma report_not_ready_sink W (tag path : string) (st : State) :
  environ W "GITHUB_OUTPUT" = Some path →
  (∀ n, append_succeeds W n path = true) →
  result (report_not_ready W tag st) = Exit 0
  ∧ events (report_not_ready W tag st) =
      [Append path ("NEEDS_BUILD=false" ++ Py.newline);
       Append path (output_entry W (uuids_drawn st) "LATEST_VERSION" tag)].
Proof.
  intros Hsink Hok. unfold report_not_ready, bind.
  rewrite (set_action_output_sink W _ _ path st Hsink (Hok _)).
  rewrite (set_action_output_sink W _ _ path _ Hsink (Hok _)).
  split; reflexivity.
Qed.

Lemma report_decision_sink W (tag path : string) (needs_build : bool) (st : State) :
  environ W "GITHUB_OUTPUT" = Some path →
  (∀ n, append_succeeds W n path = true) →
  result (report_decision W tag needs_build st) = Ret tt
  ∧ appended (events (report_decision W tag needs_build st)) =
      [(path, "NEEDS_BUILD=" ++ (if needs_build then "true" else "false") ++ Py.newline);
       (path, output_entry W (uuids_drawn st) "LATEST_VERSION" tag)].
Proof.
  intros Hsink Hok. unfold report_decision, bind.
  rewrite (set_action_output_sink W _ _ path st Hsink (Hok _)).
  rewrite (set_action_output_sink W _ _ path _ Hsink (Hok _)).
  destruct needs_build; split; reflexivity.
Qed.

Lemma report_not_ready_no_sink W (tag : string) (st : State) :
  environ W "GITHUB_OUTPUT" = None →
  report_not_ready W tag st =
  {| result := Exit 0; cursors := st;
     events := [Warning (no_sink_warning "NEEDS_BUILD");
                Warning (no_sink_warning "LATEST_VERSION")] |}.
Proof.
  intros Hsink. unfold report_not_ready, bind.
  rewrite !(set_action_output_no_sink W _ _ _ Hsink). reflexivity.
Qed.

Lemma report_decision_no_sink W (tag : string) (needs_build : bool) (st : State) :
  environ W "GITHUB_OUTPUT" = None →
  result (report_decision W tag needs_build st) = Ret tt
  ∧ warnings (events (report_decision W tag needs_build st)) =
      [no_sink_warning "NEEDS_BUILD"; no_sink_warning "LATEST_VERSION"]
  ∧ appended (events (report_decision W tag needs_build st)) = [].
Proof.
  intros Hsink. unfold report_decision, bind.
  rewrite !(set_action_output_no_sink W _ _ _ Hsink). split_and!; reflexivity.
Qed.

Lemma present_complete_iff W (tag_data : json) :
  image_state W tag_data = Ret PRESENT_COMPLETE ↔
  Py.truthy tag_data = true
  ∧ ∃ found, result (get_platforms_from_tag_data W tag_data initial) = Ret found
             ∧ REQUIRED_PLATFORMS ⊆ found.
Proof.
  unfold image_state. destruct (Py.truthy tag_data); [| naive_solver].
  destruct (result (get_platforms_from_tag_data W tag_data initial)) as [found| |];
    [| naive_solver | naive_solver].
  destruct (has_all_required found) eqn:Hall.
  - apply has_all_required_true in Hall. naive_solver.
  - split; [discriminate |]. intros (_ & found' & [= <-] & Hsub).
    apply has_all_required_true in Hsub. congruence.
Qed.

(** C1: when the check of the official image does not end in
    PRESENT_COMPLETE, the run writes NEEDS_BUILD=false and asks no registry
    about the custom image; when it does, the flag written is the negation
    of "the custom tag is present and its extracted platforms cover the
    required set". *)
Theorem build_decision W (tag path : string) (upstream : ImageState) :
  CUSTOM_REGISTRY W = "dockerhub" ∨ CUSTOM_REGISTRY W = "ghcr" →
  result (get_latest_caddy_release W (environ_get W "GITHUB_TOKEN") initial) = Ret tag →
  environ W "GITHUB_OUTPUT" = Some path →
  (∀ n, append_succeeds W n path = true) →
  upstream_state W tag = Ret upstream →
  (upstream ≠ PRESENT_COMPLETE →
     result (run W) = Exit 0
     ∧ appended (events (run W)) =
         [(path, "NEEDS_BUILD=false" ++ Py.newline);
          (path, output_entry W 0 "LATEST_VERSION" tag)]
     ∧ requested (events (run W)) =
         [release_request W (environ_get W "GITHUB_TOKEN");
          docker_hub_request OFFICIAL_CADDY_IMAGE (Py.lstrip_v tag)])
  ∧ (upstream = PRESENT_COMPLETE →
     ∀ tag_data custom,
       result (custom_check W tag) = Ret tag_data →
       image_state W tag_data = Ret custom →
       result (run W) = Ret tt
       ∧ appended (events (run W)) =
           [(path, "NEEDS_BUILD=" ++ (if is_complete custom then "false" else "true")
                   ++ Py.newline);
            (path, output_entry W 0 "LATEST_VERSION" tag)])
  ∧ (∀ tag_data,
       image_state W tag_data = Ret PRESENT_COMPLETE ↔
       Py.truthy tag_data = true
       ∧ ∃ found, result (get_platforms_from_tag_data W tag_data initial) = Ret found
                  ∧ REQUIRED_PLATFORMS ⊆ found).
Proof.
  intros Hreg Hrel Hsink Hok Hup. split_and!.
  - intros Hne.
    destruct (run_not_ready W tag upstream Hreg Hrel Hup Hne) as (evs & Hrun & Hp & Hq & _).
    destruct (report_not_ready_sink W tag path (at_request 2) Hsink Hok) as [Hres Hev].
    destruct (plain_quiet evs Hp) as [Hnone _].
    rewrite Hrun, result_prepend, events_prepend, appended_app, requested_app, Hev, Hnone, Hq.
    split_and!; done.
  - intros -> tag_data custom Hcustom Hstate.
    destruct (run_ready W tag tag_data custom Hreg Hrel Hup Hcustom Hstate)
      as (evs & Hrun & Hp & _ & _).
    destruct (network_custom_check W tag) as [_ [Huuid _]].
    destruct (report_decision_sink W tag path (negb (is_complete custom))
                (cursors (custom_check W tag)) Hsink Hok) as [Hres Hev].
    destruct (plain_quiet evs Hp) as [Hnone _].
    rewrite Hrun, result_prepend, events_prepend, appended_app, Hev, Hnone, Huuid.
    split; [done |]. by destruct (is_complete custom).
  - apply present_complete_iff.
Qed.

Lemma run_without_release W :
  (∀ tag, result (get_latest_caddy_release W (environ_get W "GITHUB_TOKEN") initial)
          ≠ Ret tag) →
  exit_code (result (run W)) = 1
  ∧ appended (events (run W)) = []
  ∧ warnings (events (run W)) = [].
Proof.
  intros Hfail.
  assert (exit_code (result (run W)) = 1 ∧ Forall plain (events (run W))) as [Hcode Hp].
  { remember (run W) as r eqn:Hr.
    unfold run, main in Hr. unfold bind at 1 2 in Hr. simpl in Hr.
    rewrite REQUIRED_PLATFORMS_nonempty in Hr.
    destruct (negb _) in Hr; [subst r; split; [reflexivity | plain_events] |].
    unfold bind at 1 in Hr. simpl in Hr. unfold bind at 1 in Hr.
    pose proof (network_get_latest_caddy_release W (environ_get W "GITHUB_TOKEN") initial)
      as [Hp _].
    pose proof (release_lookup_outcomes W (environ_get W "GITHUB_TOKEN") initial) as [_ Hends].
    simpl in Hends.
    destruct (get_latest_caddy_release W _ initial) as [res c evs]. simpl in *.
    destruct Hends as [[tag ->] | [-> | ->]]; [by destruct (Hfail tag) | |];
      subst r; split; try reflexivity; plain_events. }
  destruct (plain_quiet _ Hp) as [Ha Hw]. done.
Qed.

(** C7: the release lookup returns the tag only when the request is answered
    without an HTTP error status by a JSON object whose tag_name is a string
    that begins with "v"; a timeout, a network error, an HTTP error status, a
    malformed body, and a missing, empty or differently prefixed tag_name all
    end in sys.exit(1); and a run whose lookup returns no tag ends with a
    non-zero exit code without writing or attempting any output. *)
Theorem release_lookup_is_fatal W :
  (∀ token st,
     let o := requests_outcome W (requests_made st) (release_request W token) in
     let r := get_latest_caddy_release W token st in
     (∀ tag, result r = Ret tag ↔
        ∃ resp d, o = Responds resp
          ∧ ¬ (400 ≤ status_code resp < 600)
          ∧ body resp = Some (JDict d)
          ∧ Py.lookup "tag_name" d = Some (JStr tag)
          ∧ String.prefix "v" tag = true)
     ∧ ((∃ tag, result r = Ret tag) ∨ result r = Exit 1 ∨ result r = Raise AttributeError)
     ∧ (o = TimesOut → result r = Exit 1)
     ∧ (o = Fails → result r = Exit 1)
     ∧ (∀ resp, o = Responds resp → 400 ≤ status_code resp < 600 → result r = Exit 1)
     ∧ (∀ resp, o = Responds resp → ¬ (400 ≤ status_code resp < 600) → body resp = None →
          result r = Exit 1)
     ∧ (∀ resp d, o = Responds resp → ¬ (400 ≤ status_code resp < 600) →
          body resp = Some (JDict d) → Py.lookup "tag_name" d = None → result r = Exit 1)
     ∧ (∀ resp d tag, o = Responds resp → ¬ (400 ≤ status_code resp < 600) →
          body resp = Some (JDict d) → Py.lookup "tag_name" d = Some (JStr tag) →
          String.prefix "v" tag = false → result r = Exit 1))
  ∧ ((∀ tag, result (get_latest_caddy_release W (environ_get W "GITHUB_TOKEN") initial)
             ≠ Ret tag) →
     exit_code (result (run W)) = 1
     ∧ appended (events (run W)) = []
     ∧ warnings (events (run W)) = []).
Proof.
  split.
  - intros token st o r.
    destruct (release_lookup_outcomes W token st) as [Hiff Hends].
    pose proof (release_lookup_failures W token st) as Hfailures.
    split; [exact Hiff |]. split; [exact Hends | exact Hfailures].
  - apply run_without_release.
Qed.

(** C9: without a token the GHCR check returns the absent result at once,
    with no request made; so with GHCR selected, no token configured and the
    official image ready, the run writes NEEDS_BUILD=true, having asked only
    for the release and the official image. *)
Theorem ghcr_without_token_needs_build W :
  (∀ image_name tag token st,
     Py.truthy token = false →
     result (check_ghcr_tag W image_name tag token st) = Ret JNull
     ∧ requested (events (check_ghcr_tag W image_name tag token st)) = []
     ∧ cursors (check_ghcr_tag W image_name tag token st) = st)
  ∧ (∀ tag path,
       CUSTOM_REGISTRY W = "ghcr" →
       Py.truthy (environ_get W "GITHUB_TOKEN") = false →
       result (get_latest_caddy_release W (environ_get W "GITHUB_TOKEN") initial) = Ret tag →
       upstream_state W tag = Ret PRESENT_COMPLETE →
       environ W "GITHUB_OUTPUT" = Some path →
       (∀ n, append_succeeds W n path = true) →
       result (run W) = Ret tt
       ∧ appended (events (run W)) =
           [(path, "NEEDS_BUILD=true" ++ Py.newline);
            (path, output_entry W 0 "LATEST_VERSION" tag)]
       ∧ requested (events (run W)) =
           [release_request W (environ_get W "GITHUB_TOKEN");
            docker_hub_request OFFICIAL_CADDY_IMAGE (Py.lstrip_v tag)]).
Proof.
  split.
  - intros image_name tag token st Htoken.
    rewrite (check_ghcr_tag_no_token W image_name tag token st Htoken). done.
  - intros tag path Hghcr Htoken Hrel Hup Hsink Hok.
    assert (custom_check W tag =
            {| result := Ret JNull; cursors := at_request 2;
               events := [Error {| template := "GITHUB_TOKEN environment variable not set for GHCR registry check.";
                                   args := [] |}] |}) as Hcheck.
    { unfold custom_check. rewrite Hghcr. simpl.
      apply (check_ghcr_tag_no_token W _ _ _ _ Htoken). }
    assert (result (custom_check W tag) = Ret JNull) as Hcustom by (by rewrite Hcheck).
    destruct (run_ready W tag JNull ABSENT (or_intror Hghcr) Hrel Hup Hcustom eq_refl)
      as (evs & Hrun & Hp & Hq & _).
    rewrite Hcheck in Hrun, Hq. simpl in Hrun, Hq.
    destruct (report_decision_sink W tag path true (at_request 2) Hsink Hok) as [Hres Hev].
    destruct (plain_quiet evs Hp) as [Hnone _].
    rewrite Hrun, result_prepend, events_prepend, appended_app, requested_app.
    rewrite Hres, Hev, Hnone, Hq.
    assert (requested (events (report_decision W tag true (at_request 2))) = []) as ->.
    { unfold report_decision, bind.
      rewrite !(set_action_output_sink W _ _ path _ Hsink (Hok _)). reflexivity. }
    split_and!; done.
Qed.

(** C10: without GITHUB_OUTPUT every output write is replaced by a warning
    and nothing is ever appended to a file; a run whose lookups complete
    still takes its decision, logs it, and ends with exit code 0. *)
Theorem missing_sink_is_not_fatal W :
  environ W "GITHUB_OUTPUT" = None →
  appended (events (run W)) = []
  ∧ (∀ key value st,
       set_action_output W key value st =
       {| result := Ret tt; cursors := st; events := [Warning (no_sink_warning key)] |})
  ∧ (∀ tag upstream,
       CUSTOM_REGISTRY W = "dockerhub" ∨ CUSTOM_REGISTRY W = "ghcr" →
       result (get_latest_caddy_release W (environ_get W "GITHUB_TOKEN") initial) = Ret tag →
       upstream_state W tag = Ret upstream →
       (upstream ≠ PRESENT_COMPLETE →
          exit_code (result (run W)) = 0
          ∧ warnings (events (run W)) =
              [no_sink_warning "NEEDS_BUILD"; no_sink_warning "LATEST_VERSION"]
          ∧ In (Info not_ready_message) (events (run W)))
       ∧ (upstream = PRESENT_COMPLETE →
          ∀ tag_data custom,
            result (custom_check W tag) = Ret tag_data →
            image_state W tag_data = Ret custom →
            exit_code (result (run W)) = 0
            ∧ warnings (events (run W)) =
                [no_sink_warning "NEEDS_BUILD"; no_sink_warning "LATEST_VERSION"]
            ∧ In (Info (decision_message tag (negb (is_complete custom))))
                 (events (run W)))).
Proof.
  intros Hsink. split_and!.
  - apply not_append_appended.
    refine (proj1 (confined_main W not_append any_cursors _ _ _ _ _ _ _ Hsink initial)); done.
  - intros key value st. by apply set_action_output_no_sink.
  - intros tag upstream Hreg Hrel Hup. split.
    + intros Hne.
      destruct (run_not_ready W tag upstream Hreg Hrel Hup Hne) as (evs & Hrun & Hp & _ & Hin).
      destruct (plain_quiet evs Hp) as [_ Hnone].
      rewrite Hrun, result_prepend, events_prepend, warnings_app, Hnone.
      rewrite (report_not_ready_no_sink W tag _ Hsink). simpl.
      split_and!; try done. apply in_or_app. by left.
    + intros -> tag_data custom Hcustom Hstate.
      destruct (run_ready W tag tag_data custom Hreg Hrel Hup Hcustom Hstate)
        as (evs & Hrun & Hp & _ & Hin).
      destruct (plain_quiet evs Hp) as [_ Hnone].
      destruct (report_decision_no_sink W tag (negb (is_complete custom))
                  (cursors (custom_check W tag)) Hsink) as (Hres & Hwarn & _).
      rewrite Hrun, result_prepend, events_prepend, warnings_app, Hnone, Hres, Hwarn.
      split_and!; try done. apply in_or_app. by left.
Qed.

(** ** Every way a run can go *)

Lemma image_state_cases W (tag_data : json) :
  (∃ s, image_state W tag_data = Ret s) ∨ image_state W tag_data = Raise TypeError.
Proof.
  unfold image_state. destruct (Py.truthy tag_data); [| eauto].
  destruct (get_platforms_from_tag_data_raises W tag_data initial)
    as [[found ->] | (-> & _)]; eauto.
Qed.

Lemma upstream_state_cases W (tag : string) :
  (∃ s, upstream_state W tag = Ret s) ∨ upstream_state W tag = Raise TypeError.
Proof.
  unfold upstream_state.
  destruct (check_docker_hub_tag_ran W OFFICIAL_CADDY_IMAGE (Py.lstrip_v tag) (at_request 1))
    as (_ & _ & data & ->).
  apply image_state_cases.
Qed.

Lemma custom_check_cases W (tag : string) :
  ((∃ data, result (custom_check W tag) = Ret data)
   ∨ result (custom_check W tag) = Raise AttributeError
   ∨ result (custom_check W tag) = Raise TypeError)
  ∧ (length (requested (events (custom_check W tag))) ≤ 3)%nat
  ∧ (CUSTOM_REGISTRY W = "dockerhub" →
     requested (events (custom_check W tag)) =
     [docker_hub_request (CUSTOM_IMAGE W) (CUSTOM_TAG_PREFIX ++ Py.lstrip_v tag)]).
Proof.
  unfold custom_check. destruct (String.eqb (CUSTOM_REGISTRY W) "dockerhub") eqn:Hhub.
  - destruct (check_docker_hub_tag_ran W (CUSTOM_IMAGE W) (CUSTOM_TAG_PREFIX ++ Py.lstrip_v tag)
                (at_request 2)) as (_ & -> & data & ->).
    split_and!; [eauto | simpl; lia | done].
  - destruct (check_ghcr_tag_ran W (CUSTOM_IMAGE W) (CUSTOM_TAG_PREFIX ++ Py.lstrip_v tag)
                (environ_get W "GITHUB_TOKEN") (at_request 2)) as (Hcount & _ & Hresult).
    split_and!; [| exact Hcount |].
    + destruct Hresult as [H | [(? & ? & H) | [H | H]]]; rewrite H; eauto.
    + intros Heq. rewrite Heq in Hhub. discriminate.
Qed.

Lemma run_misconfigured W :
  CUSTOM_REGISTRY W ≠ "dockerhub" →
  CUSTOM_REGISTRY W ≠ "ghcr" →
  run W = {| result := Exit 1; cursors := initial; events := misconfigured_log W |}.
Proof.
  intros Hhub Hghcr. apply String.eqb_neq in Hhub, Hghcr.
  unfold run, main. unfold bind at 1 2. simpl.
  rewrite REQUIRED_PLATFORMS_nonempty, Hhub, Hghcr. reflexivity.
Qed.

Lemma run_release_fails W :
  CUSTOM_REGISTRY W = "dockerhub" ∨ CUSTOM_REGISTRY W = "ghcr" →
  (∀ tag, result (get_latest_caddy_release W (environ_get W "GITHUB_TOKEN") initial)
          ≠ Ret tag) →
  stopped (run W)
  ∧ requested (events (run W)) = [release_request W (environ_get W "GITHUB_TOKEN")].
Proof.
  intros Hreg Hfail. remember (run W) as r eqn:Hr.
  unfold run, main in Hr. unfold bind at 1 2 in Hr. simpl in Hr.
  rewrite REQUIRED_PLATFORMS_nonempty, (registry_is_valid W Hreg) in Hr.
  unfold bind at 1 in Hr. simpl in Hr. unfold bind at 1 in Hr.
  pose proof (network_get_latest_caddy_release W (environ_get W "GITHUB_TOKEN") initial)
    as [Hp _].
  pose proof (get_latest_caddy_release_ran W (environ_get W "GITHUB_TOKEN") initial)
    as [_ Hq].
  pose proof (release_lookup_ends W (environ_get W "GITHUB_TOKEN") initial) as Hends.
  simpl in Hends.
  destruct (get_latest_caddy_release W _ initial) as [res c evs]. simpl in *.
  destruct Hends as [(tag & -> & _) | [[-> Herr] | [-> _]]]; [by destruct (Hfail tag) | |].
  all: subst r; unfold stopped; simpl; split_and!; [plain_events | auto | by rewrite Hq].
Qed.

Ltac split_requests := repeat first [progress simpl | rewrite requested_app].

Lemma run_official_unreadable W (tag : string) (e : exn) :
  CUSTOM_REGISTRY W = "dockerhub" ∨ CUSTOM_REGISTRY W = "ghcr" →
  result (get_latest_caddy_release W (environ_get W "GITHUB_TOKEN") initial) = Ret tag →
  upstream_state W tag = Raise e →
  ∃ evs,
    run W = {| result := Raise e; cursors := at_request 2; events := evs |}
    ∧ Forall plain evs
    ∧ requested evs = [release_request W (environ_get W "GITHUB_TOKEN");
                       docker_hub_request OFFICIAL_CADDY_IMAGE (Py.lstrip_v tag)]
    ∧ errors evs = [].
Proof.
  intros Hreg Hrel Hup. unfold upstream_state, image_state in Hup.
  pose proof (release_lookup_ends W (environ_get W "GITHUB_TOKEN") initial) as Herr1.
  pose proof (check_docker_hub_tag_found W OFFICIAL_CADDY_IMAGE (Py.lstrip_v tag)
                (at_request 1)) as Herr2.
  simpl in Herr1.
  run_to_upstream W tag Hreg.
  unfold bind at 1. destruct (Py.truthy data) eqn:Htruthy; [| discriminate].
  unfold bind at 1. simpl. unfold bind at 1.
  pose proof (get_platforms_from_tag_data_raises W data (at_request 2)) as Herr3.
  run_get_platforms W data (at_request 2) r3 evs3 Hq3 Hr3 Hp3. rewrite <- Hr3 in Hup.
  destruct r3 as [found| |]; try discriminate.
  destruct Herr3 as [[? ?] | (_ & -> & _)]; [discriminate |].
  destruct Herr1 as [(? & _ & Herr1) | [[? _] | [? _]]]; try discriminate.
  specialize (Herr2 data eq_refl Htruthy).
  simplify_eq/=. eexists. split; [reflexivity |]. split_and!.
  - plain_events.
  - split_requests. by rewrite Hq1, Hq2.
  - repeat first [progress simpl | rewrite errors_app]. by rewrite Herr1, Herr2.
Qed.



Lemma run_custom_unreadable W (tag : string) (e : exn) :
  CUSTOM_REGISTRY W = "dockerhub" ∨ CUSTOM_REGISTRY W = "ghcr" →
  result (get_latest_caddy_release W (environ_get W "GITHUB_TOKEN") initial) = Ret tag →
  upstream_state W tag = Ret PRESENT_COMPLETE →
  custom_state W tag = Raise e →
  ∃ evs,
    run W = {| result := Raise e; cursors := cursors (custom_check W tag); events := evs |}
    ∧ Forall plain evs
    ∧ requested evs = ([release_request W (environ_get W "GITHUB_TOKEN");
                        docker_hub_request OFFICIAL_CADDY_IMAGE (Py.lstrip_v tag)]
                       ++ requested (events (custom_check W tag)))%list.
Proof.
  intros Hreg Hrel Hup Hcustom. unfold upstream_state, image_state in Hup.
  unfold custom_state, image_state in Hcustom.
  run_to_upstream W tag Hreg. rename data into official.
  unfold bind at 1. destruct (Py.truthy official) eqn:Htruthy; [| discriminate].
  unfold bind at 1. simpl. unfold bind at 1.
  run_get_platforms W official (at_request 2) r3 evs3 Hq3 Hr3 Hp3. rewrite <- Hr3 in Hup.
  destruct r3 as [found| |]; try discriminate.
  destruct (has_all_required found) eqn:Hall; [| discriminate].
  simpl. rewrite bind_log_info. unfold bind at 1.
  change ((if String.eqb (CUSTOM_REGISTRY W) "dockerhub"
           then check_docker_hub_tag W (CUSTOM_IMAGE W) (CUSTOM_TAG_PREFIX ++ Py.lstrip_v tag)
           else check_ghcr_tag W (CUSTOM_IMAGE W) (CUSTOM_TAG_PREFIX ++ Py.lstrip_v tag)
                  (environ_get W "GITHUB_TOKEN")) (at_request 2))
    with (custom_check W tag).
  pose proof (network_custom_check W tag) as [Hp4 _].
  destruct (custom_check W tag) as [r4 c4 evs4]. simpl in *.
  destruct r4 as [tag_data| |]; simplify_eq/=.
  - unfold bind at 1. destruct (Py.truthy tag_data) eqn:Htruthy'; [| discriminate].
    unfold bind at 1. simpl. unfold bind at 1.
    run_get_platforms W tag_data c4 r5 evs5 Hq5 Hr5 Hp5. rewrite <- Hr5 in Hcustom.
    destruct r5 as [found'| |]; try discriminate.
    simplify_eq/=. eexists. split; [reflexivity |]. split; [plain_events |].
    split_requests. rewrite Hq1, Hq2, Hq3, Hq5. simpl. by rewrite !app_nil_r.
  - eexists. split; [reflexivity |]. split; [plain_events |].
    split_requests. rewrite Hq1, Hq2, Hq3. simpl. by rewrite ?app_nil_r.
Qed.

Lemma custom_state_cases W (tag : string) :
  (∃ tag_data custom,
     result (custom_check W tag) = Ret tag_data ∧ image_state W tag_data = Ret custom
     ∧ custom_state W tag = Ret custom)
  ∨ custom_state W tag = Raise AttributeError
  ∨ custom_state W tag = Raise TypeError.
Proof.
  unfold custom_state.
  destruct (custom_check_cases W tag) as [[[data Hdata] | [Hraise | Hraise]] _].
  - rewrite Hdata. destruct (image_state_cases W data) as [[custom Hstate] | Hstate].
    + left. eauto.
    + right. right. exact Hstate.
  - rewrite Hraise. auto.
  - rewrite Hraise. auto.
Qed.


Lemma run_course W : ∃ course, follows W course (run W).
Proof.
  destruct (decide (CUSTOM_REGISTRY W = "dockerhub" ∨ CUSTOM_REGISTRY W = "ghcr"))
    as [Hreg | Hreg].
  2: { exists Misconfigured.
       assert (CUSTOM_REGISTRY W ≠ "dockerhub") as Hhub by tauto.
       assert (CUSTOM_REGISTRY W ≠ "ghcr") as Hghcr by tauto.
       split; [by rewrite (run_misconfigured W Hhub Hghcr) |].
       split_and!; [done | done | by apply run_misconfigured]. }
  destruct (release_lookup_ends W (environ_get W "GITHUB_TOKEN") initial)
    as [(tag & Hrel & _) | Hfail].
  2: { exists NoRelease.
       assert (∀ tag, result (get_latest_caddy_release W (environ_get W "GITHUB_TOKEN")
                                initial) ≠ Ret tag) as Hnone
         by (intros tag; destruct Hfail as [[-> _] | [-> _]]; discriminate).
       destruct (run_release_fails W Hreg Hnone) as [Hstop Hq].
       split; [exact Hq |]. split_and!; done. }
  destruct (upstream_state_cases W tag) as [[upstream Hup] | Hup].
  2: { exists (OfficialUnreadable tag).
       destruct (run_official_unreadable W tag TypeError Hreg Hrel Hup)
         as (evs & -> & Hp & Hq & Herr).
       split; [exact Hq |]. unfold stopped. simpl. split_and!; auto. }
  assert (upstream = PRESENT_COMPLETE ∨ upstream ≠ PRESENT_COMPLETE) as [-> | Hne]
    by (destruct upstream; auto).
  2: { exists (NotReady tag).
       destruct (run_not_ready W tag upstream Hreg Hrel Hup Hne) as (evs & -> & Hp & Hq & _).
       destruct (report_not_ready_reported W tag (at_request 2)) as [Hreported Hnone];
         [done |].
       split.
       - rewrite events_prepend, requested_app, Hq, Hnone. reflexivity.
       - split_and!; eauto. by apply reported_prepend. }
  destruct (custom_state_cases W tag)
    as [(tag_data & custom & Hdata & Hstate & Hcustom) | Hcustom].
  - exists (Decided tag (negb (is_complete custom))).
    destruct (run_ready W tag tag_data custom Hreg Hrel Hup Hdata Hstate)
      as (evs & -> & Hp & Hq & _).
    destruct (report_decision_reported W tag (negb (is_complete custom))
                (cursors (custom_check W tag))) as [Hreported Hnone];
      [apply network_custom_check |].
    split.
    + rewrite events_prepend, requested_app, Hq, Hnone. by rewrite app_nil_r.
    + split_and!; eauto. by apply reported_prepend.
  - assert (∃ e, custom_state W tag = Raise e ∧ (e = AttributeError ∨ e = TypeError))
      as (e & He & Hkind) by (destruct Hcustom; eauto).
    exists (CustomUnreadable tag).
    destruct (run_custom_unreadable W tag e Hreg Hrel Hup He) as (evs & -> & Hp & Hq).
    split; [exact Hq |]. unfold stopped. simpl. split_and!; eauto.
    destruct Hkind as [-> | ->]; auto.
Qed.

(** ** What holds of every run *)

Lemma prefix_app (p s : string) : String.prefix p (p ++ s) = true.
Proof.
  induction p as [|a p IH]; simpl; [by destruct s |].
  destruct (ascii_dec a a); [exact IH | done].
Qed.

Lemma allowed_release_request W (token : json) : allowed_request (release_request W token).
Proof. split; [by left | left; reflexivity]. Qed.

Lemma allowed_docker_hub_request (image_name tag : string) :
  allowed_request (docker_hub_request image_name tag).
Proof.
  split; [by right | right; right]. split; [| reflexivity].
  apply (prefix_app "https://hub.docker.com/" ("v2/repositories/" ++ image_name ++ "/tags/" ++ tag)).
Qed.

Lemma allowed_ghcr_token_request W (image_name : string) (token : json) :
  allowed_request (ghcr_token_request W image_name token).
Proof.
  split; [by left | right; left].
  apply (prefix_app "https://ghcr.io/" ("token?scope=repository:" ++ image_name ++ ":pull")).
Qed.

Lemma allowed_ghcr_manifest_request W (image_name tag : string) (registry_token : json) :
  allowed_request (ghcr_manifest_request W image_name tag registry_token).
Proof.
  split; [by right | right; left].
  apply (prefix_app "https://ghcr.io/" ("v2/" ++ image_name ++ "/manifests/" ++ tag)).
Qed.

Lemma allowed_ghcr_config_request W (image_name : string) (config_digest registry_token : json) :
  allowed_request (ghcr_config_request W image_name config_digest registry_token).
Proof.
  split; [by right | right; left].
  apply (prefix_app "https://ghcr.io/" ("v2/" ++ image_name ++ "/blobs/" ++ str W config_digest)).
Qed.

Ltac allowed :=
  repeat first
    [ apply Forall_nil_2 | apply Forall_cons_2
    | apply allowed_release_request | apply allowed_docker_hub_request
    | apply allowed_ghcr_token_request | apply allowed_ghcr_manifest_request
    | apply allowed_ghcr_config_request ].

Lemma allowed_custom_check W (tag : string) :
  Forall allowed_request (requested (events (custom_check W tag))).
Proof.
  unfold custom_check. destruct (String.eqb (CUSTOM_REGISTRY W) "dockerhub").
  - destruct (check_docker_hub_tag_ran W (CUSTOM_IMAGE W) (CUSTOM_TAG_PREFIX ++ Py.lstrip_v tag)
                (at_request 2)) as (_ & -> & _).
    allowed.
  - destruct (check_ghcr_tag_requests W (CUSTOM_IMAGE W) (CUSTOM_TAG_PREFIX ++ Py.lstrip_v tag)
                (environ_get W "GITHUB_TOKEN") (at_request 2))
      as [-> | (registry_token & [-> | (config_digest & ->)])]; allowed.
Qed.

Lemma course_requests_allowed W (course : Course) :
  Forall allowed_request (course_requests W course)
  ∧ (length (course_requests W course) ≤ 5)%nat
  ∧ (CUSTOM_REGISTRY W = "dockerhub" → (length (course_requests W course) ≤ 3)%nat).
Proof.
  destruct course as [| |tag|tag|tag|tag needs_build]; simpl.
  1-4: split_and!; [allowed | lia | lia].
  all: destruct (custom_check_cases W tag) as (_ & Hcount & Hhub).
  all: split_and!;
    [ allowed; apply allowed_custom_check
    | lia
    | intros Hreg; rewrite (Hhub Hreg); simpl; lia ].
Qed.



(** X10: whatever the world, a run makes at most five requests, at most
    three when the custom image is on Docker Hub, the first of them for the
    release; each carries a timeout of 30 or 45 seconds and goes to the
    GitHub API, to GHCR or to Docker Hub over https, and no request to
    Docker Hub carries a header.  A run makes no request at all exactly when
    the registry selector is invalid. *)
Theorem run_requests_are_bounded W :
  let requests := requested (events (run W)) in
  (length requests ≤ 5)%nat
  ∧ (CUSTOM_REGISTRY W = "dockerhub" → (length requests ≤ 3)%nat)
  ∧ Forall allowed_request requests
  ∧ (∀ request rest, requests = request :: rest →
       request = release_request W (environ_get W "GITHUB_TOKEN"))
  ∧ (requests = [] ↔ CUSTOM_REGISTRY W ≠ "dockerhub" ∧ CUSTOM_REGISTRY W ≠ "ghcr").
Proof.
  intros requests. subst requests.
  destruct (run_course W) as [course [Hrequests Hcourse]]. rewrite Hrequests.
  destruct (course_requests_allowed W course) as (Hallowed & Hfive & Hthree).
  split_and!; try done.
  - intros request rest. destruct course; simpl; intros; simplify_eq; reflexivity.
  - destruct course; simpl in *; split; try done.
    all: first [ intros _; tauto | intros [? ?]; exfalso; intuition congruence ].
Qed.

Lemma stopped_quiet (r : Ran unit) :
  stopped r →
  exit_code (result r) = 1 ∧ appended (events r) = [] ∧ warnings (events r) = []
  ∧ (errors (events r) ≠ [] ∨ result r = Raise AttributeError ∨ result r = Raise TypeError).
Proof.
  intros [Hp Hends]. destruct (plain_quiet _ Hp) as [Ha Hw].
  split_and!; try done; destruct Hends as [[-> ?] | [-> | ->]]; auto.
Qed.




Lemma run_reports W (tag : string) (upstream : ImageState) :
  CUSTOM_REGISTRY W = "dockerhub" ∨ CUSTOM_REGISTRY W = "ghcr" →
  result (get_latest_caddy_release W (environ_get W "GITHUB_TOKEN") initial) = Ret tag →
  upstream_state W tag = Ret upstream →
  (upstream ≠ PRESENT_COMPLETE → reported W "false" tag (run W))
  ∧ (upstream = PRESENT_COMPLETE →
     ∀ custom, custom_state W tag = Ret custom →
       reported W (if is_complete custom then "false" else "true") tag (run W)).
Proof.
  intros Hreg Hrel Hup. split.
  - intros Hne.
    destruct (run_not_ready W tag upstream Hreg Hrel Hup Hne) as (evs & -> & Hp & _).
    apply reported_prepend; [exact Hp |].
    by apply report_not_ready_reported.
  - intros -> custom Hcustom. unfold custom_state in Hcustom.
    destruct (result (custom_check W tag)) as [tag_data| |] eqn:Hdata; try discriminate.
    destruct (run_ready W tag tag_data custom Hreg Hrel Hup Hdata Hcustom)
      as (evs & -> & Hp & _).
    apply reported_prepend; [exact Hp |].
    replace (if is_complete custom then "false" else "true")
      with (if negb (is_complete custom) then "true" else "false")
      by (by destruct (is_complete custom)).
    apply report_decision_reported, network_custom_check.
Qed.

(** X13: a sink that is configured but cannot be written ends the run with
    sys.exit(1).  set_action_output logs the error of line 46 and exits
    without appending anything or drawing a UUID.  In every world where the
    first write fails, nothing is appended and the exit status is 1; where
    the lookups complete, the first write goes through and the second fails,
    the run has written NEEDS_BUILD, not LATEST_VERSION, and exits with 1. *)
Theorem unwritable_sink_is_fatal W (path : string) :
  environ W "GITHUB_OUTPUT" = Some path →
  (∀ key value st,
     append_succeeds W (appends_tried st) path = false →
     set_action_output W key value st =
     {| result := Exit 1;
        cursors := {| requests_made := requests_made st;
                      uuids_drawn := uuids_drawn st;
                      appends_tried := S (appends_tried st) |};
        events := [Error (sink_error path)] |})
  ∧ (append_succeeds W 0 path = false →
     exit_code (result (run W)) = 1 ∧ appended (events (run W)) = [])
  ∧ (∀ tag upstream,
       CUSTOM_REGISTRY W = "dockerhub" ∨ CUSTOM_REGISTRY W = "ghcr" →
       result (get_latest_caddy_release W (environ_get W "GITHUB_TOKEN") initial) = Ret tag →
       upstream_state W tag = Ret upstream →
       (upstream = PRESENT_COMPLETE → ∃ custom, custom_state W tag = Ret custom) →
       (append_succeeds W 0 path = false →
        result (run W) = Exit 1 ∧ In (sink_error path) (errors (events (run W))))
       ∧ (append_succeeds W 0 path = true → append_succeeds W 1 path = false →
          result (run W) = Exit 1
          ∧ In (sink_error path) (errors (events (run W)))
          ∧ ∃ flag, (flag = "true" ∨ flag = "false")
              ∧ appended (events (run W)) = [(path, "NEEDS_BUILD=" ++ flag ++ Py.newline)])).
Proof.
  intros Hsink. split_and!.
  - intros key value st Hfail. by apply set_action_output_unwritable.
  - intros Hfail. destruct (run_course W) as [course [_ Hcourse]].
    destruct course as [| |tag|tag|tag|tag needs_build]; simpl in Hcourse.
    + by destruct Hcourse as (_ & _ & ->).
    + destruct Hcourse as (_ & _ & Hstop). by destruct (stopped_quiet _ Hstop) as (? & ? & _).
    + destruct Hcourse as (_ & _ & _ & _ & Hstop).
      by destruct (stopped_quiet _ Hstop) as (? & ? & _).
    + destruct Hcourse as (_ & _ & Hreported). unfold reported in Hreported.
      rewrite Hsink, Hfail in Hreported. by destruct Hreported as (_ & -> & -> & _).
    + destruct Hcourse as (_ & _ & _ & Hstop).
      by destruct (stopped_quiet _ Hstop) as (? & ? & _).
    + destruct Hcourse as (_ & _ & _ & Hreported). unfold reported in Hreported.
      rewrite Hsink, Hfail in Hreported. by destruct Hreported as (_ & -> & -> & _).
  - intros tag upstream Hreg Hrel Hup Hcustom.
    destruct (run_reports W tag upstream Hreg Hrel Hup) as [Hnot Hready].
    assert (∃ flag, (flag = "true" ∨ flag = "false") ∧ reported W flag tag (run W))
      as (flag & Hflag & Hreported).
    { assert (upstream = PRESENT_COMPLETE ∨ upstream ≠ PRESENT_COMPLETE) as [Hc | Hne]
        by (destruct upstream; auto).
      - destruct (Hcustom Hc) as [custom Hstate]. eexists. split; [| by apply (Hready Hc custom)].
        destruct (is_complete custom); auto.
      - exists "false". auto. }
    unfold reported in Hreported. rewrite Hsink in Hreported.
    destruct Hreported as [_ Hreported]. split.
    + intros Hfail. rewrite Hfail in Hreported. by destruct Hreported as (? & _ & ?).
    + intros Hfirst Hsecond. rewrite Hfirst, Hsecond in Hreported.
      destruct Hreported as (? & ? & ?). split_and!; eauto.
Qed.

(** X14: tag data that the extraction cannot read ends the run with an
    uncaught exception.  When the official image's data raises, the run
    ends with that TypeError after its two requests, with exit status 1,
    having written nothing, warned of nothing and logged no error line;
    when the check of the custom image raises, the run ends with that
    exception, again without output. *)
Theorem unreadable_tag_data_ends_the_run W (tag : string) :
  CUSTOM_REGISTRY W = "dockerhub" ∨ CUSTOM_REGISTRY W = "ghcr" →
  result (get_latest_caddy_release W (environ_get W "GITHUB_TOKEN") initial) = Ret tag →
  (∀ e, upstream_state W tag = Raise e →
     e = TypeError
     ∧ result (run W) = Raise TypeError
     ∧ exit_code (result (run W)) = 1
     ∧ requested (events (run W)) =
         [release_request W (environ_get W "GITHUB_TOKEN");
          docker_hub_request OFFICIAL_CADDY_IMAGE (Py.lstrip_v tag)]
     ∧ appended (events (run W)) = []
     ∧ warnings (events (run W)) = []
     ∧ errors (events (run W)) = [])
  ∧ (upstream_state W tag = Ret PRESENT_COMPLETE →
     ∀ e, custom_state W tag = Raise e →
       (e = AttributeError ∨ e = TypeError)
       ∧ result (run W) = Raise e
       ∧ exit_code (result (run W)) = 1
       ∧ appended (events (run W)) = []
       ∧ warnings (events (run W)) = []).
Proof.
  intros Hreg Hrel. split.
  - intros e Hup.
    assert (e = TypeError) as ->
      by (destruct (upstream_state_cases W tag) as [[? ?] | ?]; congruence).
    destruct (run_official_unreadable W tag TypeError Hreg Hrel Hup)
      as (evs & -> & Hp & Hq & Herr).
    destruct (plain_quiet evs Hp) as [Ha Hw]. done.
  - intros Hup e Hcustom.
    assert (e = AttributeError ∨ e = TypeError) as Hkind.
    { destruct (custom_state_cases W tag) as [(? & ? & _ & _ & ?) | [? | ?]];
        [congruence | left; congruence | right; congruence]. }
    destruct (run_custom_unreadable W tag e Hreg Hrel Hup Hcustom) as (evs & -> & Hp & Hq).
    destruct (plain_quiet evs Hp) as [Ha Hw]. done.
Qed.

Lemma reported_written W (flag tag path : string) (r : Ran unit) :
  environ W "GITHUB_OUTPUT" = Some path →
  (∀ n, append_succeeds W n path = true) →
  reported W flag tag r →
  exit_code (result r) = 0
  ∧ appended (events r) =
      [(path, "NEEDS_BUILD=" ++ flag ++ Py.newline);
       (path, output_entry W 0 "LATEST_VERSION" tag)].
Proof.
  intros Hsink Hok. unfold reported. rewrite Hsink, !Hok. tauto.
Qed.

(** X15: the decision with the custom image on Docker Hub, from the answers
    of the registry alone.  Let Docker Hub answer the request for the
    official tag, which is the release tag without its leading "v", with a
    descriptor listing [imgs].  If the platforms of [imgs] do not cover the
    required set, NEEDS_BUILD=false is written.  If they do, the request for
    the custom tag decides: a timeout, a network error, any status but 200
    and a body that is not JSON give NEEDS_BUILD=true; a descriptor gives
    NEEDS_BUILD=false exactly when the platforms it lists cover the required
    set.  In all these cases LATEST_VERSION is written and the exit status
    is 0. *)
Theorem docker_hub_decision W (tag path : string) (resp : Response)
  (d : list (string * json)) (imgs : list json) :
  let custom :=
    requests_outcome W 2 (docker_hub_request (CUSTOM_IMAGE W) (Py.lstrip_v tag)) in
  let written flag :=
    exit_code (result (run W)) = 0
    ∧ appended (events (run W)) =
        [(path, "NEEDS_BUILD=" ++ flag ++ Py.newline);
         (path, output_entry W 0 "LATEST_VERSION" tag)] in
  CUSTOM_REGISTRY W = "dockerhub" →
  result (get_latest_caddy_release W (environ_get W "GITHUB_TOKEN") initial) = Ret tag →
  environ W "GITHUB_OUTPUT" = Some path →
  (∀ n, append_succeeds W n path = true) →
  requests_outcome W 1 (docker_hub_request OFFICIAL_CADDY_IMAGE (Py.lstrip_v tag))
    = Responds resp →
  status_code resp = 200 →
  body resp = Some (JDict d) →
  Py.lookup "images" d = Some (JList imgs) →
  (¬ REQUIRED_PLATFORMS ⊆ published_platforms W imgs → written "false")
  ∧ (REQUIRED_PLATFORMS ⊆ published_platforms W imgs →
     (custom = TimesOut ∨ custom = Fails
      ∨ (∃ resp', custom = Responds resp'
                  ∧ (status_code resp' ≠ 200 ∨ body resp' = None)) →
      written "true")
     ∧ (∀ resp' d' imgs',
          custom = Responds resp' → status_code resp' = 200 →
          body resp' = Some (JDict d') → Py.lookup "images" d' = Some (JList imgs') →
          written (if bool_decide (REQUIRED_PLATFORMS ⊆ published_platforms W imgs')
                   then "false" else "true"))).
Proof.
  intros custom written Hhub Hrel Hsink Hok Hofficial Hstatus Hbody Himages.
  subst custom written.
  assert (upstream_state W tag =
          Ret (if bool_decide (REQUIRED_PLATFORMS ⊆ published_platforms W imgs)
               then PRESENT_COMPLETE else PRESENT_INCOMPLETE)) as Hup.
  { unfold upstream_state.
    rewrite (check_docker_hub_tag_answered W _ _ (at_request 1) resp (JDict d)
               Hofficial Hstatus Hbody).
    by apply image_state_of_images. }
  destruct (run_reports W tag _ (or_introl Hhub) Hrel Hup) as [Hnot Hready].
  split.
  - intros Hmissing. rewrite bool_decide_eq_false_2 in Hnot by done.
    apply (reported_written W "false" tag path _ Hsink Hok). by apply Hnot.
  - intros Hcovered. rewrite bool_decide_eq_true_2 in Hready by done.
    specialize (Hready eq_refl).
    assert (∀ data, result (custom_check W tag) = Ret data →
                    custom_state W tag = image_state W data) as Hstate
      by (intros data Hdata; unfold custom_state; by rewrite Hdata).
    split.
    + intros Hunanswered.
      assert (result (custom_check W tag) = Ret JNull) as Hdata.
      { unfold custom_check. rewrite Hhub. simpl.
        by apply (check_docker_hub_tag_unanswered W _ _ (at_request 2)). }
      apply (reported_written W "true" tag path _ Hsink Hok).
      apply (Hready ABSENT). by rewrite (Hstate _ Hdata).
    + intros resp' d' imgs' Hcustom Hstatus' Hbody' Himages'.
      assert (result (custom_check W tag) = Ret (JDict d')) as Hdata.
      { unfold custom_check. rewrite Hhub. simpl.
        by apply (check_docker_hub_tag_answered W _ _ (at_request 2) resp'). }
      apply (reported_written W _ tag path _ Hsink Hok).
      specialize (Hready _ (eq_trans (Hstate _ Hdata) (image_state_of_images W d' imgs' Himages'))).
      destruct (bool_decide (REQUIRED_PLATFORMS ⊆ published_platforms W imgs')); exact Hready.
Qed.

Lemma prefix_v (c : ascii) (s : string) :
  String.prefix "v" (String c s) = Ascii.eqb c "v".
Proof.
  cbn [String.prefix]. destruct (ascii_dec "v" c) as [<- | Hne].
  - by destruct s.
  - symmetry. apply Ascii.eqb_neq. congruence.
Qed.

Lemma lstrip_v_stripped (s : string) : String.prefix "v" (Py.lstrip_v s) = false.
Proof.
  induction s as [|c s IH]; [reflexivity |]. cbn [Py.lstrip_v].
  destruct (Ascii.eqb c "v") eqn:Hc; [exact IH |]. by rewrite prefix_v.
Qed.

Lemma lstrip_v_unchanged (s : string) : String.prefix "v" s = false → Py.lstrip_v s = s.
Proof.
  destruct s as [|c s]; [reflexivity |]. rewrite prefix_v. cbn [Py.lstrip_v].
  by intros ->.
Qed.

(** X16: the tag asked of Docker Hub.  A tag that the release lookup returns
    is "v" followed by a version; the script asks Docker Hub for the tag
    with every leading "v" removed, so for the version itself when the
    version does not begin with "v", and never for a tag that begins with
    "v".  The version may be empty: the lookup accepts the tag "v". *)
Theorem official_tag_is_stripped W (token : json) (st : State) (tag : string) :
  result (get_latest_caddy_release W token st) = Ret tag →
  ∃ version,
    tag = "v" ++ version
    ∧ Py.lstrip_v tag = Py.lstrip_v version
    ∧ String.prefix "v" (Py.lstrip_v tag) = false
    ∧ (String.prefix "v" version = false →
       docker_hub_request OFFICIAL_CADDY_IMAGE (Py.lstrip_v tag) =
       {| url := "https://hub.docker.com/v2/repositories/library/caddy/tags/" ++ version;
          headers := []; timeout := 45 |}).
Proof.
  intros Hrel.
  destruct (release_lookup_outcomes W token st) as [Hiff _]. simpl in Hiff.
  apply Hiff in Hrel as (_ & _ & _ & _ & _ & _ & Hv).
  destruct tag as [|c version]; [discriminate |]. rewrite prefix_v in Hv.
  apply Ascii.eqb_eq in Hv. subst c.
  exists version. split_and!.
  - reflexivity.
  - reflexivity.
  - apply lstrip_v_stripped.
  - intros Hversion. unfold docker_hub_request. simpl.
    by rewrite (lstrip_v_unchanged version Hversion).
Qed.

(** ** The properties at work on the sample worlds *)

Import Samples.

Ltac evaluate := vm_compute; reflexivity.

(** The official image of the samples: four published platforms, two of them required. *)
Lemma extraction_is_intersection_witness :
  Py.lookup "images" [("name", JStr "2.8.4"); ("images", JList official_imgs)]
    = Some (JList official_imgs)
  ∧ get_platforms_from_tag_data hub_incomplete (tag_descriptor official_imgs) initial =
      {| result := Ret (published_platforms hub_incomplete official_imgs ∩ REQUIRED_PLATFORMS);
         cursors := initial; events := [] |}
  ∧ elements (published_platforms hub_incomplete official_imgs)
      = ["linux/386"; "linux/amd64"; "linux/arm/v7"; "linux/arm64"]
  ∧ elements (published_platforms hub_incomplete official_imgs ∩ REQUIRED_PLATFORMS)
      = ["linux/amd64"; "linux/arm64"].
Proof.
  split; [reflexivity |]. split; [| split; evaluate].
  apply (extraction_is_intersection hub_incomplete
           [("name", JStr "2.8.4"); ("images", JList official_imgs)]
           official_imgs initial eq_refl).
Defined.

(** A proper superset of the required set is complete; without linux/arm64 it is not. *)
Lemma completeness_verdict_witness :
  REQUIRED_PLATFORMS ⊆ published_platforms hub_incomplete official_imgs
  ∧ "linux/arm64" ∈ REQUIRED_PLATFORMS
  ∧ has_all_required (published_platforms hub_incomplete official_imgs) = true
  ∧ has_all_required (published_platforms hub_incomplete official_imgs ∖ {[ "linux/arm64" ]})
    = false.
Proof.
  assert (REQUIRED_PLATFORMS ⊆ published_platforms hub_incomplete official_imgs) as Hsub
    by (apply has_all_required_true; evaluate).
  assert ("linux/arm64" ∈ REQUIRED_PLATFORMS) as Hin
    by (apply elem_of_REQUIRED_PLATFORMS; right; reflexivity).
  split; [exact Hsub |]. split; [exact Hin |]. split.
  - apply (proj1 (completeness_verdict hub_incomplete) _ Hsub).
  - apply (proj1 (proj2 (completeness_verdict hub_incomplete)) _ _ Hin).
Defined.



(** GHCR answers the exchange with 403 and the manifest request with an index:
    the check returns the platforms of the index. *)
Lemma ghcr_falls_back_to_primary_credential_witness :
  Py.truthy (JStr "ghp_example") = true
  ∧ exchange_fails
      (requests_outcome ghcr_exchange_refused 2
         (ghcr_token_request ghcr_exchange_refused "caddybuilds/caddy-cloudflare"
            (JStr "ghp_example")))
  ∧ result (check_ghcr_tag ghcr_exchange_refused "caddybuilds/caddy-cloudflare" "2.8.4"
              (JStr "ghp_example") (at_request 2))
    = result (ghcr_manifest ghcr_exchange_refused "caddybuilds/caddy-cloudflare" "2.8.4"
                (JStr "ghp_example") (at_request 3))
  ∧ result (ghcr_manifest ghcr_exchange_refused "caddybuilds/caddy-cloudflare" "2.8.4"
              (JStr "ghp_example") (at_request 3))
    = Ret (JDict [("images", JList [descriptor "amd64" None; descriptor "arm64" None])]).
Proof.
  assert (exchange_fails
            (requests_outcome ghcr_exchange_refused 2
               (ghcr_token_request ghcr_exchange_refused "caddybuilds/caddy-cloudflare"
                  (JStr "ghp_example")))) as Hfail
    by (left; discriminate).
  split; [reflexivity |]. split; [exact Hfail |]. split; [| evaluate].
  destruct (ghcr_falls_back_to_primary_credential ghcr_exchange_refused
              "caddybuilds/caddy-cloudflare" "2.8.4" (JStr "ghp_example") (at_request 2)
              eq_refl Hfail) as (log & rest & _ & _ & _ & Hresult).
  exact Hresult.
Defined.

(** The release API answers 503: exit code 1 and no output. *)
Lemma release_lookup_is_fatal_witness :
  (∀ tag, result (get_latest_caddy_release release_unavailable
                    (environ_get release_unavailable "GITHUB_TOKEN") initial) ≠ Ret tag)
  ∧ exit_code (result (run release_unavailable)) = 1
  ∧ appended (events (run release_unavailable)) = []
  ∧ warnings (events (run release_unavailable)) = [].
Proof.
  assert (∀ tag, result (get_latest_caddy_release release_unavailable
                           (environ_get release_unavailable "GITHUB_TOKEN") initial)
                 ≠ Ret tag) as Hfail
    by (intros tag; vm_compute; discriminate).
  split; [exact Hfail |].
  exact (proj2 (release_lookup_is_fatal release_unavailable) Hfail).
Defined.

(** A value of two lines, written as a block whose delimiter it does not hold. *)
Lemma output_entry_written_witness :
  environ hub_incomplete "GITHUB_OUTPUT" = Some sink
  ∧ append_succeeds hub_incomplete 0 sink = true
  ∧ Py.has_newline ("first" ++ Py.newline ++ "second") = true
  ∧ events (set_action_output hub_incomplete "NOTES" ("first" ++ Py.newline ++ "second") initial)
    = [Append sink
         ("NOTES<<ghadelimiter_" ++ sample_uuid ++ Py.newline
          ++ "first" ++ Py.newline ++ "second" ++ Py.newline
          ++ "ghadelimiter_" ++ sample_uuid ++ Py.newline)]
  ∧ Py.substring_of ("ghadelimiter_" ++ sample_uuid) ("first" ++ Py.newline ++ "second")
    = false.
Proof.
  split; [reflexivity |]. split; [reflexivity |]. split; [reflexivity |].
  destruct (output_entry_written hub_incomplete "NOTES" ("first" ++ Py.newline ++ "second")
              sink initial eq_refl eq_refl) as (_ & Hblock & _).
  destruct (Hblock eq_refl) as (Hevents & _ & Habsent).
  split; [exact Hevents | exact (Habsent eq_refl)].
Defined.

(** GHCR without a token: a build is needed, and GHCR was not asked. *)
Lemma ghcr_without_token_needs_build_witness :
  CUSTOM_REGISTRY ghcr_no_token = "ghcr"
  ∧ Py.truthy (environ_get ghcr_no_token "GITHUB_TOKEN") = false
  ∧ upstream_state ghcr_no_token "v2.8.4" = Ret PRESENT_COMPLETE
  ∧ result (run ghcr_no_token) = Ret tt
  ∧ appended (events (run ghcr_no_token)) =
      [(sink, "NEEDS_BUILD=true" ++ Py.newline); (sink, "LATEST_VERSION=v2.8.4" ++ Py.newline)]
  ∧ requested (events (run ghcr_no_token)) =
      [release_request ghcr_no_token JNull; docker_hub_request "library/caddy" "2.8.4"].
Proof.
  assert (upstream_state ghcr_no_token "v2.8.4" = Ret PRESENT_COMPLETE) as Hup by evaluate.
  assert (result (get_latest_caddy_release ghcr_no_token
                    (environ_get ghcr_no_token "GITHUB_TOKEN") initial) = Ret "v2.8.4")
    as Hrel by evaluate.
  split; [reflexivity |]. split; [reflexivity |]. split; [exact Hup |].
  exact (proj2 (ghcr_without_token_needs_build ghcr_no_token) "v2.8.4" sink
           eq_refl eq_refl Hrel Hup eq_refl (fun _ => eq_refl)).
Defined.

(** The example of section 8 without GITHUB_OUTPUT: two warnings, exit code 0. *)
Lemma missing_sink_is_not_fatal_witness :
  environ hub_no_sink "GITHUB_OUTPUT" = None
  ∧ upstream_state hub_no_sink "v2.8.4" = Ret PRESENT_COMPLETE
  ∧ custom_state hub_no_sink "v2.8.4" = Ret PRESENT_INCOMPLETE
  ∧ appended (events (run hub_no_sink)) = []
  ∧ exit_code (result (run hub_no_sink)) = 0
  ∧ warnings (events (run hub_no_sink)) =
      [no_sink_warning "NEEDS_BUILD"; no_sink_warning "LATEST_VERSION"]
  ∧ In (Info (decision_message "v2.8.4" true)) (events (run hub_no_sink)).
Proof.
  assert (upstream_state hub_no_sink "v2.8.4" = Ret PRESENT_COMPLETE) as Hup by evaluate.
  assert (result (get_latest_caddy_release hub_no_sink
                    (environ_get hub_no_sink "GITHUB_TOKEN") initial) = Ret "v2.8.4")
    as Hrel by evaluate.
  assert (result (custom_check hub_no_sink "v2.8.4")
          = Ret (tag_descriptor [descriptor "amd64" None])) as Hcustom by evaluate.
  assert (image_state hub_no_sink (tag_descriptor [descriptor "amd64" None])
          = Ret PRESENT_INCOMPLETE) as Hstate by evaluate.
  destruct (missing_sink_is_not_fatal hub_no_sink eq_refl) as (Hnone & _ & Hdecides).
  destruct (Hdecides "v2.8.4" PRESENT_COMPLETE (or_introl eq_refl) Hrel Hup) as [_ Hready].
  split; [reflexivity |]. split; [exact Hup |]. split; [evaluate |]. split; [exact Hnone |].
  exact (Hready eq_refl _ _ Hcustom Hstate).
Defined.

(** The example of section 8: official image complete, custom image with
    linux/amd64 only, so a build is needed. *)
Lemma build_decision_witness :
  (CUSTOM_REGISTRY hub_incomplete = "dockerhub" ∨ CUSTOM_REGISTRY hub_incomplete = "ghcr")
  ∧ environ hub_incomplete "GITHUB_OUTPUT" = Some sink
  ∧ upstream_state hub_incomplete "v2.8.4" = Ret PRESENT_COMPLETE
  ∧ custom_state hub_incomplete "v2.8.4" = Ret PRESENT_INCOMPLETE
  ∧ result (run hub_incomplete) = Ret tt
  ∧ appended (events (run hub_incomplete)) =
      [(sink, "NEEDS_BUILD=true" ++ Py.newline); (sink, "LATEST_VERSION=v2.8.4" ++ Py.newline)].
Proof.
  assert (upstream_state hub_incomplete "v2.8.4" = Ret PRESENT_COMPLETE) as Hup by evaluate.
  assert (result (get_latest_caddy_release hub_incomplete
                    (environ_get hub_incomplete "GITHUB_TOKEN") initial) = Ret "v2.8.4")
    as Hrel by evaluate.
  assert (result (custom_check hub_incomplete "v2.8.4")
          = Ret (tag_descriptor [descriptor "amd64" None])) as Hcustom by evaluate.
  assert (image_state hub_incomplete (tag_descriptor [descriptor "amd64" None])
          = Ret PRESENT_INCOMPLETE) as Hstate by evaluate.
  destruct (build_decision hub_incomplete "v2.8.4" sink PRESENT_COMPLETE
              (or_introl eq_refl) Hrel eq_refl (fun _ => eq_refl) Hup) as (_ & Hready & _).
  split; [left; reflexivity |]. split; [reflexivity |]. split; [exact Hup |].
  split; [evaluate |].
  exact (Hready eq_refl _ _ Hcustom Hstate).
Defined.

(** C8 as stated fails: the delimiter is drawn without looking at the
    payload, so a payload may hold it. *)
Lemma delimiter_can_occur_in_payload :
  ¬ (∀ W key value path st delim,
       environ W "GITHUB_OUTPUT" = Some path →
       append_succeeds W (appends_tried st) path = true →
       Py.has_newline value = true →
       events (set_action_output W key value st) =
         [Append path (key ++ "<<" ++ delim ++ Py.newline
                       ++ value ++ Py.newline ++ delim ++ Py.newline)] →
       Py.substring_of delim value = false).
Proof.
  intros Hnever.
  specialize (Hnever hub_incomplete "LATEST_VERSION" colliding_value sink initial
                ("ghadelimiter_" ++ sample_uuid) eq_refl eq_refl eq_refl).
  assert (Py.substring_of ("ghadelimiter_" ++ sample_uuid) colliding_value = true) as Hin
    by evaluate.
  rewrite Hnever in Hin; [discriminate | evaluate].
Qed.

(** A descriptor without a list of images: nothing found, one line logged. *)
Lemma extraction_without_images_witness :
  get_platforms_from_tag_data hub_incomplete (JDict [("name", JStr "2.8.4")]) initial
  = {| result := Ret ∅; cursors := initial; events := [Info no_images_message] |}
  ∧ result (get_platforms_from_tag_data hub_incomplete (JInt 404) initial) = Raise TypeError.
Proof.
  destruct (extraction_without_images hub_incomplete (JDict [("name", JStr "2.8.4")]) initial)
    as (Hempty & _).
  destruct (extraction_without_images hub_incomplete (JInt 404) initial)
    as (_ & _ & _ & Hraises).
  split.
  - apply Hempty. right. left. exists [("name", JStr "2.8.4")]. split; [reflexivity |].
    intros imgs. discriminate.
  - apply Hraises. split; [reflexivity |]. right. left. by exists 404.
Defined.

(** The official image of the samples: what is found is within the required
    set, and being complete it is the required set. *)
Lemma extraction_stays_within_required_witness :
  result (get_platforms_from_tag_data hub_incomplete (tag_descriptor official_imgs) initial)
  = Ret (published_platforms hub_incomplete official_imgs ∩ REQUIRED_PLATFORMS)
  ∧ published_platforms hub_incomplete official_imgs ∩ REQUIRED_PLATFORMS ⊆ REQUIRED_PLATFORMS
  ∧ (has_all_required (published_platforms hub_incomplete official_imgs ∩ REQUIRED_PLATFORMS)
     = true
     ↔ published_platforms hub_incomplete official_imgs ∩ REQUIRED_PLATFORMS
       = REQUIRED_PLATFORMS).
Proof.
  assert (result (get_platforms_from_tag_data hub_incomplete (tag_descriptor official_imgs)
                    initial)
          = Ret (published_platforms hub_incomplete official_imgs ∩ REQUIRED_PLATFORMS))
    as Hfound by evaluate.
  split; [exact Hfound |].
  exact (extraction_stays_within_required hub_incomplete _ initial _ Hfound).
Defined.

(** GHCR refuses the manifest request with 401: absent, with the two lines
    about authentication. *)
Lemma ghcr_manifest_refusals_witness :
  requests_outcome ghcr_unauthorized 3
    (ghcr_manifest_request ghcr_unauthorized "caddybuilds/caddy-cloudflare" "2.8.4" JNull)
    = status 401
  ∧ result (ghcr_manifest ghcr_unauthorized "caddybuilds/caddy-cloudflare" "2.8.4" JNull
              (at_request 3)) = Ret JNull
  ∧ errors (events (ghcr_manifest ghcr_unauthorized "caddybuilds/caddy-cloudflare" "2.8.4"
                      JNull (at_request 3)))
    = ghcr_auth_errors "caddybuilds/caddy-cloudflare" 401.
Proof.
  split; [reflexivity |].
  destruct (ghcr_manifest_refusals ghcr_unauthorized "caddybuilds/caddy-cloudflare" "2.8.4"
              JNull (at_request 3)) as (_ & Hrefused & _).
  destruct (Hrefused _ eq_refl (or_introl eq_refl)) as (Hresult & _ & Herrors).
  split; [exact Hresult | exact Herrors].
Defined.

(** GHCR serves a document of type text/html: absent, and the type is logged. *)
Lemma ghcr_unknown_manifest_type_witness :
  requests_outcome ghcr_strange 3
    (ghcr_manifest_request ghcr_strange "caddybuilds/caddy-cloudflare" "2.8.4"
       (JStr "ghp_example"))
    = ok (JDict [("mediaType", JStr "text/html")])
  ∧ ghcr_manifest ghcr_strange "caddybuilds/caddy-cloudflare" "2.8.4" (JStr "ghp_example")
      (at_request 3)
    = {| result := Ret JNull; cursors := at_request 4;
         events :=
           [Get (ghcr_manifest_request ghcr_strange "caddybuilds/caddy-cloudflare" "2.8.4"
                   (JStr "ghp_example"));
            Error (ghcr_unknown_type_error ghcr_strange "caddybuilds/caddy-cloudflare"
                     "2.8.4" (JStr "text/html"))] |}.
Proof.
  split; [reflexivity |].
  exact (ghcr_unknown_manifest_type ghcr_strange "caddybuilds/caddy-cloudflare" "2.8.4"
           (JStr "ghp_example") (at_request 3) _ [("mediaType", JStr "text/html")]
           eq_refl eq_refl eq_refl eq_refl eq_refl).
Defined.

(** The index of the samples: two children, two entries, both platforms found. *)
Lemma ghcr_index_platforms_witness :
  Forall (fun m => is_Some (platform_of_child m))
    [JDict [("platform", descriptor "amd64" None)];
     JDict [("platform", descriptor "arm64" None)]]
  ∧ result (ghcr_manifest ghcr_exchange_refused "caddybuilds/caddy-cloudflare" "2.8.4"
              (JStr "ghp_example") (at_request 3))
    = Ret (JDict [("images", JList [descriptor "amd64" None; descriptor "arm64" None])])
  ∧ platform_of_child (JStr "linux/amd64") = None
  ∧ ∃ data,
      result (ghcr_manifest ghcr_exchange_refused "caddybuilds/caddy-cloudflare" "2.8.4"
                (JStr "ghp_example") (at_request 3)) = Ret data
      ∧ ∀ st, result (get_platforms_from_tag_data ghcr_exchange_refused data st)
              = Ret (published_platforms ghcr_exchange_refused
                       [descriptor "amd64" None; descriptor "arm64" None]
                     ∩ REQUIRED_PLATFORMS).
Proof.
  assert (Forall (fun m => is_Some (platform_of_child m))
            [JDict [("platform", descriptor "amd64" None)];
             JDict [("platform", descriptor "arm64" None)]]) as Hchildren
    by (repeat constructor; eexists; reflexivity).
  destruct (ghcr_index_platforms ghcr_exchange_refused "caddybuilds/caddy-cloudflare" "2.8.4"
              (JStr "ghp_example") (at_request 3) _ _ _ eq_refl eq_refl eq_refl eq_refl eq_refl)
    as [Hentries _].
  destruct (Hentries Hchildren) as [Hrun Hfound].
  split; [exact Hchildren |]. split; [by rewrite Hrun |]. split; [reflexivity |].
  exact Hfound.
Defined.

(** A single-platform manifest: the configuration blob is asked for with the
    granted token and gives the one entry. *)
Lemma ghcr_single_manifest_witness :
  Py.truthy (JStr "sha256:0a1b") = true
  ∧ requested (events (ghcr_manifest ghcr_single "caddybuilds/caddy-cloudflare" "2.8.4"
                         (JStr "registry-token") (at_request 3)))
    = [ghcr_manifest_request ghcr_single "caddybuilds/caddy-cloudflare" "2.8.4"
         (JStr "registry-token");
       ghcr_config_request ghcr_single "caddybuilds/caddy-cloudflare" (JStr "sha256:0a1b")
         (JStr "registry-token")]
  ∧ result (ghcr_manifest ghcr_single "caddybuilds/caddy-cloudflare" "2.8.4"
              (JStr "registry-token") (at_request 3))
    = Ret (JDict [("images", JList [descriptor "amd64" None])]).
Proof.
  destruct (ghcr_single_manifest ghcr_single "caddybuilds/caddy-cloudflare" "2.8.4"
              (JStr "registry-token") (at_request 3) _ ghcr_single_manifest_body
              [("digest", JStr "sha256:0a1b")] eq_refl eq_refl eq_refl eq_refl eq_refl eq_refl)
    as [_ Hblob].
  destruct (Hblob eq_refl) as (Hrequests & Hanswered & _).
  split; [reflexivity |]. split; [exact Hrequests |].
  exact (proj1 (Hanswered _ (JDict [("architecture", JStr "amd64"); ("os", JStr "linux")])
                  (descriptor "amd64" None) eq_refl eq_refl eq_refl eq_refl)).
Defined.

(** The exchange answers without a token: the manifest request says Bearer None. *)
Lemma ghcr_uses_granted_token_witness :
  Py.truthy (JStr "ghp_example") = true
  ∧ requests_outcome ghcr_unauthorized 2
      (ghcr_token_request ghcr_unauthorized "caddybuilds/caddy-cloudflare" (JStr "ghp_example"))
    = ok (JDict [("error", JStr "denied")])
  ∧ check_ghcr_tag ghcr_unauthorized "caddybuilds/caddy-cloudflare" "2.8.4"
      (JStr "ghp_example") (at_request 2)
    = prepend
        [Get (ghcr_token_request ghcr_unauthorized "caddybuilds/caddy-cloudflare"
                (JStr "ghp_example"))]
        (ghcr_manifest ghcr_unauthorized "caddybuilds/caddy-cloudflare" "2.8.4" JNull
           (at_request 3))
  ∧ headers (ghcr_manifest_request ghcr_unauthorized "caddybuilds/caddy-cloudflare" "2.8.4"
               JNull)
    = [("Authorization", "Bearer None");
       ("Accept", "application/vnd.oci.image.index.v1+json, application/vnd.docker.distribution.manifest.list.v2+json")].
Proof.
  destruct (ghcr_uses_granted_token ghcr_unauthorized "caddybuilds/caddy-cloudflare" "2.8.4"
              (JStr "ghp_example") (at_request 2) _ [("error", JStr "denied")]
              eq_refl eq_refl eq_refl eq_refl) as (Hrun & _ & Hbearer).
  split; [reflexivity |]. split; [reflexivity |]. split; [exact Hrun | exact (Hbearer eq_refl)].
Defined.


(** The example of section 8 on Docker Hub: three requests. *)
Lemma run_requests_are_bounded_witness :
  CUSTOM_REGISTRY hub_incomplete = "dockerhub"
  ∧ (length (requested (events (run hub_incomplete))) ≤ 3)%nat
  ∧ requested (events (run hub_incomplete)) =
      [release_request hub_incomplete JNull;
       docker_hub_request "library/caddy" "2.8.4";
       docker_hub_request "caddybuilds/caddy-cloudflare" "2.8.4"].
Proof.
  split; [reflexivity |]. split; [| evaluate].
  exact (proj1 (proj2 (run_requests_are_bounded hub_incomplete)) eq_refl).
Defined.



(** The example of section 8 with a sink that takes one entry: NEEDS_BUILD is
    written, LATEST_VERSION is not, and the run exits with 1. *)
Lemma unwritable_sink_is_fatal_witness :
  environ (with_sink_capacity 1 hub_incomplete) "GITHUB_OUTPUT" = Some sink
  ∧ upstream_state (with_sink_capacity 1 hub_incomplete) "v2.8.4" = Ret PRESENT_COMPLETE
  ∧ custom_state (with_sink_capacity 1 hub_incomplete) "v2.8.4" = Ret PRESENT_INCOMPLETE
  ∧ append_succeeds (with_sink_capacity 1 hub_incomplete) 0 sink = true
  ∧ append_succeeds (with_sink_capacity 1 hub_incomplete) 1 sink = false
  ∧ result (run (with_sink_capacity 1 hub_incomplete)) = Exit 1
  ∧ In (sink_error sink) (errors (events (run (with_sink_capacity 1 hub_incomplete))))
  ∧ ∃ flag, (flag = "true" ∨ flag = "false")
      ∧ appended (events (run (with_sink_capacity 1 hub_incomplete))) =
          [(sink, "NEEDS_BUILD=" ++ flag ++ Py.newline)].
Proof.
  assert (upstream_state (with_sink_capacity 1 hub_incomplete) "v2.8.4" = Ret PRESENT_COMPLETE)
    as Hup by evaluate.
  assert (custom_state (with_sink_capacity 1 hub_incomplete) "v2.8.4" = Ret PRESENT_INCOMPLETE)
    as Hcustom by evaluate.
  assert (result (get_latest_caddy_release (with_sink_capacity 1 hub_incomplete)
                    (environ_get (with_sink_capacity 1 hub_incomplete) "GITHUB_TOKEN")
                    initial) = Ret "v2.8.4") as Hrel by evaluate.
  destruct (unwritable_sink_is_fatal (with_sink_capacity 1 hub_incomplete) sink eq_refl)
    as (_ & _ & Hlater).
  destruct (Hlater "v2.8.4" PRESENT_COMPLETE (or_introl eq_refl) Hrel Hup
              (fun _ => ex_intro _ PRESENT_INCOMPLETE Hcustom)) as [_ Hsecond].
  split; [reflexivity |]. split; [exact Hup |]. split; [exact Hcustom |].
  split; [reflexivity |]. split; [reflexivity |].
  exact (Hsecond eq_refl eq_refl).
Defined.

(** Docker Hub answers with the number 404 in the body: the run ends with a
    TypeError, without output and without an error line. *)
Lemma unreadable_tag_data_ends_the_run_witness :
  upstream_state official_unreadable "v2.8.4" = Raise TypeError
  ∧ result (run official_unreadable) = Raise TypeError
  ∧ exit_code (result (run official_unreadable)) = 1
  ∧ appended (events (run official_unreadable)) = []
  ∧ errors (events (run official_unreadable)) = [].
Proof.
  assert (upstream_state official_unreadable "v2.8.4" = Raise TypeError) as Hup by evaluate.
  assert (result (get_latest_caddy_release official_unreadable
                    (environ_get official_unreadable "GITHUB_TOKEN") initial) = Ret "v2.8.4")
    as Hrel by evaluate.
  destruct (unreadable_tag_data_ends_the_run official_unreadable "v2.8.4"
              (or_introl eq_refl) Hrel) as [Hofficial _].
  destruct (Hofficial TypeError Hup) as (_ & Hresult & Hcode & _ & Hnone & _ & Hquiet).
  split; [exact Hup |]. split; [exact Hresult |]. split; [exact Hcode |].
  split; [exact Hnone | exact Hquiet].
Defined.

(** The example of section 8 from the answers of Docker Hub: the custom
    image lists linux/amd64 only, so NEEDS_BUILD=true. *)
Lemma docker_hub_decision_witness :
  REQUIRED_PLATFORMS ⊆ published_platforms hub_incomplete official_imgs
  ∧ bool_decide (REQUIRED_PLATFORMS
                 ⊆ published_platforms hub_incomplete [descriptor "amd64" None]) = false
  ∧ exit_code (result (run hub_incomplete)) = 0
  ∧ appended (events (run hub_incomplete)) =
      [(sink, "NEEDS_BUILD=true" ++ Py.newline);
       (sink, output_entry hub_incomplete 0 "LATEST_VERSION" "v2.8.4")].
Proof.
  assert (REQUIRED_PLATFORMS ⊆ published_platforms hub_incomplete official_imgs) as Hcovered
    by (apply has_all_required_true; evaluate).
  assert (result (get_latest_caddy_release hub_incomplete
                    (environ_get hub_incomplete "GITHUB_TOKEN") initial) = Ret "v2.8.4")
    as Hrel by evaluate.
  assert (bool_decide (REQUIRED_PLATFORMS
                       ⊆ published_platforms hub_incomplete [descriptor "amd64" None]) = false)
    as Hmissing.
  { apply bool_decide_eq_false. intros Hsub.
    apply has_all_required_true in Hsub. revert Hsub. vm_compute. discriminate. }
  destruct (docker_hub_decision hub_incomplete "v2.8.4" sink _
              [("name", JStr "2.8.4"); ("images", JList official_imgs)] official_imgs
              eq_refl Hrel eq_refl (fun _ => eq_refl) eq_refl eq_refl eq_refl eq_refl)
    as [_ Hready].
  destruct (Hready Hcovered) as [_ Hdescribed].
  pose proof (Hdescribed _ [("name", JStr "2.8.4"); ("images", JList [descriptor "amd64" None])]
                [descriptor "amd64" None] eq_refl eq_refl eq_refl eq_refl) as Hwritten.
  rewrite Hmissing in Hwritten.
  split; [exact Hcovered |]. split; [exact Hmissing |]. exact Hwritten.
Defined.

(** The release v2.8.4: Docker Hub is asked for the tag 2.8.4. *)
Lemma official_tag_is_stripped_witness :
  result (get_latest_caddy_release hub_incomplete JNull initial) = Ret "v2.8.4"
  ∧ ∃ version,
      "v2.8.4" = "v" ++ version
      ∧ Py.lstrip_v "v2.8.4" = Py.lstrip_v version
      ∧ String.prefix "v" (Py.lstrip_v "v2.8.4") = false
      ∧ (String.prefix "v" version = false →
         docker_hub_request OFFICIAL_CADDY_IMAGE (Py.lstrip_v "v2.8.4") =
         {| url := "https://hub.docker.com/v2/repositories/library/caddy/tags/" ++ version;
            headers := []; timeout := 45 |}).
Proof.
  assert (result (get_latest_caddy_release hub_incomplete JNull initial) = Ret "v2.8.4")
    as Hrel by evaluate.
  split; [exact Hrel |].
  exact (official_tag_is_stripped hub_incomplete JNull initial "v2.8.4" Hrel).
Defined.
